(** * msgraph-toolkit: a shallow embedding of the Microsoft Graph client

    The development follows the Python sources

      - [msgraph_toolkit/base.py]          (class [MsGraphBase])
      - [msgraph_toolkit/sync_client.py],
        [msgraph_toolkit/async_client.py]  ([get_token])
      - [msgraph_toolkit/toolkit/mails.py]  ([Mails], [AsyncMails])
      - [msgraph_toolkit/toolkit/drives.py] ([Drives], [AsyncDrives])
      - [msgraph_toolkit/toolkit/users.py]  ([Users], [AsyncUsers])

    The blocking and the [async] classes are the same text up to
    [async]/[await] and [httpx.Client]/[httpx.AsyncClient]; every awaited
    call is awaited at once, so one embedding covers both.

    Python values are an inductive type, exceptions are an inductive type,
    and a method is a function in a state-and-exception monad over a
    [World]: the client object (with its mutable [token] field), the list of
    requests handed to the HTTP transport so far, and the environment the
    code talks to (remote server, file system, MIME table).  Unlike a
    state transformer over an error monad, a raised exception keeps the
    state reached when it was raised: requests already sent stay sent.
    Calls to the logger do not influence control flow and are left out,
    but for the one whose message can itself raise (in [list_messages]). *)

From Stdlib Require Import ZArith List String Ascii Bool Lia Arith.
From Stdlib.Strings Require Import Byte.
From Stdlib Require Import DecimalString.
Import ListNotations.

Set Warnings "-register-all".

Local Open Scope string_scope.
Local Open Scope Z_scope.

(* ====================================================================== *)
(** * Python values *)
(* ====================================================================== *)

(** The values the toolkit handles: JSON documents ([response.json()]),
    recipients, request payloads.  Dictionaries keep insertion order, as in
    Python, and have string keys (all the dictionaries of the toolkit do). *)
Definition bytes := list byte.

Inductive pyval : Type :=
| PyNone
| PyBool (b : bool)
| PyInt (z : Z)
| PyStr (s : string)
| PyBytes (b : bytes)
| PyTuple (items : list pyval)
| PyList (items : list pyval)
| PyDict (entries : list (string * pyval)).

(** [bool(v)]: the truth value Python gives to [v] in [if v:] / [not v]. *)
Definition py_truthy (v : pyval) : bool :=
  match v with
  | PyNone => false
  | PyBool b => b
  | PyInt z => negb (z =? 0)
  | PyStr s => negb (String.eqb s "")
  | PyBytes b => match b with [] => false | _ => true end
  | PyTuple l | PyList l => match l with [] => false | _ => true end
  | PyDict d => match d with [] => false | _ => true end
  end.

(** What [json.dumps] (and the [json=] argument of [httpx]) accepts: any
    value with no [bytes] in it; a tuple is written as an array. *)
Fixpoint json_serializable (v : pyval) : bool :=
  match v with
  | PyBytes _ => false
  | PyTuple l | PyList l => forallb json_serializable l
  | PyDict d => forallb (fun kv => json_serializable (snd kv)) d
  | _ => true
  end.

(** Truth value of an [Optional[str]] argument: [None] and [""] are false. *)
Definition truthy (o : option string) : bool :=
  match o with
  | Some s => negb (String.eqb s "")
  | None => false
  end.

Definition is_some {A} (o : option A) : bool :=
  match o with Some _ => true | None => false end.

(** The string of an [Optional[str]] argument known not to be [None]. *)
Definition opt_str (o : option string) : string :=
  match o with Some s => s | None => "" end.

(** [f"{x}"] for an [Optional[str]]: [None] prints as ["None"]. *)
Definition fstr (o : option string) : string :=
  match o with Some s => s | None => "None" end.

(** [d.get(k)] on the entries of a dictionary. *)
Fixpoint dict_get (k : string) (d : list (string * pyval)) : option pyval :=
  match d with
  | [] => None
  | (k', v) :: rest => if String.eqb k k' then Some v else dict_get k rest
  end.

(** [d[k] = v]: overwrite in place, or append a new key at the end. *)
Fixpoint dict_set (k : string) (v : pyval) (d : list (string * pyval))
  : list (string * pyval) :=
  match d with
  | [] => [(k, v)]
  | (k', v') :: rest =>
      if String.eqb k k' then (k', v) :: rest else (k', v') :: dict_set k v rest
  end.

(** [str(n)] for an integer. *)
Definition py_str_int (n : Z) : string := NilZero.string_of_int (Z.to_int n).

(* ---------------------------------------------------------------------- *)
(** ** Strings *)

Definition ascii_lower (c : ascii) : ascii :=
  let n := nat_of_ascii c in
  if (andb (Nat.leb 65 n) (Nat.leb n 90)) then ascii_of_nat (n + 32) else c.

(** [s.lower()], on the ASCII letters; other bytes are left alone. *)
Fixpoint lower (s : string) : string :=
  match s with
  | EmptyString => EmptyString
  | String c rest => String (ascii_lower c) (lower rest)
  end.

(** [needle in hay] for two strings. *)
Definition str_contains (needle hay : string) : bool :=
  is_some (String.index 0 needle hay).

Fixpoint lstrip_char (c : ascii) (s : string) : string :=
  match s with
  | String c' rest => if Ascii.eqb c c' then lstrip_char c rest else s
  | EmptyString => EmptyString
  end.

Fixpoint rstrip_char (c : ascii) (s : string) : string :=
  match s with
  | EmptyString => EmptyString
  | String c' rest =>
      match rstrip_char c rest with
      | EmptyString => if Ascii.eqb c c' then EmptyString else String c' EmptyString
      | r => String c' r
      end
  end.

(** [s.strip('/')]. *)
Definition strip_slash (s : string) : string :=
  rstrip_char "/" (lstrip_char "/" s).

(** [os.path.basename(p)]: what follows the last ['/']. *)
Fixpoint basename_from (acc : string) (s : string) : string :=
  match s with
  | EmptyString => acc
  | String c rest =>
      if Ascii.eqb c "/" then basename_from rest rest else basename_from acc rest
  end.

Definition basename (p : string) : string := basename_from p p.

(* ---------------------------------------------------------------------- *)
(** ** Bytes, slices and ranges *)

(** [len(b)] as a Python integer. *)
Definition len {A} (l : list A) : Z := Z.of_nat (List.length l).

(** [len(s)] for a string. *)
Definition str_len (s : string) : Z := Z.of_nat (String.length s).

(** [b[start:stop]] for [0 <= start <= stop]: indices past the end are
    clamped, as Python does. *)
Definition py_slice {A} (l : list A) (start stop : Z) : list A :=
  firstn (Z.to_nat (stop - start)) (skipn (Z.to_nat start) l).

(** [list(range(start, stop, step))] for a positive [step]: the
    [ceil((stop - start) / step)] values [start + i * step]. *)
Definition py_range (start stop step : Z) : list Z :=
  map (fun i => start + Z.of_nat i * step)
      (seq 0 (Z.to_nat ((stop - start + step - 1) / step))).

(** [ceil(a / b)] for a positive [b]. *)
Definition ceil_div (a b : Z) : Z := (a + b - 1) / b.

(* ---------------------------------------------------------------------- *)
(** ** [base64.b64encode] *)

Definition b64_alphabet : string :=
  "ABCDEFGHIJKLMNOPQRSTUVWXYZabcdefghijklmnopqrstuvwxyz0123456789+/".

(** The character of a 6-bit group. *)
Definition b64_char (n : N) : ascii :=
  match String.get (N.to_nat (N.land n 63)) b64_alphabet with
  | Some c => c
  | None => "="%char
  end.

(** Three bytes give four characters; a last group of one or two bytes is
    padded with ['=']. *)
Fixpoint b64encode (l : bytes) : string :=
  match l with
  | [] => EmptyString
  | [a] =>
      let n := N.shiftl (Byte.to_N a) 16 in
      String (b64_char (N.shiftr n 18)) (String (b64_char (N.shiftr n 12))
        (String "=" (String "=" EmptyString)))
  | [a; b] =>
      let n := N.lor (N.shiftl (Byte.to_N a) 16) (N.shiftl (Byte.to_N b) 8) in
      String (b64_char (N.shiftr n 18)) (String (b64_char (N.shiftr n 12))
        (String (b64_char (N.shiftr n 6)) (String "=" EmptyString)))
  | a :: b :: c :: rest =>
      let n := N.lor (N.lor (N.shiftl (Byte.to_N a) 16) (N.shiftl (Byte.to_N b) 8))
                     (Byte.to_N c) in
      String (b64_char (N.shiftr n 18)) (String (b64_char (N.shiftr n 12))
        (String (b64_char (N.shiftr n 6)) (String (b64_char n)
          (b64encode rest))))
  end.

(* ====================================================================== *)
(** * HTTP transport ([httpx]) *)
(* ====================================================================== *)

Inductive Method := GET | POST | PATCH | PUT.

(** A header value.  [f'Bearer {token}'] is kept unformatted, the cached
    token being whatever JSON value the token endpoint returned. *)
Inductive hval :=
| HStr (s : string)
| HBearer (tok : pyval).

Inductive Body :=
| NoBody
| FormBody (fields : list (string * string))   (* [data=...] *)
| JsonBody (v : pyval)                         (* [json=...] *)
| RawBody (b : bytes).                         (* [content=...] *)

Record Request := mkRequest {
  meth : Method;
  url : string;
  params : list (string * string);
  headers : list (string * hval);
  body : Body;
  follow_redirects : bool
}.

Record Response := mkResponse {
  status_code : Z;
  text : string;                 (* [response.text] *)
  json : option pyval;           (* [response.json()], [None] if not JSON *)
  content : bytes                (* [response.content] *)
}.

(** What the transport gives back: a response, or no response at all
    (connection refused, time-out: [httpx.TransportError]). *)
Inductive NetReply :=
| Reply (r : Response)
| NoReply.

(** [response.is_success]. *)
Definition is_success (r : Response) : bool :=
  (200 <=? status_code r) && (status_code r <=? 299).

(* ---------------------------------------------------------------------- *)
(** ** The requests [httpx] sends as they are built *)

(** [httpx] examines a request before anything goes out and refuses some
    with an exception of its own: [InvalidURL] for a URL that holds an
    ASCII control character, that is too long or whose host or port it
    cannot read; [UnicodeEncodeError] for a header value that is not ASCII;
    [TypeError] for a [json=] value that [json.dumps] cannot write; and the
    HTTP layer under it refuses a header value with a line break or with
    blanks at its ends.  [sendable] is a condition under which none of this
    happens: the URL is [https://host/...] with a plain host name, no
    control character and at most 8192 bytes; the query parameters are
    short; every header value is printable ASCII of at most 4096
    characters with no blank at its ends (a bearer token being a string);
    and a JSON body holds no [bytes], no integer of 2^4096 or more (Python
    refuses to print the largest ones) and at most 100 levels of lists and
    dictionaries. *)

Definition printable (c : ascii) : bool :=
  let n := nat_of_ascii c in (Nat.leb 32 n) && (Nat.leb n 126).

Definition visible (c : ascii) : bool :=
  let n := nat_of_ascii c in (Nat.leb 33 n) && (Nat.leb n 126).

(** Any byte but the ASCII control characters. *)
Definition url_char (c : ascii) : bool :=
  let n := nat_of_ascii c in (Nat.leb 32 n) && negb (Nat.eqb n 127).

Definition lower_letter (c : ascii) : bool :=
  let n := nat_of_ascii c in (Nat.leb 97 n) && (Nat.leb n 122).

(** A lower-case letter, a digit, a dot or a hyphen. *)
Definition host_char (c : ascii) : bool :=
  let n := nat_of_ascii c in
  lower_letter c || ((Nat.leb 48 n) && (Nat.leb n 57)) || Nat.eqb n 46 || Nat.eqb n 45.

Fixpoint all_chars (p : ascii -> bool) (s : string) : bool :=
  match s with
  | EmptyString => true
  | String c rest => p c && all_chars p rest
  end.

Fixpoint last_char (s : string) : option ascii :=
  match s with
  | EmptyString => None
  | String c EmptyString => Some c
  | String _ rest => last_char rest
  end.

(** [s] without the prefix [p], if it starts with it. *)
Fixpoint drop_prefix (p s : string) : option string :=
  match p, s with
  | EmptyString, _ => Some s
  | String a p', String b s' => if Ascii.eqb a b then drop_prefix p' s' else None
  | String _ _, EmptyString => None
  end.

(** What stands before the first slash, and what stands from it on. *)
Fixpoint split_slash (s : string) : string * option string :=
  match s with
  | EmptyString => (EmptyString, None)
  | String c rest =>
      if Ascii.eqb c "/" then (EmptyString, Some s)
      else let (host, path) := split_slash rest in (String c host, path)
  end.

(** A host name that starts with a letter (so it is no IP address) and
    has neither port nor user. *)
Definition host_ok (host : string) : bool :=
  match host with
  | EmptyString => false
  | String c _ => lower_letter c && all_chars host_char host
  end.

Definition url_ok (u : string) : bool :=
  match drop_prefix "https://" u with
  | Some rest =>
      match split_slash rest with
      | (host, Some path) =>
          host_ok host && all_chars url_char path
          && (Z.of_nat (String.length u) <=? 8192)
      | (_, None) => false
      end
  | None => false
  end.

(** A bound on the length of the query [httpx] writes for [params]. *)
Definition query_size (params : list (string * string)) : Z :=
  fold_right (fun kv acc =>
                Z.of_nat (String.length (fst kv)) + Z.of_nat (String.length (snd kv))
                + 2 + acc)
             0 params.

Definition header_text (s : string) : bool :=
  all_chars printable s
  && (Z.of_nat (String.length s) <=? 4096)
  && match s with String c _ => visible c | EmptyString => true end
  && match last_char s with Some c => visible c | None => true end.

Definition header_ok (v : hval) : bool :=
  match v with
  | HStr s => header_text s
  | HBearer (PyStr t) => header_text ("Bearer " ++ t)
  | HBearer _ => false
  end.

(** A value [json.dumps] writes without fail, with [room] levels left. *)
Fixpoint json_small (v : pyval) (room : nat) {struct v} : bool :=
  match room with
  | O => false
  | S room' =>
      match v with
      | PyBytes _ => false
      | PyInt z => Z.abs z <? 2 ^ 4096
      | PyTuple l | PyList l => forallb (fun x => json_small x room') l
      | PyDict d => forallb (fun kv => json_small (snd kv) room') d
      | _ => true
      end
  end.

Definition body_ok (b : Body) : bool :=
  match b with
  | JsonBody v => json_small v 100
  | _ => true
  end.

Definition sendable (req : Request) : bool :=
  url_ok (url req)
  && (query_size (params req) <=? 8192)
  && forallb (fun h => header_ok (snd h)) (headers req)
  && body_ok (body req).

(** With [follow_redirects=True], [httpx] does not hand an answer with one
    of these statuses (and a [Location]) to the caller: it sends the
    request again, to the new place. *)
Definition redirect_status (r : Response) : bool :=
  existsb (Z.eqb (status_code r)) [301; 302; 303; 307; 308].

(* ====================================================================== *)
(** * Exceptions *)
(* ====================================================================== *)

Inductive exn :=
| ValueError (msg : string)
| PermissionError (msg : string)
| FileNotFoundError (msg : string)
| PyException (msg : string)          (* [raise Exception(msg)] *)
| TypeError
| AttributeError
| IndexError
| KeyError (key : string)
| UnboundLocalError (name : string)
| JSONDecodeError
| HTTPStatusError (response : Response)
| TransportError
(** [ValueError(f"{before}{v}{after}")]: the value is kept unformatted *)
| ValueErrorFmt (before : string) (v : pyval) (after : string).

(** [isinstance(e, ValueError)], for the exceptions the toolkit raises
    itself. *)
Definition is_ValueError (e : exn) : bool :=
  match e with ValueError _ | ValueErrorFmt _ _ _ => true | _ => false end.

(* ====================================================================== *)
(** * The client object and the world *)
(* ====================================================================== *)

(** The fields of [MsGraphBase]. *)
Record Client := mkClient {
  token : pyval;
  client_id : string;
  client_secret : string;
  tenant_id : string;
  base_url : string;
  token_url : string;
  is_delegated : bool
}.

Record World := mkWorld {
  client : Client;
  (** requests handed to the transport so far, oldest first *)
  sent : list Request;
  (** the remote side: the reply to a request, given the earlier ones *)
  server : list Request -> Request -> NetReply;
  (** the file system: the content of the file at a path, if it exists *)
  files : string -> option bytes;
  (** [mimetypes.guess_type(name)[0]] *)
  mime : string -> option string
}.

Inductive Outcome (A : Type) :=
| Return (a : A)
| Raise (e : exn).
Arguments Return {A} a.
Arguments Raise {A} e.

Definition M (A : Type) : Type := World -> Outcome A * World.

Definition ret {A} (a : A) : M A := fun w => (Return a, w).

Definition raise {A} (e : exn) : M A := fun w => (Raise e, w).

Definition bind {A B} (m : M A) (k : A -> M B) : M B :=
  fun w =>
    match m w with
    | (Return a, w') => k a w'
    | (Raise e, w') => (Raise e, w')
    end.

(** [try: m  except ...: handler]; a handler that does not match re-raises. *)
Definition catch {A} (m : M A) (handler : exn -> M A) : M A :=
  fun w =>
    match m w with
    | (Return a, w') => (Return a, w')
    | (Raise e, w') => handler e w'
    end.

Declare Scope py_scope.
Delimit Scope py_scope with py.
Notation "x <- m ;; k" := (bind m (fun x => k))
  (at level 61, m at next level, right associativity) : py_scope.
Notation "m ;; k" := (bind m (fun _ => k))
  (at level 61, right associativity) : py_scope.
Local Open Scope py_scope.

(** [if c: raise e]. *)
Definition raise_if (c : bool) (e : exn) : M unit :=
  if c then raise e else ret tt.

Definition get_client : M Client := fun w => (Return (client w), w).

Definition set_token (t : pyval) : M unit :=
  fun w =>
    let c := client w in
    (Return tt,
     mkWorld (mkClient t (client_id c) (client_secret c) (tenant_id c)
                (base_url c) (token_url c) (is_delegated c))
       (sent w) (server w) (files w) (mime w)).

(** The world after [req] was handed to the transport. *)
Definition with_sent (w : World) (req : Request) : World :=
  mkWorld (client w) (sent w ++ [req]) (server w) (files w) (mime w).

(** One call of [client.get/post/patch/put], for a request that [httpx]
    sends as it is built (see [sendable]) and whose answer it hands to the
    caller (see [redirect_status]): the request goes to the transport and
    is answered by the server, which has seen the requests before it.  What
    [httpx] does with other requests and answers is not modelled; the
    properties that need it say so in their hypotheses. *)
Definition send (req : Request) : M Response :=
  fun w =>
    match server w (sent w) req with
    | Reply r => (Return r, with_sent w req)
    | NoReply => (Raise TransportError, with_sent w req)
    end.

(** The requests a run from [w] to [w'] has handed to [httpx], in order:
    those in the trace of [w'] that were not yet in that of [w]. *)
Definition handed_over (w w' : World) : list Request :=
  skipn (List.length (sent w)) (sent w').

(** [response.raise_for_status()]: [HTTPStatusError] unless
    [response.is_success], as [httpx] does it today.  The toolkit relies on
    it: [get_item] tests for 304 before this call, and documents that 304
    would raise. *)
Definition raise_for_status (r : Response) : M unit :=
  if is_success r then ret tt else raise (HTTPStatusError r).

(** [response.json()]. *)
Definition response_json (r : Response) : M pyval :=
  match json r with
  | Some v => ret v
  | None => raise JSONDecodeError
  end.

(** [key in v] for a string [key]. *)
Definition py_contains (key : string) (v : pyval) : M bool :=
  match v with
  | PyDict d => ret (is_some (dict_get key d))
  | PyList l | PyTuple l =>
      ret (existsb (fun x => match x with PyStr s => String.eqb s key | _ => false end) l)
  | PyStr s => ret (str_contains key s)
  | _ => raise TypeError
  end.

(** The field [key] of a JSON document, if it is an object that has it. *)
Definition json_field (key : string) (v : pyval) : option pyval :=
  match v with
  | PyDict d => dict_get key d
  | _ => None
  end.

(** [v.get(key)]. *)
Definition py_get (v : pyval) (key : string) : M pyval :=
  match v with
  | PyDict d => ret (match dict_get key d with Some x => x | None => PyNone end)
  | _ => raise AttributeError
  end.

(** [v[key]] for a string [key]. *)
Definition py_getitem (v : pyval) (key : string) : M pyval :=
  match v with
  | PyDict d => match dict_get key d with Some x => ret x | None => raise (KeyError key) end
  | _ => raise TypeError
  end.

(* ====================================================================== *)
(** * [MsGraphBase.__init__] and [get_token] *)
(* ====================================================================== *)

(** The constructor, given the three credentials ([None] or [""] is
    missing). *)
Definition MsGraphBase_init (cid csecret tid : option string) : Outcome Client :=
  if negb (truthy cid) then
    Raise (ValueError "CLIENT_ID es requerido. Configúrelo en las variables de entorno o páselo como parámetro.")
  else if negb (truthy csecret) then
    Raise (ValueError "CLIENT_SECRET es requerido. Configúrelo en las variables de entorno o páselo como parámetro.")
  else if negb (truthy tid) then
    Raise (ValueError "TENANT_ID es requerido. Configúrelo en las variables de entorno o páselo como parámetro.")
  else
    Return (mkClient PyNone (opt_str cid) (opt_str csecret) (opt_str tid)
              "https://graph.microsoft.com/v1.0"
              ("https://login.microsoftonline.com/" ++ opt_str tid ++ "/oauth2/v2.0/token")
              false).

(** The client-credentials request of [get_token]. *)
Definition token_request (c : Client) : Request :=
  mkRequest POST (token_url c) [] []
    (FormBody [("grant_type", "client_credentials");
               ("client_id", client_id c);
               ("client_secret", client_secret c);
               ("scope", "https://graph.microsoft.com/.default")])
    false.

Definition no_access_token_msg : string := "No se pudo obtener el token de acceso".

(** [SyncMsGraph.get_token] / [AsyncMsGraph.get_token] / [MsGraph.get_token]. *)
Definition get_token : M pyval :=
  c <- get_client ;;
  response <- send (token_request c) ;;
  raise_for_status response ;;
  token_response <- response_json response ;;
  has <- py_contains "access_token" token_response ;;
  if negb has then raise (PyException no_access_token_msg)
  else
    tok <- py_get token_response "access_token" ;;
    set_token tok ;;
    c' <- get_client ;;
    ret (token c').

(** [if not self.client.token: self.client.get_token()], the first statement
    of most toolkit methods. *)
Definition ensure_token : M unit :=
  c <- get_client ;;
  if negb (py_truthy (token c)) then (get_token ;; ret tt) else ret tt.

(* ====================================================================== *)
(** * [toolkit/mails.py]: [Mails] and [AsyncMails] *)
(* ====================================================================== *)

Module Mails.

(** [3 * 1024 * 1024], the largest payload sent inline. *)
Definition inline_threshold : Z := 3 * 1024 * 1024.

(** [150 * 1024 * 1024], the largest payload accepted at all. *)
Definition session_cap : Z := 150 * 1024 * 1024.

(** [chunk_size = 4 * 1024 * 1024]. *)
Definition chunk_size : Z := 4 * 1024 * 1024.

Definition need_content_msg : string :=
  "Debe proporcionar file_path o la combinación de content y file_name".
Definition both_content_msg : string :=
  "No puede proporcionar file_path junto con content o file_name".
Definition cap_msg : string := "El archivo excede el límite máximo de 150MB".
Definition need_user_msg : string :=
  "Debe proporcionar user_id cuando usa client credentials. Para acceder a /me use autenticación delegada".
Definition need_message_msg : string := "Debe proporcionar message_id".
Definition raw_limit_msg : string := "El adjunto excede el límite de 3MB".

(** [f"{base_url}/users/{user_id}" if user_id else f"{base_url}/me"]. *)
Definition mailbox_url (c : Client) (user_id : option string) : string :=
  if truthy user_id then base_url c ++ "/users/" ++ opt_str user_id
  else base_url c ++ "/me".

(** The [except httpx.HTTPStatusError as e:] clause of
    [_add_attachment_raw]. *)
Definition attachment_errors {A} (e : exn) : M A :=
  match e with
  | HTTPStatusError r =>
      if status_code r =? 400 then
        if str_contains "insufficient privileges" (lower (text r)) then
          raise (PermissionError "No tiene los permisos necesarios. Se requiere Mail.ReadWrite")
        else raise e
      else if status_code r =? 401 then
        raise (PermissionError "Token no válido o expirado. Asegúrese de tener los permisos Mail.ReadWrite")
      else if status_code r =? 403 then
        raise (PermissionError "No tiene permisos para agregar adjuntos. Se requiere Mail.ReadWrite")
      else if status_code r =? 404 then
        raise (ValueError "El mensaje especificado no existe")
      else if status_code r =? 413 then
        raise (ValueError "El adjunto excede el límite permitido de 3MB")
      else raise e
  | _ => raise e
  end.

(** The POST of [_add_attachment_raw]. *)
Definition inline_request (c : Client) (message_id name content_bytes : string)
    (user_id : option string) (is_inline : bool) (content_type : option string)
  : Request :=
  let data := [("@odata.type", PyStr "#microsoft.graph.fileAttachment");
               ("name", PyStr name);
               ("contentBytes", PyStr content_bytes);
               ("isInline", PyBool is_inline)] in
  let data := if truthy content_type
              then dict_set "contentType" (PyStr (opt_str content_type)) data
              else data in
  mkRequest POST
    (mailbox_url c user_id ++ "/messages/" ++ message_id ++ "/attachments")
    []
    [("Authorization", HBearer (token c)); ("Content-Type", HStr "application/json")]
    (JsonBody (PyDict data))
    false.

Definition _add_attachment_raw (message_id name content_bytes : string)
    (user_id : option string) (is_inline : bool) (content_type : option string)
  : M pyval :=
  catch
    (ensure_token ;;
     c <- get_client ;;
     raise_if (negb (truthy user_id) && negb (is_delegated c))
       (ValueError need_user_msg) ;;
     raise_if (String.eqb message_id "") (ValueError need_message_msg) ;;
     raise_if (negb (String.eqb content_bytes "")
               && (str_len content_bytes >? 3 * 1024 * 1024))
       (ValueError raw_limit_msg) ;;
     response <- send (inline_request c message_id name content_bytes
                         user_id is_inline content_type) ;;
     raise_for_status response ;;
     response_json response)
    attachment_errors.

(** The POST of [_create_upload_session]. *)
Definition session_request (c : Client) (message_id name : string) (size : Z)
    (user_id : option string) (is_inline : bool) : Request :=
  mkRequest POST
    (mailbox_url c user_id ++ "/messages/" ++ message_id
       ++ "/attachments/createUploadSession")
    []
    [("Authorization", HBearer (token c))]
    (JsonBody (PyDict [("AttachmentItem",
       PyDict [("attachmentType", PyStr "file");
               ("name", PyStr name);
               ("size", PyInt size);
               ("isInline", PyBool is_inline)])]))
    false.

Definition _create_upload_session (message_id name : string) (size : Z)
    (user_id : option string) (is_inline : bool) : M pyval :=
  ensure_token ;;
  c <- get_client ;;
  response <- send (session_request c message_id name size user_id is_inline) ;;
  raise_for_status response ;;
  response_json response.

(** [f'bytes {start}-{end}/{total}']. *)
Definition content_range (start end_ total : Z) : string :=
  "bytes " ++ py_str_int start ++ "-" ++ py_str_int end_ ++ "/" ++ py_str_int total.

(** The PUT of [_upload_chunk]. *)
Definition chunk_request (upload_url : string) (chunk : bytes)
    (start end_ total : Z) : Request :=
  mkRequest PUT upload_url []
    [("Content-Length", HStr (py_str_int (len chunk)));
     ("Content-Range", HStr (content_range start end_ total))]
    (RawBody chunk)
    false.

(** [_upload_chunk]; [httpx] refuses a URL that is not a string with a
    [TypeError], before anything is sent. *)
Definition _upload_chunk (upload_url : pyval) (chunk : bytes)
    (start end_ total : Z) : M unit :=
  match upload_url with
  | PyStr u =>
      response <- send (chunk_request u chunk start end_ total) ;;
      raise_for_status response
  | _ => raise TypeError
  end.

(** The body of [for start in range(0, file_size, chunk_size):], over the
    values of the range still to come. *)
Fixpoint upload_chunks (session : pyval) (content : bytes) (file_size : Z)
    (starts : list Z) : M unit :=
  match starts with
  | [] => ret tt
  | start :: rest =>
      let chunk := py_slice content start (start + chunk_size) in
      let end_ := start + len chunk - 1 in
      upload_url <- py_getitem session "uploadUrl" ;;
      _upload_chunk upload_url chunk start end_ file_size ;;
      upload_chunks session content file_size rest
  end.

(** [if not content_type: content_type, _ = mimetypes.guess_type(name)],
    then the fallback to ['application/octet-stream']. *)
Definition resolve_content_type (content_type : option string) (name : string)
  : M string :=
  if truthy content_type then ret (opt_str content_type)
  else fun w =>
    (Return (if truthy (mime w name) then opt_str (mime w name)
             else "application/octet-stream"), w).

(** What [add_attachment] does once size, content, name and type are
    known: the choice of the strategy and the transfer. *)
Definition transfer (message_id : string) (file_size : Z) (content : bytes)
    (file_name : string) (user_id : option string) (is_inline : bool)
    (content_type : string) : M pyval :=
  if file_size <=? inline_threshold then
    _add_attachment_raw message_id file_name (b64encode content) user_id
      is_inline (Some content_type)
  else
    raise_if (file_size >? session_cap) (ValueError cap_msg) ;;
    session <- _create_upload_session message_id file_name file_size user_id
                 is_inline ;;
    upload_chunks session content file_size (py_range 0 file_size chunk_size) ;;
    ret session.

(** [Mails.add_attachment] / [AsyncMails.add_attachment].  The outer
    [except Exception] logs and re-raises, so it is the identity here. *)
Definition add_attachment (message_id : string) (file_path : option string)
    (content : option bytes) (file_name user_id : option string)
    (is_inline : bool) (content_type : option string) : M pyval :=
  raise_if (negb (is_some file_path)
            && (negb (is_some content) || negb (is_some file_name)))
    (ValueError need_content_msg) ;;
  raise_if (is_some file_path && (is_some content || is_some file_name))
    (ValueError both_content_msg) ;;
  if truthy file_path then
    let path := opt_str file_path in
    fun w =>
      match files w path with
      | None =>
          (Raise (FileNotFoundError ("No se encontró el archivo: " ++ path)), w)
      | Some data =>
          (ct <- resolve_content_type content_type path ;;
           transfer message_id (len data) data (basename path) user_id
             is_inline ct) w
      end
  else
    match content, file_name with
    | Some data, Some name =>
        ct <- resolve_content_type content_type name ;;
        transfer message_id (len data) data name user_id is_inline ct
    | _, _ => raise TypeError      (* [len(None)] *)
    end.

(** [{"emailAddress": {"address": address, "name": name}}]. *)
Definition email_address (address name : pyval) : pyval :=
  PyDict [("emailAddress", PyDict [("address", address); ("name", name)])].

(** One turn of the loop of [_process_recipients]: the dictionary appended
    to [processed], or the exception raised. *)
Definition process_recipient (recipient : pyval) : Outcome pyval :=
  match recipient with
  | PyStr _ => Return (email_address recipient (PyStr ""))
  | PyTuple items =>
      (* [email, name = recipient if len(recipient) > 1 else (recipient[0], "")] *)
      match items with
      | [] => Raise IndexError
      | [email] => Return (email_address email (PyStr ""))
      | [email; name] => Return (email_address email name)
      | _ => Raise (ValueError "too many values to unpack (expected 2)")
      end
  | PyDict d =>
      if is_some (dict_get "emailAddress" d) then Return recipient
      else
        Return (email_address
                  (match dict_get "address" d with Some a => a | None => PyNone end)
                  (match dict_get "name" d with Some n => n | None => PyStr "" end))
  | _ =>
      Raise (ValueErrorFmt "Formato de destinatario no soportado: " recipient
               ". Use string, tuple o dict")
  end.

Fixpoint process_loop (recipients processed : list pyval) : Outcome (list pyval) :=
  match recipients with
  | [] => Return processed
  | recipient :: rest =>
      match process_recipient recipient with
      | Return d => process_loop rest (processed ++ [d])
      | Raise e => Raise e
      end
  end.

(** [Mails._process_recipients] / [AsyncMails._process_recipients]. *)
Definition _process_recipients (recipients : list pyval) : Outcome (list pyval) :=
  process_loop recipients [].

(* ---------------------------------------------------------------------- *)
(** ** Notions used to state the properties of [add_attachment] *)

(** The payload of a well-formed call and the name it is attached under:
    the content of the file at [file_path], or [content] with [file_name].
    Any other combination of the three arguments is refused by the two
    checks at the head of [add_attachment] (or fails on [len(None)]). *)
Definition payload_of (w : World) (file_path : option string)
    (content : option bytes) (file_name : option string)
  : option (bytes * string) :=
  match file_path, content, file_name with
  | Some path, None, None =>
      if truthy file_path
      then match files w path with
           | Some data => Some (data, basename path)
           | None => None
           end
      else None
  | None, Some data, Some name => Some (data, name)
  | _, _, _ => None
  end.

(** The content type [add_attachment] settles on: the argument, or the
    guess from the path (or from the name), or the fallback. *)
Definition content_type_of (w : World) (file_path file_name content_type : option string)
  : string :=
  let source := if truthy file_path then opt_str file_path else opt_str file_name in
  if truthy content_type then opt_str content_type
  else if truthy (mime w source) then opt_str (mime w source)
  else "application/octet-stream".

(** The request the loop builds for the chunk that starts at [start]. *)
Definition chunk_request_at (upload_url : string) (content : bytes)
    (file_size : Z) (start : Z) : Request :=
  let chunk := py_slice content start (start + chunk_size) in
  chunk_request upload_url chunk start (start + len chunk - 1) file_size.

(** The PUT requests of a whole transfer, in the order of the loop. *)
Definition chunk_requests (upload_url : string) (content : bytes) (file_size : Z)
  : list Request :=
  map (chunk_request_at upload_url content file_size)
      (py_range 0 file_size chunk_size).

(** A request is answered with a 2xx status, given the requests before
    it. *)
Definition answered_ok (w : World) (before : list Request) (req : Request) : Prop :=
  exists r, server w before req = Reply r /\ is_success r = true.

(** A request fails with [e]: no reply at all, or a status that is not
    2xx. *)
Definition fails_with (w : World) (before : list Request) (req : Request)
    (e : exn) : Prop :=
  (server w before req = NoReply /\ e = TransportError)
  \/ (exists r, server w before req = Reply r /\ is_success r = false
                /\ e = HTTPStatusError r).

(** Each request of [reqs], sent in this order after [before], is
    answered with a 2xx status. *)
Definition all_answered_ok (w : World) (before reqs : list Request) : Prop :=
  forall i req,
    nth_error reqs i = Some req ->
    answered_ok w (before ++ firstn i reqs) req.

(** The shapes [_process_recipients] documents: a string, a tuple
    [(email,)] or [(email, name)], a dictionary. *)
Definition supported_recipient (v : pyval) : bool :=
  match v with
  | PyStr _ | PyDict _ => true
  | PyTuple [_] | PyTuple [_; _] => true
  | _ => false
  end.

(** A string, a tuple that is not empty, or a dictionary. *)
Definition str_tuple_or_dict (v : pyval) : bool :=
  match v with
  | PyStr _ | PyDict _ => true
  | PyTuple (_ :: _) => true
  | _ => false
  end.

(** Neither [str] nor [tuple] nor [dict]. *)
Definition other_type (v : pyval) : bool :=
  match v with
  | PyStr _ | PyDict _ | PyTuple _ => false
  | _ => true
  end.

(** [{"emailAddress": {..., "address": _, ..., "name": _, ...}, ...}]: a
    dictionary whose key ["emailAddress"] maps to a dictionary that has
    ["address"] and ["name"]. *)
Definition graph_recipient (v : pyval) : bool :=
  match json_field "emailAddress" v with
  | Some inner =>
      is_some (json_field "address" inner) && is_some (json_field "name" inner)
  | None => false
  end.

(** What one input element becomes. *)
Definition normalized (recipient : pyval) : pyval :=
  match recipient with
  | PyStr _ => email_address recipient (PyStr "")
  | PyTuple [email] => email_address email (PyStr "")
  | PyTuple [email; name] => email_address email name
  | PyDict d =>
      if is_some (dict_get "emailAddress" d) then recipient
      else email_address
             (match dict_get "address" d with Some a => a | None => PyNone end)
             (match dict_get "name" d with Some n => n | None => PyStr "" end)
  | _ => recipient
  end.

End Mails.

(* ====================================================================== *)
(** * [toolkit/drives.py]: [Drives] and [AsyncDrives] *)
(* ====================================================================== *)

Module Drives.

Definition only_one_msg : string :=
  "Solo puede proporcionar uno de: drive_id, user_id, group_id, site_id".
Definition need_one_msg : string :=
  "Debe proporcionar uno de: drive_id, user_id, group_id, site_id".
Definition id_and_path_msg : string :=
  "No puede proporcionar item_id e item_path simultáneamente".

(** [[i for i in [drive_id, user_id, group_id, site_id] if i is not None]]. *)
Definition drive_identifiers (drive_id user_id group_id site_id : option string)
  : list (option string) :=
  filter is_some [drive_id; user_id; group_id; site_id].

(** The [if drive_id: ... elif user_id: ... elif group_id: ... elif site_id:
    ... else: .../me/drive] chain that most methods share. *)
Definition drive_base (c : Client) (drive_id user_id group_id site_id : option string)
  : string :=
  if truthy drive_id then base_url c ++ "/drives/" ++ fstr drive_id
  else if truthy user_id then base_url c ++ "/users/" ++ fstr user_id ++ "/drive"
  else if truthy group_id then base_url c ++ "/groups/" ++ fstr group_id ++ "/drive"
  else if truthy site_id then base_url c ++ "/sites/" ++ fstr site_id ++ "/drive"
  else base_url c ++ "/me/drive".

(** [if value: params[key] = value]. *)
Definition add_if (value : option string) (key : string)
    (params : list (string * string)) : list (string * string) :=
  if truthy value then params ++ [(key, fstr value)] else params.

(** [if top: params['$top'] = str(top)]. *)
Definition add_top (top : option Z) (params : list (string * string))
  : list (string * string) :=
  match top with
  | Some n => if negb (n =? 0) then params ++ [("$top", py_str_int n)] else params
  | None => params
  end.

(** [{'Authorization': f'Bearer {self.client.token}'}]. *)
Definition auth (c : Client) : list (string * hval) :=
  [("Authorization", HBearer (token c))].

(** [if etag: headers[name] = etag]. *)
Definition add_header_if (value : option string) (name : string)
    (headers : list (string * hval)) : list (string * hval) :=
  if truthy value then headers ++ [(name, HStr (fstr value))] else headers.

(** The usual tail of a method: [raise_for_status()], then [json()]. *)
Definition checked_json (response : Response) : M pyval :=
  raise_for_status response ;;
  response_json response.

(* ---------------------------------------------------------------------- *)
(** ** [list_drives] *)

Definition list_drives_url (c : Client) (user_id resource_id resource_type : option string)
  : M string :=
  if truthy resource_id && truthy resource_type then
    raise_if (negb (existsb (String.eqb (fstr resource_type)) ["users"; "groups"; "sites"]))
      (ValueError "resource_type debe ser 'users', 'groups' o 'sites'") ;;
    ret (base_url c ++ "/" ++ fstr resource_type ++ "/" ++ fstr resource_id ++ "/drives")
  else
    ret (base_url c ++ "/users/" ++ fstr user_id ++ "/drives").

Definition list_drives (user_id resource_id resource_type select : option string)
  : M pyval :=
  ensure_token ;;
  c <- get_client ;;
  url <- list_drives_url c user_id resource_id resource_type ;;
  response <- send (mkRequest GET url (add_if select "$select" []) (auth c)
                      NoBody false) ;;
  checked_json response.

(* ---------------------------------------------------------------------- *)
(** ** [get_drive] *)

(** The chain of [get_drive] has no [else]: with one identifier given as
    [""] the variable [url] is never bound. *)
Definition get_drive_url (c : Client) (drive_id user_id group_id site_id : option string)
  : M string :=
  if truthy drive_id then ret (base_url c ++ "/drives/" ++ fstr drive_id)
  else if truthy user_id then ret (base_url c ++ "/users/" ++ fstr user_id ++ "/drive")
  else if truthy group_id then ret (base_url c ++ "/groups/" ++ fstr group_id ++ "/drive")
  else if truthy site_id then ret (base_url c ++ "/sites/" ++ fstr site_id ++ "/drive")
  else raise (UnboundLocalError "url").

Definition get_drive (drive_id user_id group_id site_id select : option string)
  : M pyval :=
  ensure_token ;;
  let ids := drive_identifiers drive_id user_id group_id site_id in
  raise_if (len ids =? 0)
    (ValueError "Debe proporcionar drive_id, user_id, group_id o site_id") ;;
  raise_if (len ids >? 1) (ValueError "Solo puede proporcionar un tipo de ID") ;;
  c <- get_client ;;
  url <- get_drive_url c drive_id user_id group_id site_id ;;
  response <- send (mkRequest GET url (add_if select "$select" []) (auth c)
                      NoBody false) ;;
  checked_json response.

(* ---------------------------------------------------------------------- *)
(** ** [get_item] *)

(** The two steps "Construir URL base" and "Construir URL final".  In the
    SharePoint-list case ([site_id] and [list_id]) [url] is bound,
    [item_path] is reset and [base_url] is not bound, and the final
    [else] then reads [base_url]. *)
Definition get_item_url (c : Client)
    (item_id item_path drive_id user_id group_id site_id list_id : option string)
  : M string :=
  let in_list := negb (truthy drive_id) && negb (truthy user_id)
                 && negb (truthy group_id) && truthy site_id && truthy list_id in
  (* the local variable [base_url]; [None] when it was never assigned *)
  let base := if in_list then None
              else Some (drive_base c drive_id user_id group_id site_id) in
  let item_path := if in_list then None else item_path in
  let with_base (k : string -> string) : M string :=
    match base with
    | Some b => ret (k b)
    | None => raise (UnboundLocalError "base_url")
    end in
  match item_path with
  | Some path => with_base (fun b => b ++ "/root:/" ++ strip_slash path)
  | None =>
      if is_some item_id && negb (truthy list_id)
      then with_base (fun b => b ++ "/items/" ++ fstr item_id)
      else with_base (fun b => b ++ "/root")
  end.

(** Everything [get_item] does before its GET: the request it builds. *)
Definition get_item_request
    (item_id item_path drive_id user_id group_id site_id list_id select expand
       : option string)
    (include_deleted : bool) (etag : option string) : M Request :=
  ensure_token ;;
  raise_if (len (drive_identifiers drive_id user_id group_id site_id) >? 1)
    (ValueError only_one_msg) ;;
  raise_if (is_some item_id && is_some item_path) (ValueError id_and_path_msg) ;;
  c <- get_client ;;
  url <- get_item_url c item_id item_path drive_id user_id group_id site_id list_id ;;
  let params := add_if expand "$expand" (add_if select "$select" []) in
  let params := if include_deleted && truthy item_id
                then (params ++ [("includeDeletedItems", "true")])%list else params in
  ret (mkRequest GET url params (add_header_if etag "if-none-match" (auth c))
         NoBody false).

Definition get_item
    (item_id item_path drive_id user_id group_id site_id list_id select expand
       : option string)
    (include_deleted : bool) (etag : option string) : M pyval :=
  request <- get_item_request item_id item_path drive_id user_id group_id site_id
               list_id select expand include_deleted etag ;;
  response <- send request ;;
  if status_code response =? 304 then ret PyNone
  else checked_json response.

(* ---------------------------------------------------------------------- *)
(** ** [list_followed] *)

Definition list_followed (user_id select : option string) : M pyval :=
  ensure_token ;;
  c <- get_client ;;
  let url := if truthy user_id
             then base_url c ++ "/users/" ++ fstr user_id ++ "/drive/following"
             else base_url c ++ "/me/drive/following" in
  response <- send (mkRequest GET url (add_if select "$select" []) (auth c)
                      NoBody false) ;;
  checked_json response.

(* ---------------------------------------------------------------------- *)
(** ** [list_items] *)

Definition list_items
    (item_id item_path drive_id user_id group_id site_id select expand orderby
       : option string)
    (top : option Z) : M pyval :=
  ensure_token ;;
  raise_if (len (drive_identifiers drive_id user_id group_id site_id) >? 1)
    (ValueError only_one_msg) ;;
  raise_if (is_some item_id && is_some item_path) (ValueError id_and_path_msg) ;;
  c <- get_client ;;
  let base := drive_base c drive_id user_id group_id site_id in
  let url :=
    match item_path, item_id with
    | Some path, _ => base ++ "/root:/" ++ strip_slash path ++ ":/children"
    | None, Some id =>
        if String.eqb id "root" then base ++ "/root/children"
        else base ++ "/items/" ++ id ++ "/children"
    | None, None => base ++ "/root/children"
    end in
  let params := add_top top (add_if orderby "$orderby"
                  (add_if expand "$expand" (add_if select "$select" []))) in
  response <- send (mkRequest GET url params (auth c) NoBody false) ;;
  checked_json response.

(* ---------------------------------------------------------------------- *)
(** ** [list_changes] *)

Definition list_changes
    (delta_token drive_id user_id group_id site_id select expand : option string)
    (top : option Z) (show_sharing_changes : bool) : M pyval :=
  ensure_token ;;
  raise_if (len (drive_identifiers drive_id user_id group_id site_id) >? 1)
    (ValueError only_one_msg) ;;
  c <- get_client ;;
  let url := drive_base c drive_id user_id group_id site_id ++ "/root/delta" in
  let url := if truthy delta_token then
               if negb (String.eqb (fstr delta_token) "latest")
               then url ++ "(token='" ++ fstr delta_token ++ "')"
               else url ++ "?token=latest"
             else url in
  let params := add_top top (add_if expand "$expand" (add_if select "$select" [])) in
  let prefer :=
    if show_sharing_changes
    then "deltashowremovedasdeleted, deltatraversepermissiongaps, deltashowsharingchanges"
    else "hierarchicalsharing" in
  response <- send (mkRequest GET url params (auth c ++ [("Prefer", HStr prefer)])%list
                      NoBody false) ;;
  checked_json response.

(* ---------------------------------------------------------------------- *)
(** ** The [except httpx.HTTPStatusError as e:] clauses *)

(** The part all four clauses share: 400 with "insufficient privileges",
    401 and 403 become [PermissionError]; [other] is the rest of the
    [elif] chain of the method. *)
Definition drive_errors {A} (m400 m401 m403 : string)
    (other : Response -> option exn) (e : exn) : M A :=
  match e with
  | HTTPStatusError r =>
      if status_code r =? 400 then
        if str_contains "insufficient privileges" (lower (text r))
        then raise (PermissionError m400) else raise e
      else if status_code r =? 401 then raise (PermissionError m401)
      else if status_code r =? 403 then raise (PermissionError m403)
      else match other r with
           | Some e' => raise e'
           | None => raise e
           end
  | _ => raise e
  end.

Definition write_400 : string :=
  "No tiene los permisos necesarios. Se requiere Files.ReadWrite o Files.ReadWrite.All".
Definition write_401 : string :=
  "Token no válido o expirado. Asegúrese de tener los permisos Files.ReadWrite o Files.ReadWrite.All".

(* ---------------------------------------------------------------------- *)
(** ** [create_folder] ([AsyncDrives] only) *)

Definition create_folder (name : string)
    (parent_id drive_id user_id group_id site_id : option string)
    (conflict_behavior : string) : M pyval :=
  catch
    (ensure_token ;;
     let ids := drive_identifiers drive_id user_id group_id site_id in
     raise_if (len ids =? 0) (ValueError need_one_msg) ;;
     raise_if (len ids >? 1) (ValueError only_one_msg) ;;
     raise_if (negb (existsb (String.eqb conflict_behavior) ["rename"; "replace"; "fail"]))
       (ValueError "conflict_behavior debe ser 'rename', 'replace' o 'fail'") ;;
     c <- get_client ;;
     raise_if (negb (truthy drive_id) && negb (truthy user_id)
               && negb (truthy group_id) && negb (truthy site_id))
       (ValueError need_one_msg) ;;
     let base := drive_base c drive_id user_id group_id site_id in
     let url := if truthy parent_id then base ++ "/items/" ++ fstr parent_id ++ "/children"
                else base ++ "/root/children" in
     let data := PyDict [("name", PyStr name); ("folder", PyDict []);
                         ("@microsoft.graph.conflictBehavior", PyStr conflict_behavior)] in
     response <- send (mkRequest POST url []
                         (auth c ++ [("Content-Type", HStr "application/json")])%list
                         (JsonBody data) false) ;;
     checked_json response)
    (drive_errors write_400 write_401
       "No tiene permisos para crear carpetas en este drive. Se requiere Files.ReadWrite o Files.ReadWrite.All"
       (fun _ => None)).

(* ---------------------------------------------------------------------- *)
(** ** [update_item] *)

(** Everything [update_item] does before its PATCH.  The call
    [client.patch(url, json=properties, headers=headers)] writes
    [properties] as JSON when it builds the request, and raises [TypeError]
    for a value [json.dumps] cannot write; [json=None] means no body. *)
Definition update_item_request (item_id : string) (properties : pyval)
    (drive_id user_id group_id site_id etag : option string) : M Request :=
  ensure_token ;;
  raise_if (len (drive_identifiers drive_id user_id group_id site_id) >? 1)
    (ValueError only_one_msg) ;;
  c <- get_client ;;
  let url := drive_base c drive_id user_id group_id site_id ++ "/items/" ++ item_id in
  raise_if (negb (json_serializable properties)) TypeError ;;
  ret (mkRequest PATCH url []
         (add_header_if etag "if-match"
            (auth c ++ [("Content-Type", HStr "application/json")])%list)
         (match properties with
          | PyNone => NoBody
          | _ => JsonBody properties
          end)
         false).

Definition update_item_errors {A} : exn -> M A :=
  drive_errors write_400 write_401
    "No tiene permisos para actualizar elementos en este drive. Se requiere Files.ReadWrite o Files.ReadWrite.All"
    (fun _ => None).

Definition update_item (item_id : string) (properties : pyval)
    (drive_id user_id group_id site_id etag : option string) : M pyval :=
  catch
    (request <- update_item_request item_id properties drive_id user_id group_id
                  site_id etag ;;
     response <- send request ;;
     if status_code response =? 412 then ret PyNone
     else checked_json response)
    update_item_errors.

(* ---------------------------------------------------------------------- *)
(** ** [upload_content] *)

Definition upload_content (content : bytes)
    (filename item_id parent_id drive_id user_id group_id site_id : option string)
    (content_type : string) : M pyval :=
  catch
    (ensure_token ;;
     raise_if (len content >? 250 * 1024 * 1024)
       (ValueError "El archivo excede el límite de 250MB. Use upload_large_file para archivos más grandes") ;;
     raise_if (len (drive_identifiers drive_id user_id group_id site_id) >? 1)
       (ValueError only_one_msg) ;;
     raise_if (if truthy item_id then truthy filename || truthy parent_id else false)
       (ValueError "Para actualizar un archivo use solo item_id. Para crear uno nuevo use filename y parent_id") ;;
     raise_if (if truthy item_id then false
               else negb (truthy filename) || negb (truthy parent_id))
       (ValueError "Para crear un archivo nuevo debe proporcionar filename y parent_id") ;;
     c <- get_client ;;
     let base := drive_base c drive_id user_id group_id site_id in
     let url := if truthy item_id then base ++ "/items/" ++ fstr item_id ++ "/content"
                else base ++ "/items/" ++ fstr parent_id ++ ":/" ++ fstr filename
                       ++ ":/content" in
     response <- send (mkRequest PUT url []
                         (auth c ++ [("Content-Type", HStr content_type)])%list
                         (RawBody content) false) ;;
     checked_json response)
    (drive_errors write_400 write_401
       "No tiene permisos para subir archivos en este drive. Se requiere Files.ReadWrite o Files.ReadWrite.All"
       (fun r => if status_code r =? 413
                 then Some (ValueError "El archivo excede el límite permitido. Use upload_large_file para archivos más grandes")
                 else None)).

(* ---------------------------------------------------------------------- *)
(** ** [download_content] *)

Definition download_content
    (item_id item_path drive_id user_id group_id site_id etag : option string)
    (byte_range : option (Z * Z)) : M pyval :=
  catch
    (ensure_token ;;
     raise_if (len (drive_identifiers drive_id user_id group_id site_id) >? 1)
       (ValueError only_one_msg) ;;
     raise_if (negb (is_some item_id) && negb (is_some item_path))
       (ValueError "Debe proporcionar item_id o item_path") ;;
     raise_if (is_some item_id && is_some item_path) (ValueError id_and_path_msg) ;;
     c <- get_client ;;
     let base := drive_base c drive_id user_id group_id site_id in
     let url := match item_path with
                | Some path => base ++ "/root:/" ++ strip_slash path ++ ":/content"
                | None => base ++ "/items/" ++ fstr item_id ++ "/content"
                end in
     let headers := add_header_if etag "if-none-match" (auth c) in
     let headers := match byte_range with
                    | Some (first, last) =>
                        (headers ++ [("Range", HStr ("bytes=" ++ py_str_int first ++ "-"
                                                       ++ py_str_int last)%string)])%list
                    | None => headers
                    end in
     response <- send (mkRequest GET url [] headers NoBody true) ;;
     if status_code response =? 304 then ret PyNone
     else
       raise_for_status response ;;
       ret (PyBytes (content response)))
    (drive_errors
       "No tiene los permisos necesarios. Se requiere Files.Read o Files.Read.All"
       "Token no válido o expirado. Asegúrese de tener los permisos Files.Read o Files.Read.All"
       "No tiene permisos para descargar archivos de este drive. Se requiere Files.Read o Files.Read.All"
       (fun r => if status_code r =? 404
                 then Some (FileNotFoundError "El archivo solicitado no existe")
                 else None)).

(* ---------------------------------------------------------------------- *)
(** ** Notions used to state the properties of the scope identifiers *)

(** How a method that takes [drive_id], [user_id], [group_id] and [site_id]
    answers a call that gives two or more of them.  With a cached token it
    raises [ValueError] and nothing is sent.  Without one the token request
    is sent, and nothing else: if the exchange succeeds the call raises
    [ValueError]; if it fails with [e] the call ends as [except_clause e]
    does, where [except_clause] is the [except] clause the method wraps its
    body in ([raise] for a method without [try]). *)
Definition rejects_two_scopes {A} (except_clause : exn -> M A)
    (method : option string -> option string -> option string -> option string -> M A)
  : Prop :=
  forall drive_id user_id group_id site_id w,
    len (drive_identifiers drive_id user_id group_id site_id) > 1 ->
    (py_truthy (token (client w)) = true ->
       exists msg,
         method drive_id user_id group_id site_id w = (Raise (ValueError msg), w))
    /\ (py_truthy (token (client w)) = false ->
         forall o w1, get_token w = (o, w1) ->
           sent w1 = (sent w ++ [token_request (client w)])%list
           /\ match o with
              | Return _ =>
                  exists msg,
                    method drive_id user_id group_id site_id w
                    = (Raise (ValueError msg), w1)
              | Raise e =>
                  method drive_id user_id group_id site_id w = except_clause e w1
              end).

(** The [except] clauses of the four methods that have one. *)
Definition create_folder_errors {A} : exn -> M A :=
  drive_errors write_400 write_401
    "No tiene permisos para crear carpetas en este drive. Se requiere Files.ReadWrite o Files.ReadWrite.All"
    (fun _ => None).

Definition upload_content_errors {A} : exn -> M A :=
  drive_errors write_400 write_401
    "No tiene permisos para subir archivos en este drive. Se requiere Files.ReadWrite o Files.ReadWrite.All"
    (fun r => if status_code r =? 413
              then Some (ValueError "El archivo excede el límite permitido. Use upload_large_file para archivos más grandes")
              else None).

Definition download_content_errors {A} : exn -> M A :=
  drive_errors
    "No tiene los permisos necesarios. Se requiere Files.Read o Files.Read.All"
    "Token no válido o expirado. Asegúrese de tener los permisos Files.Read o Files.Read.All"
    "No tiene permisos para descargar archivos de este drive. Se requiere Files.Read o Files.Read.All"
    (fun r => if status_code r =? 404
              then Some (FileNotFoundError "El archivo solicitado no existe")
              else None).

(** The GET of [download_content]. *)
Definition download_request (c : Client)
    (item_id item_path drive_id user_id group_id site_id etag : option string)
    (byte_range : option (Z * Z)) : Request :=
  let base := drive_base c drive_id user_id group_id site_id in
  let url := match item_path with
             | Some path => base ++ "/root:/" ++ strip_slash path ++ ":/content"
             | None => base ++ "/items/" ++ fstr item_id ++ "/content"
             end in
  let headers := add_header_if etag "if-none-match" (auth c) in
  let headers := match byte_range with
                 | Some (first, last) =>
                     (headers ++ [("Range", HStr ("bytes=" ++ py_str_int first ++ "-"
                                                    ++ py_str_int last)%string)])%list
                 | None => headers
                 end in
  mkRequest GET url [] headers NoBody true.

End Drives.

(* ====================================================================== *)
(** * Sample worlds *)
(* ====================================================================== *)

Module Sample.

Definition app : Client :=
  mkClient PyNone "app-id" "app-secret" "contoso"
    "https://graph.microsoft.com/v1.0"
    "https://login.microsoftonline.com/contoso/oauth2/v2.0/token"
    false.

(** The same client with a token in its cache. *)
Definition app_with_token : Client :=
  mkClient (PyStr "eyJ0") "app-id" "app-secret" "contoso"
    "https://graph.microsoft.com/v1.0"
    "https://login.microsoftonline.com/contoso/oauth2/v2.0/token"
    false.

Definition reply (status : Z) (v : pyval) : NetReply :=
  Reply (mkResponse status "" (Some v) []).

(** A server that accepts everything: the token endpoint issues a token,
    a POST to [createUploadSession] opens a session, and the rest is
    answered 200 with a small document. *)
Definition friendly : list Request -> Request -> NetReply :=
  fun _ req =>
    if String.eqb (url req) (token_url app) then
      reply 200 (PyDict [("token_type", PyStr "Bearer");
                         ("access_token", PyStr "eyJ0")])
    else if str_contains "/createUploadSession" (url req) then
      reply 201 (PyDict [("uploadUrl", PyStr "https://upload.example/s1");
                         ("expirationDateTime", PyStr "2026-01-01T00:00:00Z")])
    else reply 200 (PyDict [("id", PyStr "01ABC")]).

(** A token endpoint that answers 200 without [access_token]. *)
Definition no_token : list Request -> Request -> NetReply :=
  fun _ _ => reply 200 (PyDict [("token_type", PyStr "Bearer")]).

(** A server whose every answer is the given status. *)
Definition always (status : Z) : list Request -> Request -> NetReply :=
  fun _ _ => reply status (PyDict []).

Definition world (c : Client) (srv : list Request -> Request -> NetReply) : World :=
  mkWorld c [] srv (fun _ => None) (fun _ => None).

(** [n] zero bytes. *)
Definition zeros (n : Z) : bytes := repeat x00 (Z.to_nat n).

End Sample.

(* ====================================================================== *)
(** * More of Python, for the methods below *)
(* ====================================================================== *)

(** The double quote and the line feed, for the texts that contain them. *)
Definition dquote : string := String "034"%char EmptyString.
Definition newline : string := String "010"%char EmptyString.

Definition ascii_upper (c : ascii) : ascii :=
  let n := nat_of_ascii c in
  if (andb (Nat.leb 97 n) (Nat.leb n 122)) then ascii_of_nat (n - 32) else c.

(** [s.upper()], on the ASCII letters; other bytes are left alone. *)
Fixpoint upper (s : string) : string :=
  match s with
  | EmptyString => EmptyString
  | String c rest => String (ascii_upper c) (upper rest)
  end.

(** Truth value of a string and of a list. *)
Definition str_truthy (s : string) : bool := negb (String.eqb s "").

Definition nonempty {A} (l : list A) : bool :=
  match l with [] => false | _ => true end.

(** Truth value of an [Optional[list]] argument. *)
Definition truthy_list {A} (o : option (list A)) : bool :=
  match o with Some l => nonempty l | None => false end.

(** The list of an [Optional[list]] argument known to be one. *)
Definition opt_list {A} (o : option (list A)) : list A :=
  match o with Some l => l | None => [] end.

(** [len(v)]: [TypeError] for a value without a length. *)
Definition py_len (v : pyval) : M Z :=
  match v with
  | PyStr s => ret (str_len s)
  | PyBytes b => ret (len b)
  | PyTuple l | PyList l => ret (len l)
  | PyDict d => ret (len d)
  | _ => raise TypeError
  end.

(** A computation that only returns or raises. *)
Definition lift {A} (o : Outcome A) : M A := fun w => (o, w).

(** The bytes a request carries as its [content=] argument, none for a
    request with another kind of body. *)
Definition raw_body (req : Request) : bytes :=
  match body req with
  | RawBody b => b
  | _ => []
  end.

(* ====================================================================== *)
(** * [toolkit/users.py]: [Users] and [AsyncUsers] *)
(* ====================================================================== *)

Module Users.

(** The GET of [list_users]: [$search] is the term between double quotes,
    and the header [ConsistencyLevel], [None] without a search term, is
    dropped by the dictionary comprehension. *)
Definition list_users_request (c : Client)
    (select filter search orderby : option string) (top : option Z) : Request :=
  let params := Drives.add_if filter "$filter" (Drives.add_if select "$select" []) in
  let params := if truthy search
                then (params ++ [("$search", (dquote ++ fstr search ++ dquote)%string)])%list
                else params in
  let params := Drives.add_top top (Drives.add_if orderby "$orderby" params) in
  let headers := if truthy search
                 then [("Authorization", HBearer (token c));
                       ("ConsistencyLevel", HStr "eventual")]
                 else [("Authorization", HBearer (token c))] in
  mkRequest GET (base_url c ++ "/users") params headers NoBody false.

Definition list_users (select filter search orderby : option string)
    (top : option Z) : M pyval :=
  ensure_token ;;
  c <- get_client ;;
  response <- send (list_users_request c select filter search orderby top) ;;
  Drives.checked_json response.

(** [get_user] checks its argument before it looks at the token. *)
Definition get_user (user_id : string) (select : option string) : M pyval :=
  raise_if (negb (str_truthy user_id)) (ValueError "user_id es requerido") ;;
  ensure_token ;;
  c <- get_client ;;
  response <- send (mkRequest GET (base_url c ++ "/users/" ++ user_id)
                      (Drives.add_if select "$select" []) (Drives.auth c)
                      NoBody false) ;;
  Drives.checked_json response.

End Users.

(* ====================================================================== *)
(** * [toolkit/mails.py]: the message methods *)
(* ====================================================================== *)

Module Messages.

(** [f"{base_url}/mailFolders/{folder_id}/messages" if folder_id else
    f"{base_url}/messages"]. *)
Definition messages_url (c : Client) (user_id folder_id : option string) : string :=
  if truthy folder_id
  then Mails.mailbox_url c user_id ++ "/mailFolders/" ++ fstr folder_id ++ "/messages"
  else Mails.mailbox_url c user_id ++ "/messages".

(* ---------------------------------------------------------------------- *)
(** ** [list_messages] *)

Definition top_range_msg : string := "top debe estar entre 1 y 1000".
Definition list_body_type_msg : string := "body_type debe ser 'text' o 'html'".

(** The GET of [list_messages]. *)
Definition list_messages_request (c : Client)
    (user_id folder_id select filter orderby : option string) (top : option Z)
    (body_type : option string) : Request :=
  let params := Drives.add_top top
                  (Drives.add_if orderby "$orderby"
                     (Drives.add_if filter "$filter"
                        (Drives.add_if select "$select" []))) in
  let headers := if truthy body_type
                 then [("Authorization", HBearer (token c));
                       ("Prefer", HStr ("outlook.body-content-type=" ++ dquote
                                          ++ fstr body_type ++ dquote))]
                 else [("Authorization", HBearer (token c))] in
  mkRequest GET (messages_url c user_id folder_id) params headers NoBody false.

(** The [try] block of [list_messages].  The log line after
    [raise_for_status] formats [len(response.json()['value'])], so it is part
    of the control flow: it raises when the document has no ["value"]. *)
Definition list_messages_try
    (user_id folder_id select filter orderby : option string) (top : option Z)
    (body_type : option string) : M pyval :=
  ensure_token ;;
  c <- get_client ;;
  raise_if (negb (truthy user_id) && negb (is_delegated c))
    (ValueError Mails.need_user_msg) ;;
  raise_if (match top with
            | Some n => negb ((1 <=? n) && (n <=? 1000))
            | None => false
            end)
    (ValueError top_range_msg) ;;
  raise_if (truthy body_type
            && negb (existsb (String.eqb (fstr body_type)) ["text"; "html"]))
    (ValueError list_body_type_msg) ;;
  response <- send (list_messages_request c user_id folder_id select filter
                      orderby top body_type) ;;
  raise_for_status response ;;
  logged <- response_json response ;;
  value <- py_getitem logged "value" ;;
  py_len value ;;
  response_json response.

(** What leaves [list_messages]: an exception of the other methods, or the
    [TimeoutError] that only this method raises. *)
Inductive raised :=
| Exn (e : exn)
| TimeoutError (msg : string).

Definition inefficient_filter_msg : string :=
  "La combinación de filter y orderby es inválida. Asegúrese que las propiedades en orderby:"
  ++ newline ++ "- También aparezcan en filter"
  ++ newline ++ "- Estén en el mismo orden que en filter"
  ++ newline ++ "- Aparezcan antes que otras propiedades en filter".

Definition list_timeout_msg : string :=
  "La operación tardó demasiado. Intente reducir el número de propiedades (select) o mensajes (top)".

(** The [except httpx.HTTPStatusError as e:] clause of [list_messages]. *)
Definition list_messages_errors (e : exn) : raised :=
  match e with
  | HTTPStatusError r =>
      if status_code r =? 400 then
        if str_contains "InefficientFilter" (text r) then
          Exn (ValueError inefficient_filter_msg)
        else if str_contains "insufficient privileges" (lower (text r)) then
          Exn (PermissionError "No tiene los permisos necesarios. Se requiere Mail.ReadBasic o Mail.Read")
        else Exn e
      else if status_code r =? 401 then
        Exn (PermissionError "Token no válido o expirado. Asegúrese de tener los permisos Mail.ReadBasic o Mail.Read")
      else if status_code r =? 403 then
        Exn (PermissionError "No tiene permisos para listar mensajes. Se requiere Mail.ReadBasic o Mail.Read")
      else if status_code r =? 504 then
        TimeoutError list_timeout_msg
      else Exn e
  | _ => Exn e
  end.

(** [Mails.list_messages] / [AsyncMails.list_messages]. *)
Definition list_messages
    (user_id folder_id select filter orderby : option string) (top : option Z)
    (body_type : option string) : World -> (pyval + raised) * World :=
  fun w =>
    match list_messages_try user_id folder_id select filter orderby top body_type w with
    | (Return v, w') => (inl v, w')
    | (Raise e, w') => (inr (list_messages_errors e), w')
    end.

(* ---------------------------------------------------------------------- *)
(** ** [send_message] *)

(** The POST of [send_message]. *)
Definition send_message_request (c : Client) (message_id : string)
    (user_id : option string) : Request :=
  mkRequest POST
    (Mails.mailbox_url c user_id ++ "/messages/" ++ message_id ++ "/send")
    []
    [("Authorization", HBearer (token c)); ("Content-Length", HStr "0")]
    NoBody false.

Definition send_message_errors {A} (e : exn) : M A :=
  match e with
  | HTTPStatusError r =>
      if status_code r =? 400 then
        if str_contains "insufficient privileges" (lower (text r)) then
          raise (PermissionError "No tiene los permisos necesarios. Se requiere Mail.Send")
        else raise e
      else if status_code r =? 401 then
        raise (PermissionError "Token no válido o expirado. Asegúrese de tener los permisos Mail.Send")
      else if status_code r =? 403 then
        raise (PermissionError "No tiene permisos para enviar mensajes. Se requiere Mail.Send")
      else if status_code r =? 404 then
        raise (ValueError "El mensaje especificado no existe o no es un borrador")
      else raise e
  | _ => raise e
  end.

(** [Mails.send_message] / [AsyncMails.send_message]; the method returns
    [None] on every path that returns. *)
Definition send_message (message_id : string) (user_id : option string) : M pyval :=
  catch
    (ensure_token ;;
     c <- get_client ;;
     raise_if (negb (truthy user_id) && negb (is_delegated c))
       (ValueError Mails.need_user_msg) ;;
     raise_if (negb (str_truthy message_id)) (ValueError Mails.need_message_msg) ;;
     response <- send (send_message_request c message_id user_id) ;;
     if status_code response =? 202 then ret PyNone
     else
       raise_for_status response ;;
       ret PyNone)
    send_message_errors.

(* ---------------------------------------------------------------------- *)
(** ** [create_message] *)

Definition mime_exclusive_msg : string :=
  "Cuando se proporciona mime_content no se pueden usar otros parámetros del mensaje".
Definition need_fields_msg : string :=
  "Debe proporcionar subject, body y to_recipients".
Definition create_body_type_msg : string := "body_type debe ser 'HTML' o 'text'".
Definition importance_msg : string :=
  "importance debe ser 'low', 'normal' o 'high'".
Definition headers_format_msg : string :=
  "Formato inválido de message_headers. Debe ser: [{" ++ dquote ++ "name" ++ dquote
  ++ ": " ++ dquote ++ "x-custom-header" ++ dquote ++ ", " ++ dquote ++ "value"
  ++ dquote ++ ": " ++ dquote ++ "custom value" ++ dquote ++ "}]".

(** [isinstance(header, dict) and 'name' in header and 'value' in header]. *)
Definition valid_header (header : pyval) : bool :=
  match header with
  | PyDict d => is_some (dict_get "name" d) && is_some (dict_get "value" d)
  | _ => false
  end.

(** [if recipients: data[key] = self._process_recipients(recipients)]. *)
Definition add_recipients (key : string) (recipients : option (list pyval))
    (data : list (string * pyval)) : M (list (string * pyval)) :=
  if truthy_list recipients then
    processed <- lift (Mails._process_recipients (opt_list recipients)) ;;
    ret (dict_set key (PyList processed) data)
  else ret data.

(** The checks on the parameters of the message. *)
Definition check_message (subject body : string) (to_recipients : list pyval)
    (body_type importance : string) (message_headers : option (list pyval))
    (mime_content : option string) : M unit :=
  if truthy mime_content then
    raise_if (str_truthy body || str_truthy subject || nonempty to_recipients
              || truthy_list message_headers)
      (ValueError mime_exclusive_msg)
  else
    raise_if (negb (str_truthy subject && str_truthy body && nonempty to_recipients))
      (ValueError need_fields_msg) ;;
    raise_if (negb (existsb (String.eqb (upper body_type)) ["HTML"; "TEXT"]))
      (ValueError create_body_type_msg) ;;
    raise_if (negb (existsb (String.eqb (lower importance)) ["low"; "normal"; "high"]))
      (ValueError importance_msg).

(** The variable [data]: the MIME text, or the dictionary of the message. *)
Definition message_data (subject body : string) (to_recipients : list pyval)
    (body_type importance : string) (cc_recipients bcc_recipients reply_to : option (list pyval))
    (mime_content : option string) : M (string + list (string * pyval)) :=
  if truthy mime_content then ret (inl (fstr mime_content))
  else
    to <- lift (Mails._process_recipients to_recipients) ;;
    data <- add_recipients "ccRecipients" cc_recipients
              [("subject", PyStr subject);
               ("importance", PyStr (lower importance));
               ("body", PyDict [("contentType", PyStr (lower body_type));
                                ("content", PyStr body)]);
               ("toRecipients", PyList to)] ;;
    data <- add_recipients "bccRecipients" bcc_recipients data ;;
    data <- add_recipients "replyTo" reply_to data ;;
    ret (inr data).

(** [if message_headers and len(message_headers) > 0:], the loop that
    checks every header, and [data["internetMessageHeaders"] =
    message_headers] (which a string does not support). *)
Definition add_message_headers (message_headers : option (list pyval))
    (data : string + list (string * pyval)) : M (string + list (string * pyval)) :=
  if truthy_list message_headers then
    raise_if (negb (forallb valid_header (opt_list message_headers)))
      (ValueError headers_format_msg) ;;
    match data with
    | inl _ => raise TypeError
    | inr d => ret (inr (dict_set "internetMessageHeaders"
                           (PyList (opt_list message_headers)) d))
    end
  else ret data.

(** The POST of [create_message]: [content=data] for a MIME text,
    [json=data] otherwise. *)
Definition create_message_request (c : Client) (user_id folder_id : option string)
    (mime_content : option string) (data : string + list (string * pyval)) : Request :=
  mkRequest POST (messages_url c user_id folder_id) []
    [("Authorization", HBearer (token c));
     ("Content-Type",
      HStr (if truthy mime_content then "text/plain" else "application/json"))]
    (match data with
     | inl mime => RawBody (list_byte_of_string mime)
     | inr d => JsonBody (PyDict d)
     end)
    false.

Definition create_message_errors {A} (e : exn) : M A :=
  match e with
  | HTTPStatusError r =>
      if status_code r =? 400 then
        if str_contains "Invalid base64 string" (text r) then
          raise (ValueError "El contenido MIME proporcionado no es una cadena base64 válida")
        else if str_contains "insufficient privileges" (lower (text r)) then
          raise (PermissionError "No tiene los permisos necesarios. Se requiere Mail.ReadWrite")
        else raise e
      else if status_code r =? 401 then
        raise (PermissionError "Token no válido o expirado. Asegúrese de tener los permisos Mail.ReadWrite")
      else if status_code r =? 403 then
        raise (PermissionError "No tiene permisos para crear mensajes. Se requiere Mail.ReadWrite")
      else if status_code r =? 413 then
        raise (ValueError "El contenido MIME excede el límite de 4MB")
      else raise e
  | _ => raise e
  end.

(** [Mails.create_message] / [AsyncMails.create_message].  A dictionary
    that cannot be written as JSON raises [TypeError] before the POST: in
    the [async] method at [json.dumps(data, indent=2)] of the log line, in
    the blocking one when [httpx] encodes [json=data]. *)
Definition create_message (subject body : string) (to_recipients : list pyval)
    (user_id folder_id : option string) (body_type importance : string)
    (cc_recipients bcc_recipients reply_to message_headers : option (list pyval))
    (mime_content : option string) : M pyval :=
  catch
    (ensure_token ;;
     c <- get_client ;;
     raise_if (negb (truthy user_id) && negb (is_delegated c))
       (ValueError Mails.need_user_msg) ;;
     check_message subject body to_recipients body_type importance message_headers
       mime_content ;;
     data <- message_data subject body to_recipients body_type importance
               cc_recipients bcc_recipients reply_to mime_content ;;
     data <- add_message_headers message_headers data ;;
     raise_if (match data with
               | inl _ => false
               | inr d => negb (json_serializable (PyDict d))
               end) TypeError ;;
     response <- send (create_message_request c user_id folder_id mime_content data) ;;
     raise_for_status response ;;
     response_json response)
    create_message_errors.

(* ---------------------------------------------------------------------- *)
(** ** Notions used to state the properties of the message methods *)

(** The three checks of [list_messages] all pass. *)
Definition list_call_ok (c : Client) (user_id : option string) (top : option Z)
    (body_type : option string) : bool :=
  (truthy user_id || is_delegated c)
  && match top with
     | Some n => (1 <=? n) && (n <=? 1000)
     | None => true
     end
  && (negb (truthy body_type)
      || existsb (String.eqb (fstr body_type)) ["text"; "html"]).

(** The entry of an optional list of recipients in the message: none for
    [None] or an empty list. *)
Definition recipients_entry (key : string) (recipients : option (list pyval))
  : list (string * pyval) :=
  if truthy_list recipients
  then [(key, PyList (map Mails.normalized (opt_list recipients)))]
  else [].

(** The entry of the headers of the message: none for [None] or an empty
    list. *)
Definition headers_entry (message_headers : option (list pyval))
  : list (string * pyval) :=
  if truthy_list message_headers
  then [("internetMessageHeaders", PyList (opt_list message_headers))]
  else [].

(** The JSON document of a message, its recipients normalized. *)
Definition message_document (subject body : string) (to_recipients : list pyval)
    (body_type importance : string)
    (cc_recipients bcc_recipients reply_to message_headers : option (list pyval))
  : list (string * pyval) :=
  ([("subject", PyStr subject);
    ("importance", PyStr (lower importance));
    ("body", PyDict [("contentType", PyStr (lower body_type));
                     ("content", PyStr body)]);
    ("toRecipients", PyList (map Mails.normalized to_recipients))]
   ++ recipients_entry "ccRecipients" cc_recipients
   ++ recipients_entry "bccRecipients" bcc_recipients
   ++ recipients_entry "replyTo" reply_to
   ++ headers_entry message_headers)%list.

End Messages.

(* ====================================================================== *)
(** * More sample worlds *)
(* ====================================================================== *)

Module Scenes.

(** A server whose token endpoint answers [status] and that accepts the
    rest. *)
Definition token_endpoint_answers (status : Z) : list Request -> Request -> NetReply :=
  fun before req =>
    if String.eqb (url req) (token_url Sample.app)
    then Sample.reply status (PyDict [("error", PyStr "invalid_request")])
    else Sample.friendly before req.

(** A server that opens upload sessions without an [uploadUrl]. *)
Definition session_without_url : list Request -> Request -> NetReply :=
  fun _ _ => Sample.reply 201 (PyDict [("expirationDateTime", PyStr "2026-01-01T00:00:00Z")]).

End Scenes.

(* ====================================================================== *)
(** * Properties *)
(* ====================================================================== *)

Import Mails Drives.

(* ---------------------------------------------------------------------- *)
(** ** The definitions on small inputs *)

Example b64encode_Man :
  (b64encode [x4d; x61; x6e], b64encode [x4d; x61], b64encode [x4d])
  = ("TWFu", "TWE=", "TQ==").
Proof. reflexivity. Qed.

Example py_range_steps :
  (py_range 0 10 4, py_range 0 8 4, py_range 0 0 4) = ([0; 4; 8], [0; 4], []).
Proof. reflexivity. Qed.

Example py_slice_clamps :
  (py_slice [x01; x02; x03; x04; x05] 2 4, py_slice [x01; x02; x03; x04; x05] 4 8)
  = ([x03; x04], [x05]).
Proof. reflexivity. Qed.

Example strings_of_the_urls :
  (strip_slash "/docs/a.pdf/", basename "/tmp/docs/a.pdf", py_str_int 4194303,
   lower "Insufficient Privileges")
  = ("docs/a.pdf", "a.pdf", "4194303", "insufficient privileges").
Proof. reflexivity. Qed.

(** A first call fetches the token and caches it. *)
Example get_token_caches :
  let r := get_token (Sample.world Sample.app Sample.friendly) in
  fst r = Return (PyStr "eyJ0")
  /\ token (client (snd r)) = PyStr "eyJ0"
  /\ sent (snd r) = [token_request Sample.app].
Proof. repeat split. Qed.

(** The constructor leaves the token empty. *)
Lemma MsGraphBase_init_no_token cid csecret tid c :
  MsGraphBase_init cid csecret tid = Return c ->
  token c = PyNone /\ is_delegated c = false
  /\ client_id c <> "" /\ client_secret c <> "" /\ tenant_id c <> "".
Proof.
  unfold MsGraphBase_init.
  destruct (truthy cid) eqn:H1; [|discriminate].
  destruct (truthy csecret) eqn:H2; [|discriminate].
  destruct (truthy tid) eqn:H3; [|discriminate].
  simpl. intros H. inversion H; subst; clear H. simpl.
  destruct cid as [a|], csecret as [b|], tid as [t|]; try discriminate.
  simpl in *. apply negb_true_iff in H1, H2, H3.
  repeat split; apply String.eqb_neq; assumption.
Qed.

(** A small attachment goes out in one POST, its bytes in base64. *)
Example add_attachment_inline :
  let r := add_attachment "AAMkAGI2" None (Some [x4d; x61; x6e]) (Some "man.txt")
             (Some "ana@contoso.com") false None
             (Sample.world Sample.app_with_token Sample.friendly) in
  fst r = Return (PyDict [("id", PyStr "01ABC")])
  /\ map url (sent (snd r))
     = ["https://graph.microsoft.com/v1.0/users/ana@contoso.com/messages/AAMkAGI2/attachments"]
  /\ map body (sent (snd r))
     = [JsonBody (PyDict [("@odata.type", PyStr "#microsoft.graph.fileAttachment");
                          ("name", PyStr "man.txt");
                          ("contentBytes", PyStr "TWFu");
                          ("isInline", PyBool false);
                          ("contentType", PyStr "application/octet-stream")])].
Proof. repeat split. Qed.

(** [get_item] in the SharePoint-list case: the final [else] reads
    [base_url], which that case never binds. *)
Example get_item_of_a_list :
  let w := Sample.world Sample.app_with_token Sample.friendly in
  get_item (Some "7") None None None None (Some "contoso.sharepoint.com")
    (Some "Documents") None None false None w
  = (Raise (UnboundLocalError "base_url"), w).
Proof. reflexivity. Qed.

(* ---------------------------------------------------------------------- *)
(** ** The token *)

Lemma ensure_token_cached w :
  py_truthy (token (client w)) = true -> ensure_token w = (Return tt, w).
Proof.
  intros H. unfold ensure_token, bind, get_client. rewrite H. reflexivity.
Qed.

Lemma ensure_token_fetch w :
  py_truthy (token (client w)) = false ->
  ensure_token w = match get_token w with
                   | (Return _, w1) => (Return tt, w1)
                   | (Raise e, w1) => (Raise e, w1)
                   end.
Proof.
  intros H. unfold ensure_token, bind, get_client. rewrite H. simpl.
  destruct (get_token w) as [[t|e] w1]; reflexivity.
Qed.

(** Whatever happens, [get_token] hands exactly one request to the
    transport. *)
Lemma get_token_sent w o w1 :
  get_token w = (o, w1) ->
  sent w1 = (sent w ++ [token_request (client w)])%list.
Proof.
  unfold get_token, bind, get_client, send, raise_for_status, response_json.
  destruct (server w (sent w) (token_request (client w))) as [r|]; simpl.
  2:{ intros H; inversion H; reflexivity. }
  destruct (is_success r); simpl.
  2:{ intros H; inversion H; reflexivity. }
  destruct (json r) as [v|]; simpl.
  2:{ intros H; inversion H; reflexivity. }
  destruct v; simpl; try (intros H; inversion H; reflexivity).
  - destruct (str_contains _ _); simpl; intros H; inversion H; reflexivity.
  - destruct (existsb _ _); simpl; intros H; inversion H; reflexivity.
  - destruct (existsb _ _); simpl; intros H; inversion H; reflexivity.
  - destruct (is_some _); simpl; intros H; inversion H; reflexivity.
Qed.

(** C7.  When the token endpoint answers with a JSON document that has no
    [access_token] field, [get_token] raises and the client object is left
    as it was: no token is cached (a client without a token still has
    none).  The request is sent once.  For a 2xx answer that is a JSON
    object the exception is [Exception("No se pudo obtener el token de
    acceso")], the error the source raises for the missing field; for an
    answer that is not 2xx it is the [HTTPStatusError] of
    [raise_for_status]. *)
Theorem get_token_without_access_token :
  forall w r v,
    server w (sent w) (token_request (client w)) = Reply r ->
    json r = Some v ->
    json_field "access_token" v = None ->
    exists e,
      get_token w = (Raise e, with_sent w (token_request (client w)))
      /\ client (with_sent w (token_request (client w))) = client w
      /\ (is_success r = true -> (exists d, v = PyDict d) ->
          e = PyException no_access_token_msg)
      /\ (is_success r = false -> e = HTTPStatusError r).
Proof.
  intros w r v Hsrv Hjson Hfield.
  unfold get_token, bind, get_client, send, raise_for_status, response_json.
  rewrite Hsrv. simpl.
  destruct (is_success r) eqn:Hok; simpl.
  2:{ eexists; repeat split; try reflexivity; discriminate. }
  rewrite Hjson. simpl.
  destruct v; simpl in *;
    try (eexists; repeat split; try reflexivity; try discriminate;
         intros _ [d Hd]; discriminate).
  - destruct (str_contains _ _); simpl;
      eexists; repeat split; try reflexivity; try discriminate;
      intros _ [d Hd]; discriminate.
  - destruct (existsb _ _); simpl;
      eexists; repeat split; try reflexivity; try discriminate;
      intros _ [d Hd]; discriminate.
  - destruct (existsb _ _); simpl;
      eexists; repeat split; try reflexivity; try discriminate;
      intros _ [d Hd]; discriminate.
  - rewrite Hfield. simpl. eexists; repeat split; try reflexivity; discriminate.
Qed.

(** The theorem at a client without a token and an endpoint that answers
    200 with [{"token_type": "Bearer"}]. *)
Lemma get_token_without_access_token_witness :
  let w := Sample.world Sample.app Sample.no_token in
  fst (get_token w) = Raise (PyException no_access_token_msg)
  /\ token (client (snd (get_token w))) = PyNone.
Proof.
  intros w.
  destruct (get_token_without_access_token w
              (mkResponse 200 "" (Some (PyDict [("token_type", PyStr "Bearer")])) [])
              (PyDict [("token_type", PyStr "Bearer")])
              eq_refl eq_refl eq_refl)
    as (e & Hrun & Hclient & Hexc & _).
  rewrite Hrun. split; [|reflexivity].
  rewrite (Hexc eq_refl (ex_intro _ _ eq_refl)). reflexivity.
Defined.

(* ---------------------------------------------------------------------- *)
(** ** Drives: conditional requests *)

(** An [except] clause of the drive methods always raises, and leaves the
    world alone. *)
Lemma drive_errors_raises {A} m400 m401 m403 other e w :
  exists e', @drive_errors A m400 m401 m403 other e w = (Raise e', w).
Proof.
  unfold drive_errors. destruct e; try (eexists; reflexivity).
  destruct (status_code response =? 400).
  { destruct (str_contains _ _); eexists; reflexivity. }
  destruct (status_code response =? 401); [eexists; reflexivity|].
  destruct (status_code response =? 403); [eexists; reflexivity|].
  destruct (other response); eexists; reflexivity.
Qed.

(** With an [etag], the request of [get_item] is a conditional GET. *)
Lemma get_item_request_conditional :
  forall item_id item_path drive_id user_id group_id site_id list_id select expand
         include_deleted etag w w1 request,
    get_item_request item_id item_path drive_id user_id group_id site_id list_id
      select expand include_deleted etag w = (Return request, w1) ->
    truthy etag = true ->
    meth request = GET /\ In ("if-none-match", HStr (fstr etag)) (headers request).
Proof.
  intros * Hreq Het. unfold get_item_request, bind in Hreq.
  destruct (ensure_token w) as [[[]|e] w']; [|discriminate].
  unfold raise_if in Hreq.
  destruct (len _ >? 1); [discriminate|].
  destruct (is_some item_id && is_some item_path)%bool; [discriminate|].
  simpl in Hreq.
  destruct (get_item_url _ _ _ _ _ _ _ _ _) as [[u|e] w'']; [|discriminate].
  unfold ret in Hreq. inversion Hreq; subst. simpl. split; [reflexivity|].
  unfold add_header_if. rewrite Het. apply in_or_app. right. left. reflexivity.
Qed.

(** With an [etag], the request of [update_item] is a conditional PATCH;
    and there is a request only for properties that can be written as
    JSON. *)
Lemma update_item_request_conditional :
  forall item_id properties drive_id user_id group_id site_id etag w w1 request,
    update_item_request item_id properties drive_id user_id group_id site_id etag w
      = (Return request, w1) ->
    json_serializable properties = true
    /\ meth request = PATCH
    /\ (truthy etag = true -> In ("if-match", HStr (fstr etag)) (headers request)).
Proof.
  intros * Hreq. unfold update_item_request, bind in Hreq.
  destruct (ensure_token w) as [[[]|e] w']; [|discriminate].
  unfold raise_if in Hreq.
  destruct (len _ >? 1); [discriminate|].
  unfold ret at 1, get_client in Hreq. cbv beta iota zeta in Hreq.
  destruct (json_serializable properties); [|discriminate].
  unfold negb, ret in Hreq. cbv beta iota in Hreq.
  inversion Hreq; subst. cbn [meth headers].
  split; [reflexivity|]. split; [reflexivity|].
  intros Het. unfold add_header_if. rewrite Het. apply in_or_app. right. left. reflexivity.
Qed.

(** Properties that cannot be written as JSON: [update_item] raises
    [TypeError] where it builds its request, and no PATCH is sent. *)
Lemma update_item_unwritable :
  forall item_id properties drive_id user_id group_id site_id etag w,
    py_truthy (token (client w)) = true ->
    len (drive_identifiers drive_id user_id group_id site_id) <= 1 ->
    json_serializable properties = false ->
    update_item item_id properties drive_id user_id group_id site_id etag w
    = (Raise TypeError, w).
Proof.
  intros * Htok Hids Hjson. unfold update_item, update_item_request, catch, bind.
  rewrite (ensure_token_cached _ Htok). unfold raise_if.
  destruct (Z.gtb_spec (len (drive_identifiers drive_id user_id group_id site_id)) 1);
    [lia|].
  unfold ret at 1, get_client. cbv beta iota zeta. rewrite Hjson. reflexivity.
Qed.

(** Requests that are not [sendable]: [httpx] refuses the first for its
    header ([UnicodeEncodeError]) and the second for its URL
    ([InvalidURL]), and neither goes out. *)
Example not_sendable :
  let w := Sample.world Sample.app_with_token (Sample.always 304) in
  (forall request w1,
      get_item_request (Some "01ABC") None (Some "b!drive") None None None None
        None None false (Some "é") w = (Return request, w1) ->
      sendable request = false)
  /\ (forall request w1,
        get_item_request (Some ("01" ++ newline ++ "ABC")) None (Some "b!drive") None
          None None None None None false None w = (Return request, w1) ->
        sendable request = false).
Proof. split; intros request w1 H; inversion H; reflexivity. Qed.

(** C8.  When the GET of [get_item] is answered with status 304, the call
    returns [None] (the "not modified" outcome): nothing is raised and no
    body is parsed.  This holds with or without an [etag]; with one, the
    request carries it in [if-none-match].  The answer is an answer to a
    request that went out: the requests of the call (the token request, if
    one was needed, and the GET) are requests [httpx] sends as they are
    built. *)
Theorem get_item_not_modified :
  forall item_id item_path drive_id user_id group_id site_id list_id select expand
         include_deleted etag w w1 request r,
    get_item_request item_id item_path drive_id user_id group_id site_id list_id
      select expand include_deleted etag w = (Return request, w1) ->
    forallb sendable (handed_over w (with_sent w1 request)) = true ->
    server w1 (sent w1) request = Reply r ->
    status_code r = 304 ->
    get_item item_id item_path drive_id user_id group_id site_id list_id
      select expand include_deleted etag w = (Return PyNone, with_sent w1 request)
    /\ (truthy etag = true ->
        In ("if-none-match", HStr (fstr etag)) (headers request)).
Proof.
  intros * Hreq _ Hsrv Hst. split.
  - unfold get_item, bind. rewrite Hreq. unfold send. rewrite Hsrv, Hst. reflexivity.
  - intros Het. eapply get_item_request_conditional; eassumption.
Qed.

(** The theorem at a conditional request for an item of a drive, against a
    server that answers 304. *)
Lemma get_item_not_modified_witness :
  fst (get_item (Some "01ABC") None (Some "b!drive") None None None None None None
         false (Some "etag-1")
         (Sample.world Sample.app_with_token (Sample.always 304)))
  = Return PyNone.
Proof.
  set (w := Sample.world Sample.app_with_token (Sample.always 304)).
  destruct (get_item_not_modified (Some "01ABC") None (Some "b!drive") None None
              None None None None false (Some "etag-1") w _ _ _
              eq_refl eq_refl eq_refl eq_refl) as [Hrun _].
  rewrite Hrun. reflexivity.
Defined.

(** C9.  When the PATCH of [update_item] is answered with status 412, the
    call returns [None] and raises nothing; with an [etag] the request
    carries it in [if-match].  [None] tells the caller that the update was
    not applied: for any other status, a call that returns at all returns
    the JSON document of a 2xx answer.  The answer is an answer to a
    request that went out: the properties can be written as JSON (there is
    no PATCH otherwise), and the requests of the call are requests [httpx]
    sends as they are built. *)
Theorem update_item_precondition_failed :
  forall item_id properties drive_id user_id group_id site_id etag w w1 request r,
    update_item_request item_id properties drive_id user_id group_id site_id etag w
      = (Return request, w1) ->
    forallb sendable (handed_over w (with_sent w1 request)) = true ->
    server w1 (sent w1) request = Reply r ->
    (status_code r = 412 ->
       update_item item_id properties drive_id user_id group_id site_id etag w
       = (Return PyNone, with_sent w1 request))
    /\ (truthy etag = true ->
        In ("if-match", HStr (fstr etag)) (headers request))
    /\ (status_code r <> 412 ->
        forall v w2,
          update_item item_id properties drive_id user_id group_id site_id etag w
          = (Return v, w2) ->
          is_success r = true /\ json r = Some v)
    /\ json_serializable properties = true.
Proof.
  intros * Hreq _ Hsrv.
  destruct (update_item_request_conditional _ _ _ _ _ _ _ _ _ _ Hreq)
    as (Hjson & _ & Hetag).
  split; [|split; [|split]].
  - intros Hst. unfold update_item, catch, bind. rewrite Hreq. unfold send.
    rewrite Hsrv, Hst. reflexivity.
  - exact Hetag.
  - intros Hst v w2. apply Z.eqb_neq in Hst.
    unfold update_item, catch, bind. rewrite Hreq. unfold send.
    rewrite Hsrv, Hst. unfold checked_json, bind, raise_for_status.
    unfold update_item_errors.
    destruct (is_success r).
    + unfold ret at 1. unfold response_json. destruct (json r) as [v'|].
      * intros H. inversion H. auto.
      * unfold raise at 1. cbv beta iota.
        match goal with
        | |- context [drive_errors ?a ?b ?c ?d ?e ?w'] =>
            destruct (drive_errors_raises (A:=pyval) a b c d e w') as [e' He']
        end.
        rewrite He'. discriminate.
    + unfold raise at 1. cbv beta iota.
      match goal with
      | |- context [drive_errors ?a ?b ?c ?d ?e ?w'] =>
          destruct (drive_errors_raises (A:=pyval) a b c d e w') as [e' He']
      end.
      rewrite He'. discriminate.
  - exact Hjson.
Qed.

(** The theorem at a conditional update of an item, against a server that
    answers 412. *)
Lemma update_item_precondition_failed_witness :
  fst (update_item "01ABC" (PyDict [("name", PyStr "new.docx")]) (Some "b!drive")
         None None None (Some "etag-1")
         (Sample.world Sample.app_with_token (Sample.always 412)))
  = Return PyNone.
Proof.
  set (w := Sample.world Sample.app_with_token (Sample.always 412)).
  destruct (update_item_precondition_failed "01ABC"
              (PyDict [("name", PyStr "new.docx")]) (Some "b!drive") None None None
              (Some "etag-1") w _ _ _ eq_refl eq_refl eq_refl) as [H412 _].
  rewrite (H412 eq_refl). reflexivity.
Defined.

(* ---------------------------------------------------------------------- *)
(** ** Drives: addressing *)

(** As stated, C6 fails: on a client without a cached token, [get_item]
    with both [item_id] and [item_path] first sends the token request, and
    only then raises [ValueError]. *)
Lemma get_item_id_and_path_sends_token_request :
  let w := Sample.world Sample.app Sample.friendly in
  let r := get_item (Some "01ABC") (Some "/docs/a.pdf") None None None None None
             None None false None w in
  fst r = Raise (ValueError id_and_path_msg)
  /\ sent (snd r) = [token_request Sample.app]
  /\ sent (snd r) <> sent w.
Proof. repeat split. discriminate. Qed.

(** C6, amended.  [get_item] with both [item_id] and [item_path] raises
    [ValueError] (for the two arguments, or for the scope identifiers if
    these are also in excess) and sends no request for the item.  With a
    cached token nothing at all is sent.  Without one, the token request is
    sent first, once; if that exchange fails, its error is what the call
    raises. *)
Theorem get_item_id_and_path :
  forall item_id item_path drive_id user_id group_id site_id list_id select expand
         include_deleted etag w,
    let msg := if len (drive_identifiers drive_id user_id group_id site_id) >? 1
               then only_one_msg else id_and_path_msg in
    (py_truthy (token (client w)) = true ->
       get_item (Some item_id) (Some item_path) drive_id user_id group_id site_id
         list_id select expand include_deleted etag w
       = (Raise (ValueError msg), w))
    /\ (py_truthy (token (client w)) = false ->
        forall o w1, get_token w = (o, w1) ->
          sent w1 = (sent w ++ [token_request (client w)])%list
          /\ get_item (Some item_id) (Some item_path) drive_id user_id group_id
               site_id list_id select expand include_deleted etag w
             = (match o with
                | Return _ => Raise (ValueError msg)
                | Raise e => Raise e
                end, w1)).
Proof.
  intros. split.
  - intros Htok. unfold get_item, get_item_request, bind.
    rewrite (ensure_token_cached _ Htok). unfold raise_if, msg.
    destruct (len _ >? 1); reflexivity.
  - intros Htok o w1 Hget. split; [eapply get_token_sent; eassumption|].
    unfold get_item, get_item_request, bind.
    rewrite (ensure_token_fetch _ Htok), Hget. unfold raise_if, msg.
    destruct o; [|reflexivity].
    destruct (len _ >? 1); reflexivity.
Qed.

(** The theorem at a client that has a token. *)
Lemma get_item_id_and_path_witness :
  let w := Sample.world Sample.app_with_token Sample.friendly in
  get_item (Some "01ABC") (Some "/docs/a.pdf") None None None None None
    None None false None w
  = (Raise (ValueError id_and_path_msg), w).
Proof.
  intros w.
  exact (proj1 (get_item_id_and_path "01ABC" "/docs/a.pdf" None None None None None
                  None None false None w) eq_refl).
Defined.

Lemma len_gt1_not0 {A} (l : list A) : (len l >? 1) = true -> (len l =? 0) = false.
Proof. intros H. apply Z.gtb_lt in H. apply Z.eqb_neq. lia. Qed.

(** Runs a method on a call with two or more scope identifiers: the token
    step, the checks that come before the count, the count. *)
Ltac reject_scopes method :=
  let Hn := fresh "Hn" in
  let Hb := fresh "Hb" in
  let Htok := fresh "Htok" in
  let Hget := fresh "Hget" in
  let o := fresh "o" in
  let w1 := fresh "w1" in
  intros ? ? ? ? ? Hn;
  match type of Hn with
  | len ?ids > 1 =>
      assert (Hb : (len ids >? 1) = true) by (apply Z.gtb_lt; lia)
  end;
  split;
  [ intros Htok;
    unfold method, get_item_request, update_item_request, update_item_errors,
      catch, bind;
    rewrite (ensure_token_cached _ Htok); unfold raise_if;
    rewrite ?Hb, ?(len_gt1_not0 _ Hb);
    repeat match goal with
           | |- context [if ?c then raise _ else ret _] => destruct c
           end;
    eexists; reflexivity
  | intros Htok o w1 Hget; split; [eapply get_token_sent; exact Hget|];
    unfold method, get_item_request, update_item_request, update_item_errors,
      create_folder_errors, upload_content_errors, download_content_errors,
      catch, bind;
    rewrite (ensure_token_fetch _ Htok), Hget; unfold raise_if;
    rewrite ?Hb, ?(len_gt1_not0 _ Hb);
    destruct o;
    [ repeat match goal with
             | |- context [if ?c then raise _ else ret _] => destruct c
             end;
      eexists; reflexivity
    | reflexivity ] ].

(** As stated, C5 fails: [list_drives] called with a [user_id] and with a
    [resource_id] and [resource_type] raises nothing and lists the drives
    of the resource. *)
Lemma list_drives_silent_precedence :
  let w := Sample.world Sample.app_with_token Sample.friendly in
  let r := list_drives (Some "ana@contoso.com") (Some "g-42") (Some "groups") None w in
  fst r = Return (PyDict [("id", PyStr "01ABC")])
  /\ map url (sent (snd r)) = ["https://graph.microsoft.com/v1.0/groups/g-42/drives"].
Proof. split; reflexivity. Qed.

(** C5, amended.  Each method that takes [drive_id], [user_id], [group_id]
    and [site_id] answers a call that gives two or more of them with
    [ValueError], whichever they are, and sends no request to the Graph
    API.  When no token is cached the token request is sent first, and
    nothing else.  If that exchange fails, its error takes the place of the
    [ValueError]: [get_drive], [get_item], [list_items] and [list_changes]
    raise it as it is; [create_folder], [update_item], [upload_content] and
    [download_content] run the exchange inside their [try], so the error
    goes through their [except] clause, which sends nothing, turns an
    answer 401 or 403 of the token endpoint into [PermissionError] and
    leaves alone every error that is not an HTTP status error.
    [list_drives] has no such
    check: a [resource_id] with a [resource_type] takes precedence over
    [user_id]. *)
Theorem scope_identifiers_exclusive :
  (forall select,
      rejects_two_scopes raise (fun d u g s => get_drive d u g s select))
  /\ (forall item_id item_path list_id select expand include_deleted etag,
      rejects_two_scopes raise (fun d u g s =>
        get_item item_id item_path d u g s list_id select expand include_deleted etag))
  /\ (forall item_id item_path select expand orderby top,
      rejects_two_scopes raise (fun d u g s =>
        list_items item_id item_path d u g s select expand orderby top))
  /\ (forall delta_token select expand top show_sharing_changes,
      rejects_two_scopes raise (fun d u g s =>
        list_changes delta_token d u g s select expand top show_sharing_changes))
  /\ (forall name parent_id conflict_behavior,
      rejects_two_scopes create_folder_errors (fun d u g s =>
        create_folder name parent_id d u g s conflict_behavior))
  /\ (forall item_id properties etag,
      rejects_two_scopes update_item_errors (fun d u g s =>
        update_item item_id properties d u g s etag))
  /\ (forall content filename item_id parent_id content_type,
      rejects_two_scopes upload_content_errors (fun d u g s =>
        upload_content content filename item_id parent_id d u g s content_type))
  /\ (forall item_id item_path etag byte_range,
      rejects_two_scopes download_content_errors (fun d u g s =>
        download_content item_id item_path d u g s etag byte_range))
  /\ (forall m400 m401 m403 other e w,
      exists e', @drive_errors pyval m400 m401 m403 other e w = (Raise e', w))
  /\ (forall m400 m401 m403 other e w,
      (forall r, e <> HTTPStatusError r) ->
      @drive_errors pyval m400 m401 m403 other e w = (Raise e, w))
  /\ (forall m400 m401 m403 other r w,
      (status_code r = 401 ->
       @drive_errors pyval m400 m401 m403 other (HTTPStatusError r) w
       = (Raise (PermissionError m401), w))
      /\ (status_code r = 403 ->
          @drive_errors pyval m400 m401 m403 other (HTTPStatusError r) w
          = (Raise (PermissionError m403), w)))
  /\ (forall user_id resource_id resource_type select w,
      (truthy resource_id && truthy resource_type)%bool = true ->
      list_drives user_id resource_id resource_type select w
      = list_drives None resource_id resource_type select w).
Proof.
  repeat apply conj.
  - intros. reject_scopes get_drive.
  - intros. reject_scopes get_item.
  - intros. reject_scopes list_items.
  - intros. reject_scopes list_changes.
  - intros. reject_scopes create_folder.
  - intros. reject_scopes update_item.
  - intros. reject_scopes upload_content.
  - intros. reject_scopes download_content.
  - intros. apply drive_errors_raises.
  - intros * He. unfold drive_errors. destruct e; try reflexivity.
    exfalso. apply (He response). reflexivity.
  - intros m400 m401 m403 other r w.
    split; intros H; unfold drive_errors; rewrite H; reflexivity.
  - intros * Hres. unfold list_drives, bind, list_drives_url.
    rewrite Hres. reflexivity.
Qed.

(** The theorem at [get_item] with a [drive_id] and a [user_id]. *)
Lemma scope_identifiers_exclusive_witness :
  let w := Sample.world Sample.app_with_token Sample.friendly in
  exists msg,
    get_item (Some "01ABC") None (Some "b!drive") (Some "ana@contoso.com") None None
      None None None false None w
    = (Raise (ValueError msg), w).
Proof.
  intros w.
  destruct scope_identifiers_exclusive as (_ & Hget_item & _).
  apply (Hget_item (Some "01ABC") None None None None false None
           (Some "b!drive") (Some "ana@contoso.com") None None w).
  - unfold len. simpl. lia.
  - reflexivity.
Defined.

(* ---------------------------------------------------------------------- *)
(** ** Mail attachments: sizes, slices and ranges *)

Lemma chunk_size_eq : chunk_size = 4194304.
Proof. reflexivity. Qed.

Lemma inline_threshold_eq : inline_threshold = 3145728.
Proof. reflexivity. Qed.

Lemma session_cap_eq : session_cap = 157286400.
Proof. reflexivity. Qed.

Lemma len_nonneg {A} (l : list A) : 0 <= len l.
Proof. unfold len. lia. Qed.

Lemma len_zeros n : 0 <= n -> len (Sample.zeros n) = n.
Proof. intros H. unfold len, Sample.zeros. rewrite repeat_length. lia. Qed.

Lemma len_py_slice {A} (l : list A) start stop :
  0 <= start <= len l -> start <= stop ->
  len (py_slice l start stop) = Z.min (stop - start) (len l - start).
Proof.
  intros Hs Hst. unfold len, py_slice in *.
  rewrite length_firstn, length_skipn. lia.
Qed.

Lemma py_range_length start stop step :
  List.length (py_range start stop step)
  = Z.to_nat ((stop - start + step - 1) / step).
Proof. unfold py_range. rewrite length_map, length_seq. reflexivity. Qed.

Lemma py_range_nth start stop step i :
  (i < List.length (py_range start stop step))%nat ->
  nth_error (py_range start stop step) i = Some (start + Z.of_nat i * step).
Proof.
  intros Hi. rewrite py_range_length in Hi. unfold py_range.
  rewrite nth_error_map, nth_error_seq.
  destruct (Nat.ltb_spec i (Z.to_nat ((stop - start + step - 1) / step))); [|lia].
  reflexivity.
Qed.

(** The loop runs [ceil(total / chunk_size)] times. *)
Lemma chunk_count total :
  0 <= total ->
  Z.of_nat (List.length (py_range 0 total chunk_size)) = ceil_div total chunk_size.
Proof.
  intros Htotal. rewrite py_range_length, chunk_size_eq. unfold ceil_div.
  rewrite Z2Nat.id; [f_equal; lia|].
  apply Z.div_pos; lia.
Qed.

(** Every value of the range is an offset inside the payload. *)
Lemma chunk_start_bound total i :
  0 <= total -> (i < List.length (py_range 0 total chunk_size))%nat ->
  Z.of_nat i * chunk_size < total.
Proof.
  intros Htotal Hi.
  assert (Hc := chunk_count total Htotal). unfold ceil_div in Hc.
  rewrite chunk_size_eq in *.
  assert (Z.of_nat i < (total + 4194304 - 1) / 4194304) by lia.
  Z.div_mod_to_equations. lia.
Qed.

(** [len(base64.b64encode(data)) = 4 * ceil(len(data) / 3)]. *)
Lemma b64encode_length_nat (data : bytes) :
  String.length (b64encode data) = (4 * ((List.length data + 2) / 3))%nat.
Proof.
  assert (H : forall n (l : bytes), (List.length l <= n)%nat ->
            String.length (b64encode l) = (4 * ((List.length l + 2) / 3))%nat).
  { induction n as [|n IH]; intros l Hl.
    - destruct l; [reflexivity | simpl in Hl; lia].
    - destruct l as [|a [|b [|c rest]]]; try reflexivity.
      cbn [b64encode String.length List.length].
      rewrite IH by (simpl in Hl; lia).
      replace (S (S (S (List.length rest))) + 2)%nat
        with ((List.length rest + 2) + 1 * 3)%nat by lia.
      rewrite Nat.div_add by lia. lia. }
  apply (H (List.length data)). lia.
Qed.

Lemma b64encode_len (data : bytes) :
  str_len (b64encode data) = 4 * ((len data + 2) / 3).
Proof.
  unfold str_len, len. rewrite b64encode_length_nat.
  rewrite Nat2Z.inj_mul, Nat2Z.inj_div, Nat2Z.inj_add. reflexivity.
Qed.

Lemma str_len_pos_nonempty s : 0 < str_len s -> String.eqb s "" = false.
Proof. destruct s; [unfold str_len; simpl; lia | reflexivity]. Qed.

(* ---------------------------------------------------------------------- *)
(** ** The requests of the chunks *)

Section ChunkPlan.

Variable data : bytes.

Local Abbreviation total := (len data).


Lemma chunk_requests_length upload_url :
  Z.of_nat (List.length (chunk_requests upload_url data total)) = ceil_div total chunk_size.
Proof.
  unfold chunk_requests. rewrite length_map. apply chunk_count, len_nonneg.
Qed.

End ChunkPlan.

(* ---------------------------------------------------------------------- *)
(** ** The upload loop *)

Lemma all_answered_ok_nil w before : all_answered_ok w before [].
Proof. intros i req H. destruct i; discriminate. Qed.

Lemma all_answered_ok_cons w before req reqs :
  answered_ok w before req ->
  all_answered_ok w (before ++ [req]) reqs ->
  all_answered_ok w before (req :: reqs).
Proof.
  intros H0 Hrest [|i] r Hr; simpl in *.
  - inversion Hr; subst. rewrite app_nil_r. exact H0.
  - specialize (Hrest i r Hr). rewrite <- app_assoc in Hrest. exact Hrest.
Qed.

Lemma answered_ok_not_fails w before req e :
  answered_ok w before req -> fails_with w before req e -> False.
Proof.
  intros [r [Hr Hok]] [[Hn _] | [r' [Hr' [Hbad _]]]]; rewrite Hr in *.
  - discriminate.
  - inversion Hr'; subst. congruence.
Qed.

Section UploadLoop.

(** A session document whose [uploadUrl] is the string [upload_url]. *)
Variable session : list (string * pyval).
Variable upload_url : string.
Hypothesis session_url : dict_get "uploadUrl" session = Some (PyStr upload_url).

Variable data : bytes.
Variable total : Z.

(** The loop sends the requests of its range in order.  Either all are
    answered 2xx and the loop ends normally, or the first request that
    fails is the last one sent and its error leaves the loop. *)
Lemma upload_chunks_run starts :
  forall w o w',
    upload_chunks (PyDict session) data total starts w = (o, w') ->
    let reqs := map (chunk_request_at upload_url data total) starts in
    client w' = client w /\ server w' = server w
    /\ ((o = Return tt /\ sent w' = (sent w ++ reqs)%list
         /\ all_answered_ok w (sent w) reqs)
        \/ (exists i req e,
             nth_error reqs i = Some req /\ o = Raise e
             /\ sent w' = (sent w ++ firstn (S i) reqs)%list
             /\ all_answered_ok w (sent w) (firstn i reqs)
             /\ fails_with w (sent w ++ firstn i reqs) req e)).
Proof.
  induction starts as [|start rest IH]; intros w o w' Hrun reqs.
  - inversion Hrun; subst. repeat split. left. subst reqs. simpl.
    rewrite app_nil_r. repeat split. apply all_answered_ok_nil.
  - simpl in Hrun. unfold bind, py_getitem in Hrun. rewrite session_url in Hrun.
    simpl in Hrun. unfold bind, send in Hrun.
    fold (chunk_request_at upload_url data total start) in Hrun.
    subst reqs. simpl map.
    set (req := chunk_request_at upload_url data total start) in *.
    set (rs := map (chunk_request_at upload_url data total) rest) in *.
    destruct (server w (sent w) req) as [r|] eqn:Hsrv.
    + unfold raise_for_status in Hrun.
      destruct (is_success r) eqn:Hok; simpl in Hrun.
      * destruct (IH _ _ _ Hrun) as (Hc & Hs & Hcases). fold rs in Hcases.
        simpl in Hc, Hs. repeat split; try assumption.
        destruct Hcases
          as [(Ho & Hsent & Hall) | (i & rq & e & Hn & Ho & Hsent & Hall & Hfail)].
        -- left. repeat split; try assumption.
           ++ rewrite Hsent. simpl. rewrite <- app_assoc. reflexivity.
           ++ apply all_answered_ok_cons; [exists r; auto|]. exact Hall.
        -- right. exists (S i), rq, e. simpl. repeat split; try assumption.
           ++ rewrite Hsent. simpl. rewrite <- app_assoc. reflexivity.
           ++ apply all_answered_ok_cons; [exists r; auto|]. exact Hall.
           ++ unfold fails_with in *. simpl in Hfail.
              rewrite <- app_assoc in Hfail. exact Hfail.
      * inversion Hrun; subst. simpl. repeat split. right.
        exists 0%nat, req, (HTTPStatusError r). simpl. repeat split.
        -- apply all_answered_ok_nil.
        -- right. exists r. rewrite app_nil_r. auto.
    + inversion Hrun; subst. simpl. repeat split. right.
      exists 0%nat, req, TransportError. simpl. repeat split.
      * apply all_answered_ok_nil.
      * left. rewrite app_nil_r. auto.
Qed.

End UploadLoop.

(* ---------------------------------------------------------------------- *)
(** ** [add_attachment]: from the call to the transfer *)

Lemma resolve_content_type_run ct source w :
  resolve_content_type ct source w
  = (Return (if truthy ct then opt_str ct
             else if truthy (mime w source) then opt_str (mime w source)
             else "application/octet-stream"), w).
Proof. unfold resolve_content_type. destruct (truthy ct); reflexivity. Qed.

(** A well-formed call is the transfer of its payload. *)
Lemma add_attachment_transfer m fp c fn u i ct w data name :
  payload_of w fp c fn = Some (data, name) ->
  add_attachment m fp c fn u i ct w
  = transfer m (len data) data name u i (content_type_of w fp fn ct) w.
Proof.
  unfold payload_of. intros H.
  destruct fp as [p|], c as [c|], fn as [fn|]; try discriminate.
  - destruct (truthy (Some p)) eqn:Hp; [|discriminate].
    destruct (files w p) as [bs|] eqn:Hf; [|discriminate].
    inversion H; subst; clear H.
    unfold add_attachment, bind, raise_if. rewrite Hp.
    cbn [is_some negb andb orb opt_str]. unfold ret at 1 2. cbv beta iota.
    rewrite Hf.
    rewrite resolve_content_type_run. unfold content_type_of. rewrite Hp.
    reflexivity.
  - inversion H; subst; clear H.
    unfold add_attachment, bind, raise_if. simpl.
    rewrite resolve_content_type_run. reflexivity.
Qed.

(** Above the cap the transfer stops at once. *)
Lemma transfer_over_cap m total data name u i ct w :
  session_cap < total ->
  transfer m total data name u i ct w = (Raise (ValueError cap_msg), w).
Proof.
  intros H. unfold transfer.
  destruct (Z.leb_spec total inline_threshold);
    [rewrite inline_threshold_eq, session_cap_eq in *; lia|].
  unfold bind, raise_if. destruct (Z.gtb_spec total session_cap); [|lia].
  reflexivity.
Qed.

(** Between the threshold and the cap the transfer is the session
    strategy. *)
Lemma transfer_session m total data name u i ct w :
  inline_threshold < total <= session_cap ->
  transfer m total data name u i ct w
  = match _create_upload_session m name total u i w with
    | (Return session, w1) =>
        match upload_chunks session data total (py_range 0 total chunk_size) w1 with
        | (Return _, w2) => (Return session, w2)
        | (Raise e, w2) => (Raise e, w2)
        end
    | (Raise e, w1) => (Raise e, w1)
    end.
Proof.
  intros [Hlo Hhi]. unfold transfer.
  destruct (Z.leb_spec total inline_threshold); [lia|].
  unfold bind, raise_if.
  destruct (Z.gtb_spec total session_cap); [lia|].
  unfold ret at 1.
  destruct (_create_upload_session m name total u i w) as [[session|e] w1]; reflexivity.
Qed.

(** With a cached token, negotiating the session is one request. *)
Lemma create_upload_session_sent m name size u i w o w1 :
  py_truthy (token (client w)) = true ->
  _create_upload_session m name size u i w = (o, w1) ->
  w1 = with_sent w (session_request (client w) m name size u i).
Proof.
  intros Htok. unfold _create_upload_session, bind.
  rewrite (ensure_token_cached _ Htok). unfold get_client, send.
  destruct (server w (sent w) _) as [r|]; [|intros H; inversion H; reflexivity].
  unfold raise_for_status. destruct (is_success r).
  - unfold ret at 1. unfold response_json.
    destruct (json r); intros H; inversion H; reflexivity.
  - intros H; inversion H; reflexivity.
Qed.

Section SessionTransfer.

Variables (m : string) (fp : option string) (c : option bytes)
          (fn u : option string) (i : bool) (ct : option string).
Variable w : World.
Variables (data : bytes) (name : string).
Hypothesis payload : payload_of w fp c fn = Some (data, name).
Hypothesis size : inline_threshold < len data <= session_cap.

Variables (session : pyval) (w1 : World) (upload_url : string).
Hypothesis negotiated :
  _create_upload_session m name (len data) u i w = (Return session, w1).
Hypothesis session_url : json_field "uploadUrl" session = Some (PyStr upload_url).

Local Abbreviation reqs := (chunk_requests upload_url data (len data)).

(** A run of the session strategy once the session is negotiated: the PUT
    requests go out in the order of the loop; either all are answered 2xx
    and the session is returned, or the first one that fails is the last
    one sent and its error is the result. *)
Lemma session_transfer_run :
  exists o w2,
    add_attachment m fp c fn u i ct w = (o, w2)
    /\ ((o = Return session
         /\ sent w2 = (sent w1 ++ reqs)%list
         /\ all_answered_ok w1 (sent w1) reqs)
        \/ (exists k req e,
             nth_error reqs k = Some req
             /\ o = Raise e
             /\ sent w2 = (sent w1 ++ firstn (S k) reqs)%list
             /\ all_answered_ok w1 (sent w1) (firstn k reqs)
             /\ fails_with w1 (sent w1 ++ firstn k reqs) req e)).
Proof.
  rewrite (add_attachment_transfer _ _ _ _ _ _ _ _ _ _ payload).
  rewrite (transfer_session _ _ _ _ _ _ _ _ size), negotiated.
  destruct session as [| | | | | | | d]; try discriminate. simpl in session_url.
  destruct (upload_chunks (PyDict d) data (len data)
              (py_range 0 (len data) chunk_size) w1) as [o w2] eqn:Hrun.
  destruct (upload_chunks_run d upload_url session_url data (len data) _ _ _ _ Hrun)
    as (_ & _ & [(Ho & Hsent & Hall)
                | (k & req & e & Hn & Ho & Hsent & Hall & Hfail)]).
  - subst o. eexists; eexists; split; [reflexivity|]. left. auto.
  - subst o. eexists; eexists; split; [reflexivity|]. right.
    exists k, req, e. auto.
Qed.

(** When every chunk is answered 2xx the call returns the session and has
    sent all the chunks. *)
Lemma session_transfer_ok :
  all_answered_ok w1 (sent w1) reqs ->
  exists w2,
    add_attachment m fp c fn u i ct w = (Return session, w2)
    /\ sent w2 = (sent w1 ++ reqs)%list.
Proof.
  intros Hall.
  destruct session_transfer_run
    as (o & w2 & Hrun & [(Ho & Hsent & _) | (k & req & e & Hn & _ & _ & _ & Hfail)]).
  - subst o. exists w2. auto.
  - exfalso. eapply answered_ok_not_fails; [apply (Hall k req Hn)|exact Hfail].
Qed.

(** The number of requests of a session transfer that goes through, on a
    client that has its token: one to negotiate, one per chunk. *)
Lemma session_request_count :
  py_truthy (token (client w)) = true ->
  all_answered_ok w1 (sent w1) reqs ->
  exists w2,
    add_attachment m fp c fn u i ct w = (Return session, w2)
    /\ len (sent w2) = len (sent w) + ceil_div (len data) chunk_size + 1.
Proof.
  intros Htok Hall.
  destruct (session_transfer_ok Hall) as (w2 & Hrun & Hsent).
  exists w2. split; [exact Hrun|].
  rewrite Hsent, (create_upload_session_sent _ _ _ _ _ _ _ _ Htok negotiated).
  unfold len, with_sent. simpl sent. rewrite !length_app, !Nat2Z.inj_add.
  rewrite chunk_requests_length. simpl. unfold len. lia.
Qed.

End SessionTransfer.

(** What the inline strategy does on a client that has its token: one
    request when the base64 text is at most 3 MiB long (a payload of at
    most 2359296 bytes), whatever the answer to it is. *)
Lemma inline_one_request m fp c fn u i ct w data name :
  payload_of w fp c fn = Some (data, name) ->
  len data <= 2359296 ->
  py_truthy (token (client w)) = true ->
  (truthy u || is_delegated (client w))%bool = true ->
  m <> "" ->
  exists o,
    add_attachment m fp c fn u i ct w
    = (o, with_sent w (inline_request (client w) m name (b64encode data) u i
                         (Some (content_type_of w fp fn ct)))).
Proof.
  intros Hpay Hhi Htok Huser Hm.
  rewrite (add_attachment_transfer _ _ _ _ _ _ _ _ _ _ Hpay).
  unfold transfer.
  destruct (Z.leb_spec (len data) inline_threshold);
    [|rewrite inline_threshold_eq in *; lia].
  unfold _add_attachment_raw, catch, bind.
  rewrite (ensure_token_cached _ Htok). unfold get_client, raise_if.
  replace (negb (truthy u) && negb (is_delegated (client w)))%bool with false
    by (destruct (truthy u), (is_delegated (client w)); simpl in *; congruence).
  apply String.eqb_neq in Hm. rewrite Hm.
  assert (Hlen : str_len (b64encode data) <= 3 * 1024 * 1024).
  { rewrite b64encode_len. Z.div_mod_to_equations. lia. }
  destruct (Z.gtb_spec (str_len (b64encode data)) (3 * 1024 * 1024)); [lia|].
  rewrite andb_false_r. cbv beta iota. unfold ret at 1 2 3.
  unfold send.
  set (req := inline_request _ _ _ _ _ _ _).
  destruct (server w (sent w) req) as [r|].
  - unfold raise_for_status. destruct (is_success r).
    + unfold ret at 1. unfold response_json.
      destruct (json r); [eexists; reflexivity|].
      unfold raise at 1. simpl. eexists; reflexivity.
    + unfold raise at 1. cbv beta iota.
      unfold attachment_errors.
      repeat match goal with
             | |- context [if ?b then _ else _] => destruct b
             end; eexists; reflexivity.
  - simpl. eexists; reflexivity.
Qed.

(** A payload of more than 2359296 bytes has a base64 text of more than
    3 MiB, and [_add_attachment_raw] refuses that text before it sends
    anything: up to the threshold of [add_attachment], such a payload is
    routed to the inline strategy and is not attached at all. *)
Lemma inline_refused m fp c fn u i ct w data name :
  payload_of w fp c fn = Some (data, name) ->
  2359296 < len data <= inline_threshold ->
  py_truthy (token (client w)) = true ->
  (truthy u || is_delegated (client w))%bool = true ->
  m <> "" ->
  add_attachment m fp c fn u i ct w = (Raise (ValueError raw_limit_msg), w).
Proof.
  intros Hpay [Hlo Hhi] Htok Huser Hm.
  rewrite (add_attachment_transfer _ _ _ _ _ _ _ _ _ _ Hpay).
  unfold transfer. destruct (Z.leb_spec (len data) inline_threshold); [|lia].
  unfold _add_attachment_raw, catch, bind.
  rewrite (ensure_token_cached _ Htok). unfold get_client, raise_if.
  replace (negb (truthy u) && negb (is_delegated (client w)))%bool with false
    by (destruct (truthy u), (is_delegated (client w)); simpl in *; congruence).
  apply String.eqb_neq in Hm. rewrite Hm.
  assert (Hlen : str_len (b64encode data) > 3 * 1024 * 1024).
  { rewrite b64encode_len. Z.div_mod_to_equations. lia. }
  rewrite str_len_pos_nonempty by lia.
  destruct (Z.gtb_spec (str_len (b64encode data)) (3 * 1024 * 1024)); [|lia].
  reflexivity.
Qed.

(* ---------------------------------------------------------------------- *)
(** ** [add_attachment]: the chunks *)

(** A slice that reaches past the end stops at the end. *)
Lemma py_slice_clamp {A} (l : list A) start size :
  0 <= start <= len l -> 0 <= size ->
  py_slice l start (start + size) = py_slice l start (Z.min (start + size) (len l)).
Proof.
  intros Hs Hc. unfold py_slice, len in *.
  destruct (Z.le_gt_cases (start + size) (Z.of_nat (List.length l))) as [Hle|Hgt].
  - rewrite Z.min_l by lia. reflexivity.
  - rewrite Z.min_r by lia.
    rewrite !firstn_all2; [reflexivity| |]; rewrite length_skipn; lia.
Qed.

(** The requests of the loop in closed form: request [k] is the PUT of
    bytes [k * C] to [min((k + 1) * C, total) - 1]. *)
Lemma chunk_requests_closed upload_url (data : bytes) :
  chunk_requests upload_url data (len data)
  = map (fun k : nat =>
           chunk_request upload_url
             (py_slice data (Z.of_nat k * chunk_size)
                (Z.min ((Z.of_nat k + 1) * chunk_size) (len data) - 1 + 1))
             (Z.of_nat k * chunk_size)
             (Z.min ((Z.of_nat k + 1) * chunk_size) (len data) - 1)
             (len data))
        (seq 0 (Z.to_nat (ceil_div (len data) chunk_size))).
Proof.
  unfold chunk_requests, py_range, ceil_div. rewrite map_map.
  replace (len data - 0 + chunk_size - 1) with (len data + chunk_size - 1) by lia.
  apply map_ext_in. intros k Hk. apply in_seq in Hk.
  assert (Hlt : (k < List.length (py_range 0 (len data) chunk_size))%nat).
  { rewrite py_range_length.
    replace (len data - 0 + chunk_size - 1) with (len data + chunk_size - 1) by lia.
    lia. }
  assert (Hb := chunk_start_bound (len data) k (len_nonneg data) Hlt).
  unfold chunk_request_at. cbv zeta. rewrite Z.add_0_l.
  assert (Hslice : py_slice data (Z.of_nat k * chunk_size)
                     (Z.of_nat k * chunk_size + chunk_size)
                   = py_slice data (Z.of_nat k * chunk_size)
                       (Z.min ((Z.of_nat k + 1) * chunk_size) (len data) - 1 + 1)).
  { rewrite py_slice_clamp by (rewrite chunk_size_eq in *; lia).
    f_equal. lia. }
  rewrite Hslice.
  rewrite len_py_slice by (rewrite chunk_size_eq in *; lia).
  f_equal. rewrite chunk_size_eq in *. lia.
Qed.

Lemma firstn_S_nth_error {A} (l : list A) k x :
  nth_error l k = Some x -> firstn (S k) l = (firstn k l ++ [x])%list.
Proof.
  revert l. induction k as [|k IH]; intros [|y l] H; try discriminate.
  - inversion H. reflexivity.
  - simpl in H. specialize (IH _ H).
    change (y :: firstn (S k) l = y :: (firstn k l ++ [x])%list).
    rewrite IH. reflexivity.
Qed.

Lemma firstn_seq_le j : forall a n, (j <= n)%nat -> firstn j (seq a n) = seq a j.
Proof.
  induction j as [|j IH]; intros a n Hj; [reflexivity|].
  destruct n as [|n]; [lia|]. simpl. rewrite IH by lia. reflexivity.
Qed.

(** C1.  A payload of [total] bytes above the threshold and within the cap
    is split into [n = ceil(total / C)] chunks of [C = 4194304] bytes, the
    last one shorter: chunk [k] covers bytes [k * C] to
    [min((k + 1) * C, total) - 1].  Once the session is negotiated,
    [add_attachment] sends the PUT requests of these chunks in this order,
    each with the bytes of its range and the range in [Content-Range]: all
    [n] of them, returning the session, when each is answered 2xx, and
    otherwise those up to the first that fails, whose error it raises.  The
    ranges are contiguous, the first starts at byte 0, the last ends at
    byte [total - 1], and every byte lies in exactly one of them.  10485760
    bytes give the three ranges of the scenario.  The requests of the call
    are requests [httpx] sends as they are built. *)
Theorem chunk_ranges_partition_payload :
  forall m fp c fn u i ct w data name session w1 upload_url,
    payload_of w fp c fn = Some (data, name) ->
    inline_threshold < len data <= session_cap ->
    _create_upload_session m name (len data) u i w = (Return session, w1) ->
    json_field "uploadUrl" session = Some (PyStr upload_url) ->
    forallb sendable (handed_over w w1) = true ->
    url_ok upload_url = true ->
    let total := len data in
    let n := Z.to_nat (ceil_div total chunk_size) in
    let first (k : nat) := Z.of_nat k * chunk_size in
    let last (k : nat) := Z.min ((Z.of_nat k + 1) * chunk_size) total - 1 in
    let put (k : nat) :=
      chunk_request upload_url (py_slice data (first k) (last k + 1))
        (first k) (last k) total in
    (exists o w2 j,
        add_attachment m fp c fn u i ct w = (o, w2)
        /\ sent w2 = (sent w1 ++ map put (seq 0 j))%list
        /\ ((o = Return session /\ j = n
             /\ all_answered_ok w1 (sent w1) (map put (seq 0 n)))
            \/ (exists e k,
                  o = Raise e /\ j = S k /\ (k < n)%nat
                  /\ all_answered_ok w1 (sent w1) (map put (seq 0 k))
                  /\ fails_with w1 (sent w1 ++ map put (seq 0 k)) (put k) e)))
    /\ (forall k, (k < n)%nat ->
          first k <= last k < total
          /\ len (py_slice data (first k) (last k + 1)) = last k - first k + 1)
    /\ (first 0%nat = 0 /\ last (n - 1)%nat = total - 1)
    /\ (forall k, (S k < n)%nat -> first (S k) = last k + 1)
    /\ (forall b, 0 <= b < total ->
          exists k, (k < n)%nat /\ first k <= b <= last k
                    /\ forall k', (k' < n)%nat -> first k' <= b <= last k' -> k' = k)
    /\ (total = 10485760 ->
          map (fun k => (first k, last k)) (seq 0 n)
          = [(0, 4194303); (4194304, 8388607); (8388608, 10485759)]).
Proof.
  intros m fp c fn u i ct w data name session w1 upload_url
    Hpay Hsize Hsess Hurl _ _ total n first last put.
  assert (Htotal : 0 <= total) by apply len_nonneg.
  assert (Hq : 0 <= ceil_div total chunk_size)
    by (unfold ceil_div; rewrite chunk_size_eq; apply Z.div_pos; lia).
  assert (Hn : Z.of_nat n = ceil_div total chunk_size) by (subst n; lia).
  assert (Hceil : (Z.of_nat n - 1) * chunk_size < total <= Z.of_nat n * chunk_size).
  { rewrite Hn. unfold ceil_div. rewrite chunk_size_eq.
    Z.div_mod_to_equations. lia. }
  assert (Hpos : (0 < n)%nat).
  { rewrite inline_threshold_eq, chunk_size_eq in *. subst total. lia. }
  split; [|split; [|split; [|split; [|split]]]].
  - assert (Hclosed : chunk_requests upload_url data (len data) = map put (seq 0 n))
      by apply chunk_requests_closed.
    destruct (session_transfer_run m fp c fn u i ct w data name Hpay Hsize
                session w1 upload_url Hsess Hurl)
      as (o & w2 & Hrun & [(Ho & Hsent & Hall)
                          | (k & req & e & Hk & Ho & Hsent & Hall & Hfail)]);
      rewrite Hclosed in *.
    + exists o, w2, n. split; [exact Hrun|]. split; [exact Hsent|]. left. auto.
    + assert (Hkn : (k < n)%nat).
      { assert (H : (k < List.length (map put (seq 0 n)))%nat)
          by (apply nth_error_Some; rewrite Hk; discriminate).
        rewrite length_map, length_seq in H. exact H. }
      assert (Hreq : req = put k).
      { rewrite nth_error_map, nth_error_seq in Hk.
        destruct (Nat.ltb_spec k n); [|lia]. simpl in Hk. inversion Hk. reflexivity. }
      assert (Hfirst : forall j, (j <= n)%nat ->
                firstn j (map put (seq 0 n)) = map put (seq 0 j)).
      { intros j Hj. rewrite firstn_map, firstn_seq_le by exact Hj. reflexivity. }
      exists o, w2, (S k). split; [exact Hrun|].
      split; [rewrite Hsent, Hfirst by lia; reflexivity|].
      right. exists e, k. rewrite Hfirst in Hall, Hfail by lia. subst req. auto.
  - intros k Hk. subst first last. cbv beta.
    assert (Hrange : Z.of_nat k * chunk_size
                     <= Z.min ((Z.of_nat k + 1) * chunk_size) total - 1 < total)
      by (rewrite chunk_size_eq in *; lia).
    split; [exact Hrange|].
    rewrite len_py_slice by (fold total; rewrite chunk_size_eq in *; lia).
    fold total. rewrite chunk_size_eq in *. lia.
  - subst first last. cbv beta. rewrite chunk_size_eq in *. lia.
  - intros k Hk. subst first last. cbv beta. rewrite chunk_size_eq in *. lia.
  - intros b Hb. exists (Z.to_nat (b / chunk_size)).
    subst first last. cbv beta. rewrite chunk_size_eq in *.
    assert (Hdiv : 0 <= b / 4194304) by (apply Z.div_pos; lia).
    rewrite Z2Nat.id by exact Hdiv.
    split; [|split].
    + apply Nat2Z.inj_lt. rewrite Z2Nat.id by exact Hdiv.
      Z.div_mod_to_equations. lia.
    + Z.div_mod_to_equations. lia.
    + intros k' Hk' Hin. apply Nat2Z.inj. rewrite Z2Nat.id by exact Hdiv.
      Z.div_mod_to_equations. lia.
  - intros H10. subst n first last. cbv beta. rewrite H10. reflexivity.
Qed.

(** The theorem at the scenario: a payload of 10 MiB, a server that accepts
    everything.  [add_attachment] returns the session after one POST and
    three PUT requests, whose headers state the three ranges. *)
Lemma chunk_ranges_partition_payload_witness :
  let w := Sample.world Sample.app_with_token Sample.friendly in
  let data := Sample.zeros 10485760 in
  let session := PyDict [("uploadUrl", PyStr "https://upload.example/s1");
                         ("expirationDateTime", PyStr "2026-01-01T00:00:00Z")] in
  exists w2,
    add_attachment "AAMkAGI2" None (Some data) (Some "video.bin")
      (Some "ana@contoso.com") false None w = (Return session, w2)
    /\ map headers (skipn 1 (sent w2))
       = [[("Content-Length", HStr "4194304");
           ("Content-Range", HStr "bytes 0-4194303/10485760")];
          [("Content-Length", HStr "4194304");
           ("Content-Range", HStr "bytes 4194304-8388607/10485760")];
          [("Content-Length", HStr "2097152");
           ("Content-Range", HStr "bytes 8388608-10485759/10485760")]].
Proof.
  intros w data session.
  assert (Hlen : len data = 10485760) by (apply len_zeros; lia).
  assert (Hsize : inline_threshold < len data <= session_cap).
  { rewrite Hlen. unfold inline_threshold, session_cap. lia. }
  clearbody data.
  assert (Hplain : forallb sendable
                     (handed_over w
                        (with_sent w
                           (session_request Sample.app_with_token "AAMkAGI2"
                              "video.bin" (len data) (Some "ana@contoso.com") false)))
                   = true)
    by (rewrite Hlen; reflexivity).
  pose proof (chunk_ranges_partition_payload "AAMkAGI2" None (Some data)
                (Some "video.bin") (Some "ana@contoso.com") false None w data
                "video.bin" session
                (with_sent w (session_request Sample.app_with_token "AAMkAGI2"
                                "video.bin" (len data) (Some "ana@contoso.com") false))
                "https://upload.example/s1" eq_refl Hsize eq_refl eq_refl Hplain
                eq_refl) as H.
  cbv zeta in H.
  destruct H as ((o & w2 & j & Hrun & Hsent & Hcases) & Hranges & _).
  destruct Hcases as [(Ho & Hj & _) | (e & k & _ & _ & _ & _ & Hfail)].
  - subst o j. exists w2. split; [exact Hrun|].
    rewrite Hsent, Hlen.
    change (Z.to_nat (ceil_div 10485760 chunk_size)) with 3%nat.
    cbn [sent with_sent w Sample.world app skipn seq map headers chunk_request].
    rewrite <- Hlen.
    pose proof (Hranges 0%nat) as H0. pose proof (Hranges 1%nat) as H1.
    pose proof (Hranges 2%nat) as H2.
    rewrite Hlen in H0, H1, H2.
    change (Z.to_nat (ceil_div 10485760 chunk_size)) with 3%nat in H0, H1, H2.
    destruct (H0 ltac:(lia)) as [_ E0]. destruct (H1 ltac:(lia)) as [_ E1].
    destruct (H2 ltac:(lia)) as [_ E2].
    rewrite Hlen. rewrite E0, E1, E2. reflexivity.
  - exfalso. eapply answered_ok_not_fails; [|exact Hfail].
    eexists. split; reflexivity.
Defined.

(** The [Content-Range] headers of the scenario, as the source prints
    them. *)
Example content_range_10MiB :
  map (fun r : Z * Z => content_range (fst r) (snd r) 10485760)
      [(0, 4194303); (4194304, 8388607); (8388608, 10485759)]
  = ["bytes 0-4194303/10485760"; "bytes 4194304-8388607/10485760";
     "bytes 8388608-10485759/10485760"].
Proof. reflexivity. Qed.

(** C2, at a payload of 3000000 bytes: the claim promises one inline
    request for every payload up to 3 MiB, and [add_attachment] does route
    this one to the inline strategy; [_add_attachment_raw] then measures
    its base64 text, 4000000 characters, against 3 MiB and raises
    [ValueError("El adjunto excede el límite de 3MB")].  Nothing is sent.
    The client has its token and the call names the user and the message,
    so no other check interferes. *)
Theorem add_attachment_refuses_3MB_inline :
  let w := Sample.world Sample.app_with_token Sample.friendly in
  add_attachment "AAMkAGI2" None (Some (Sample.zeros 3000000)) (Some "report.bin")
    (Some "ana@contoso.com") false None w
  = (Raise (ValueError raw_limit_msg), w).
Proof.
  intros w.
  apply inline_refused with (data := Sample.zeros 3000000) (name := "report.bin").
  - reflexivity.
  - rewrite len_zeros by lia. unfold inline_threshold. lia.
  - reflexivity.
  - reflexivity.
  - discriminate.
Qed.

(** C3.  A call whose payload is larger than 150 MiB, be it the [content]
    argument or the file at [file_path], raises [ValueError] and leaves the
    world as it was: nothing is sent, so no session is negotiated and no
    chunk goes out, and no token is fetched. *)
Theorem oversize_payload_rejected :
  forall m fp c fn u i ct w,
    (exists data, c = Some data /\ session_cap < len data)
    \/ (exists path data,
          fp = Some path /\ path <> "" /\ files w path = Some data
          /\ session_cap < len data) ->
    exists msg,
      add_attachment m fp c fn u i ct w = (Raise (ValueError msg), w).
Proof.
  intros * [(data & Hc & Hbig) | (path & data & Hfp & Hpath & Hfile & Hbig)]; subst.
  - destruct fp as [p|]; [eexists; reflexivity|].
    destruct fn as [name|]; [|eexists; reflexivity].
    rewrite (add_attachment_transfer m None (Some data) (Some name) u i ct w
               data name eq_refl).
    rewrite transfer_over_cap by exact Hbig. eexists; reflexivity.
  - destruct c as [c|]; [eexists; reflexivity|].
    destruct fn as [name|]; [eexists; reflexivity|].
    assert (Hp : payload_of w (Some path) None None = Some (data, basename path)).
    { unfold payload_of. apply String.eqb_neq in Hpath.
      unfold truthy. rewrite Hpath. simpl. rewrite Hfile. reflexivity. }
    rewrite (add_attachment_transfer _ _ _ _ _ _ _ _ _ _ Hp).
    rewrite transfer_over_cap by exact Hbig. eexists; reflexivity.
Qed.

(** The theorem at a payload of 150 MiB and one byte, on a client that has
    no token yet. *)
Lemma oversize_payload_rejected_witness :
  let w := Sample.world Sample.app Sample.friendly in
  exists msg,
    add_attachment "AAMkAGI2" None (Some (Sample.zeros 157286401)) (Some "backup.bin")
      (Some "ana@contoso.com") false None w
    = (Raise (ValueError msg), w).
Proof.
  intros w. apply oversize_payload_rejected. left.
  exists (Sample.zeros 157286401). split; [reflexivity|].
  rewrite len_zeros by lia. unfold session_cap. lia.
Defined.




(* ---------------------------------------------------------------------- *)
(** ** [_process_recipients] *)

Lemma process_recipient_supported r :
  supported_recipient r = true -> process_recipient r = Return (normalized r).
Proof.
  destruct r as [| | | | | items | |]; try discriminate; try reflexivity.
  - destruct items as [|a [|b [|c rest]]]; try discriminate; reflexivity.
  - intros _. simpl. destruct (is_some (dict_get "emailAddress" entries)); reflexivity.
Qed.

Lemma process_recipient_other r :
  other_type r = true ->
  process_recipient r
  = Raise (ValueErrorFmt "Formato de destinatario no soportado: " r
             ". Use string, tuple o dict").
Proof. destruct r; try discriminate; reflexivity. Qed.

Lemma process_loop_supported recipients :
  forallb supported_recipient recipients = true ->
  forall processed,
    process_loop recipients processed
    = Return (processed ++ map normalized recipients)%list.
Proof.
  induction recipients as [|r rest IH]; intros Hall processed; simpl.
  - rewrite app_nil_r. reflexivity.
  - simpl in Hall. apply andb_true_iff in Hall. destruct Hall as [Hr Hrest].
    rewrite (process_recipient_supported r Hr), (IH Hrest).
    rewrite <- app_assoc. reflexivity.
Qed.

Lemma process_loop_raises before r after e :
  forallb supported_recipient before = true ->
  process_recipient r = Raise e ->
  forall processed,
    process_loop (before ++ r :: after) processed = Raise e.
Proof.
  induction before as [|b rest IH]; intros Hall Hr processed; simpl.
  - rewrite Hr. reflexivity.
  - simpl in Hall. apply andb_true_iff in Hall. destruct Hall as [Hb Hrest].
    rewrite (process_recipient_supported b Hb). apply IH; assumption.
Qed.

Lemma normalized_has_email_address r :
  supported_recipient r = true ->
  is_some (json_field "emailAddress" (normalized r)) = true.
Proof.
  destruct r as [| | | | | items | |]; try discriminate; try reflexivity.
  - destruct items as [|a [|b [|c rest]]]; try discriminate; reflexivity.
  - intros _. simpl.
    destruct (is_some (dict_get "emailAddress" entries)) eqn:H; [exact H|reflexivity].
Qed.

Lemma normalized_graph_recipient r :
  supported_recipient r = true ->
  json_field "emailAddress" r = None ->
  graph_recipient (normalized r) = true.
Proof.
  destruct r as [| | | | | items | |]; try discriminate; try reflexivity.
  - destruct items as [|a [|b [|c rest]]]; try discriminate; reflexivity.
  - intros _ H. simpl in *. rewrite H. reflexivity.
Qed.

(** As stated, C10 fails twice.  A tuple of three items is a tuple that is
    not empty, and it raises [ValueError] where a list is promised.  A
    dictionary that has ["emailAddress"] is passed through as it is, so the
    result need not map that key to a dictionary with ["address"] and
    ["name"]. *)
Lemma process_recipients_counterexample :
  let three := PyTuple [PyStr "ana@contoso.com"; PyStr "Ana"; PyStr "Ms"] in
  let passed := PyDict [("emailAddress", PyStr "ana@contoso.com")] in
  (str_tuple_or_dict three = true
   /\ _process_recipients [three]
      = Raise (ValueError "too many values to unpack (expected 2)"))
  /\ (str_tuple_or_dict passed = true
      /\ _process_recipients [passed] = Return [passed]
      /\ graph_recipient passed = false).
Proof. repeat split. Qed.

(** C10, amended.  On a list whose elements are each a string, a tuple of
    one or two items, or a dictionary, [_process_recipients] returns a list
    of the same length, element by element: every result is a dictionary
    with the key ["emailAddress"]; for a string, a tuple and a dictionary
    without that key it maps to a dictionary with ["address"] and ["name"]
    (name [""] for a string and for a tuple of one item); a dictionary that
    has the key is returned unchanged.  The first element that is neither a
    string nor a tuple nor a dictionary raises [ValueError]. *)
Theorem process_recipients_normalizes :
  (forall recipients,
      forallb supported_recipient recipients = true ->
      _process_recipients recipients = Return (map normalized recipients)
      /\ List.length (map normalized recipients) = List.length recipients
      /\ (forall r, In r recipients ->
            is_some (json_field "emailAddress" (normalized r)) = true
            /\ (json_field "emailAddress" r = None ->
                graph_recipient (normalized r) = true)
            /\ (json_field "emailAddress" r <> None -> normalized r = r)))
  /\ (forall s, normalized (PyStr s) = email_address (PyStr s) (PyStr ""))
  /\ (forall before r after,
        forallb supported_recipient before = true ->
        other_type r = true ->
        exists e,
          _process_recipients (before ++ r :: after) = Raise e
          /\ is_ValueError e = true).
Proof.
  split; [|split].
  - intros recipients Hall. split; [|split].
    + unfold _process_recipients. rewrite (process_loop_supported _ Hall). reflexivity.
    + apply length_map.
    + intros r Hin.
      assert (Hr : supported_recipient r = true).
      { rewrite forallb_forall in Hall. apply Hall. exact Hin. }
      split; [apply normalized_has_email_address; exact Hr|].
      split; [apply normalized_graph_recipient; exact Hr|].
      intros Hne. destruct r; simpl in *; try congruence.
      destruct (dict_get "emailAddress" entries); [reflexivity|congruence].
  - reflexivity.
  - intros before r after Hall Hother. eexists. split.
    + unfold _process_recipients.
      apply process_loop_raises; [exact Hall|apply process_recipient_other; exact Hother].
    + reflexivity.
Qed.

(** The theorem at a string, a pair and a dictionary. *)
Lemma process_recipients_normalizes_witness :
  _process_recipients
    [PyStr "ana@contoso.com"; PyTuple [PyStr "bo@contoso.com"; PyStr "Bo"];
     PyDict [("address", PyStr "cy@contoso.com")]]
  = Return
      [email_address (PyStr "ana@contoso.com") (PyStr "");
       email_address (PyStr "bo@contoso.com") (PyStr "Bo");
       email_address (PyStr "cy@contoso.com") (PyStr "")].
Proof.
  exact (proj1 (proj1 process_recipients_normalizes
                  [PyStr "ana@contoso.com";
                   PyTuple [PyStr "bo@contoso.com"; PyStr "Bo"];
                   PyDict [("address", PyStr "cy@contoso.com")]]
                  eq_refl)).
Defined.

(* ====================================================================== *)
(** * Properties of the rest of the code *)
(* ====================================================================== *)

Import Users Messages.

(* ---------------------------------------------------------------------- *)
(** ** Running a sequence of steps *)

Lemma run_bind {A B} (m : M A) (k : A -> M B) w a w1 :
  m w = (Return a, w1) -> bind m k w = k a w1.
Proof. intros H. unfold bind. rewrite H. reflexivity. Qed.

Lemma run_bind_raise {A B} (m : M A) (k : A -> M B) w e w1 :
  m w = (Raise e, w1) -> bind m k w = (Raise e, w1).
Proof. intros H. unfold bind. rewrite H. reflexivity. Qed.

Lemma run_check {B} (c : bool) e (k : unit -> M B) w :
  c = false -> bind (raise_if c e) k w = k tt w.
Proof. intros ->. reflexivity. Qed.

Lemma run_check_raise {B} (c : bool) e (k : unit -> M B) w :
  c = true -> bind (raise_if c e) k w = (Raise e, w).
Proof. intros ->. reflexivity. Qed.

Lemma run_get_client {B} (k : Client -> M B) w :
  bind get_client k w = k (client w) w.
Proof. reflexivity. Qed.

Lemma run_ensure_token {B} (k : unit -> M B) w :
  py_truthy (token (client w)) = true -> bind ensure_token k w = k tt w.
Proof. intros H. apply run_bind, ensure_token_cached, H. Qed.

(** A request followed by [raise_for_status] and [json()] leaves the world
    with one more request, whatever the answer. *)
Lemma send_checked_json req w :
  exists o,
    (response <- send req ;; checked_json response) w = (o, with_sent w req).
Proof.
  unfold bind, send, checked_json, bind, raise_for_status, response_json.
  destruct (server w (sent w) req) as [r|]; [|eexists; reflexivity].
  destruct (is_success r); [|eexists; reflexivity].
  unfold ret at 1. destruct (json r); eexists; reflexivity.
Qed.

Lemma run_send {B} req (k : Response -> M B) w r :
  server w (sent w) req = Reply r ->
  bind (send req) k w = k r (with_sent w req).
Proof. intros H. unfold bind, send. rewrite H. reflexivity. Qed.

Lemma run_status {B} r (k : unit -> M B) w :
  is_success r = true -> bind (raise_for_status r) k w = k tt w.
Proof. intros H. unfold bind, raise_for_status. rewrite H. reflexivity. Qed.

Lemma run_status_raise {B} r (k : unit -> M B) w :
  is_success r = false ->
  bind (raise_for_status r) k w = (Raise (HTTPStatusError r), w).
Proof. intros H. unfold bind, raise_for_status. rewrite H. reflexivity. Qed.

Lemma run_json {B} r v (k : pyval -> M B) w :
  json r = Some v -> bind (response_json r) k w = k v w.
Proof. intros H. unfold bind, response_json. rewrite H. reflexivity. Qed.

(** No status is at once 2xx and one of those the handlers single out. *)
Lemma not_success r :
  status_code r < 200 \/ 300 <= status_code r -> is_success r = false.
Proof. unfold is_success. lia. Qed.

(* ---------------------------------------------------------------------- *)
(** ** More on the token *)

(** [get_token] touches nothing but the token and the list of requests. *)
Lemma get_token_frame w o w1 :
  get_token w = (o, w1) ->
  server w1 = server w /\ files w1 = files w /\ mime w1 = mime w
  /\ client_id (client w1) = client_id (client w)
  /\ client_secret (client w1) = client_secret (client w)
  /\ tenant_id (client w1) = tenant_id (client w)
  /\ base_url (client w1) = base_url (client w)
  /\ token_url (client w1) = token_url (client w)
  /\ is_delegated (client w1) = is_delegated (client w).
Proof.
  unfold get_token, bind, get_client, send, raise_for_status, response_json.
  destruct (server w (sent w) (token_request (client w))) as [r|]; simpl.
  2:{ intros H; inversion H; repeat split. }
  destruct (is_success r); simpl.
  2:{ intros H; inversion H; repeat split. }
  destruct (json r) as [v|]; simpl.
  2:{ intros H; inversion H; repeat split. }
  destruct v; simpl; try solve [intros H; inversion H; repeat split].
  - destruct (str_contains _ _); simpl; intros H; inversion H; repeat split.
  - destruct (existsb _ _); simpl; intros H; inversion H; repeat split.
  - destruct (existsb _ _); simpl; intros H; inversion H; repeat split.
  - destruct (is_some _); simpl; intros H; inversion H; repeat split.
Qed.

(** What a successful exchange does. *)
Lemma get_token_run_ok w r d t :
  server w (sent w) (token_request (client w)) = Reply r ->
  is_success r = true ->
  json r = Some (PyDict d) ->
  dict_get "access_token" d = Some t ->
  exists w1,
    get_token w = (Return t, w1)
    /\ token (client w1) = t
    /\ sent w1 = (sent w ++ [token_request (client w)])%list.
Proof.
  intros Hsrv Hok Hjson Hfield.
  unfold get_token, bind, get_client, send, raise_for_status, response_json.
  rewrite Hsrv. simpl. rewrite Hok. simpl. rewrite Hjson. simpl.
  rewrite Hfield. simpl. eexists. repeat split.
Qed.

(** X1.  A token exchange that is answered 2xx with a JSON object holding
    [access_token]: [get_token] returns that value, stores it on the client
    and has sent exactly one request, the token request, whether or not a
    token was cached before (the method itself never looks at the cache).
    If the value is true in Python's sense, the next method call finds
    the token and sends no token request; if it is not (an empty string,
    [None]), it is stored all the same, and the next call asks for a token
    again. *)
Theorem get_token_caches_access_token :
  forall w r d t,
    server w (sent w) (token_request (client w)) = Reply r ->
    is_success r = true ->
    json r = Some (PyDict d) ->
    dict_get "access_token" d = Some t ->
    exists w1,
      get_token w = (Return t, w1)
      /\ token (client w1) = t
      /\ sent w1 = (sent w ++ [token_request (client w)])%list
      /\ (py_truthy t = true -> ensure_token w1 = (Return tt, w1))
      /\ (py_truthy t = false ->
          forall o w2, ensure_token w1 = (o, w2) ->
            sent w2 = (sent w1 ++ [token_request (client w1)])%list).
Proof.
  intros w r d t Hsrv Hok Hjson Hfield.
  destruct (get_token_run_ok w r d t Hsrv Hok Hjson Hfield) as (w1 & Hrun & Htok & Hsent).
  exists w1. repeat split; try assumption.
  - intros Ht. apply ensure_token_cached. rewrite Htok. exact Ht.
  - intros Ht o w2. rewrite ensure_token_fetch by (rewrite Htok; exact Ht).
    destruct (get_token w1) as [[v|e] w'] eqn:Hget; intros H; inversion H; subst;
      eapply get_token_sent; eassumption.
Qed.

Lemma get_token_caches_access_token_witness :
  let w := Sample.world Sample.app Sample.friendly in
  exists w1,
    get_token w = (Return (PyStr "eyJ0"), w1)
    /\ ensure_token w1 = (Return tt, w1).
Proof.
  intros w.
  destruct (get_token_caches_access_token w
              (mkResponse 200 "" (Some (PyDict [("token_type", PyStr "Bearer");
                                                ("access_token", PyStr "eyJ0")])) [])
              _ (PyStr "eyJ0") eq_refl eq_refl eq_refl eq_refl)
    as (w1 & Hrun & _ & _ & Hnext & _).
  exists w1. split; [exact Hrun | apply Hnext; reflexivity].
Defined.

(** X2.  A call of [get_token] that raises, for whatever reason (no
    reply, a status outside 2xx, a body that is not JSON, a document
    without [access_token]), has sent the token request once and changed
    nothing else: the client keeps the token it had, so a token cached
    before survives a failed renewal. *)
Theorem get_token_failure_keeps_client :
  forall w e w1,
    get_token w = (Raise e, w1) ->
    w1 = with_sent w (token_request (client w)).
Proof.
  intros w e w1.
  unfold get_token, bind, get_client, send, raise_for_status, response_json.
  destruct (server w (sent w) (token_request (client w))) as [r|]; simpl.
  2:{ intros H; inversion H; reflexivity. }
  destruct (is_success r); simpl.
  2:{ intros H; inversion H; reflexivity. }
  destruct (json r) as [v|]; simpl.
  2:{ intros H; inversion H; reflexivity. }
  destruct v; simpl; try (intros H; inversion H; reflexivity).
  - destruct (str_contains _ _); simpl; intros H; inversion H; reflexivity.
  - destruct (existsb _ _); simpl; intros H; inversion H; reflexivity.
  - destruct (existsb _ _); simpl; intros H; inversion H; reflexivity.
  - destruct (is_some _); simpl; intros H; inversion H; reflexivity.
Qed.

Lemma get_token_failure_keeps_client_witness :
  let w := Sample.world Sample.app_with_token (Sample.always 503) in
  token (client (snd (get_token w))) = PyStr "eyJ0".
Proof.
  intros w.
  rewrite (get_token_failure_keeps_client w
             (HTTPStatusError (mkResponse 503 "" (Some (PyDict [])) []))
             (snd (get_token w)) eq_refl).
  reflexivity.
Defined.

(* ---------------------------------------------------------------------- *)
(** ** Users *)

(** X3.  [get_user] with an empty [user_id] raises
    [ValueError("user_id es requerido")] and does nothing else: unlike the
    drive methods it checks its argument before it looks at the token, so
    not even the token request is sent on a client without a token. *)
Theorem get_user_empty_id :
  forall select w,
    get_user "" select w = (Raise (ValueError "user_id es requerido"), w).
Proof. intros select w. reflexivity. Qed.

(** X4.  On a client without a token whose token endpoint answers 2xx with
    an [access_token], [get_user] sends exactly two requests: the token
    request, then a GET of [{base_url}/users/{user_id}] that carries the
    token just obtained in its [Authorization] header; the token stays
    cached on the client whatever the answer to the GET is.  Both requests
    are requests [httpx] sends as they are built: a [user_id] with a line
    break in it, say, makes no request. *)
Theorem get_user_uses_fetched_token :
  forall w user_id select r d t,
    user_id <> "" ->
    py_truthy (token (client w)) = false ->
    server w (sent w) (token_request (client w)) = Reply r ->
    is_success r = true ->
    json r = Some (PyDict d) ->
    dict_get "access_token" d = Some t ->
    let get := mkRequest GET (base_url (client w) ++ "/users/" ++ user_id)
                 (add_if select "$select" []) [("Authorization", HBearer t)]
                 NoBody false in
    sendable (token_request (client w)) = true ->
    sendable get = true ->
    exists o w2,
      get_user user_id select w = (o, w2)
      /\ sent w2 = (sent w ++ [token_request (client w); get])%list
      /\ token (client w2) = t.
Proof.
  intros w user_id select r d t Hid Htok Hsrv Hok Hjson Hfield get _ _. subst get.
  destruct (get_token_run_ok w r d t Hsrv Hok Hjson Hfield) as (w1 & Hrun & Ht & Hsent).
  destruct (get_token_frame _ _ _ Hrun) as (_ & _ & _ & _ & _ & _ & Hbase & _).
  unfold get_user. apply String.eqb_neq in Hid.
  rewrite run_check by (unfold str_truthy; rewrite Hid; reflexivity).
  assert (Hens : ensure_token w = (Return tt, w1))
    by (rewrite (ensure_token_fetch _ Htok), Hrun; reflexivity).
  rewrite (run_bind _ _ _ _ _ Hens), run_get_client.
  destruct (send_checked_json
              (mkRequest GET (base_url (client w1) ++ "/users/" ++ user_id)
                 (add_if select "$select" []) (auth (client w1)) NoBody false) w1)
    as [o Ho].
  rewrite Ho. exists o. eexists. split; [reflexivity|].
  unfold with_sent. simpl. rewrite Hsent, <- app_assoc. unfold auth.
  rewrite Hbase, Ht. split; reflexivity.
Qed.

Lemma get_user_uses_fetched_token_witness :
  exists o w2,
    get_user "ana@contoso.com" None (Sample.world Sample.app Sample.friendly)
    = (o, w2)
    /\ map url (sent w2)
       = [token_url Sample.app;
          "https://graph.microsoft.com/v1.0/users/ana@contoso.com"].
Proof.
  destruct (get_user_uses_fetched_token (Sample.world Sample.app Sample.friendly)
              "ana@contoso.com" None
              (mkResponse 200 "" (Some (PyDict [("token_type", PyStr "Bearer");
                                                ("access_token", PyStr "eyJ0")])) [])
              [("token_type", PyStr "Bearer"); ("access_token", PyStr "eyJ0")]
              (PyStr "eyJ0"))
    as (o & w2 & Hrun & Hsent & _);
    [discriminate | reflexivity | reflexivity | reflexivity | reflexivity | reflexivity
     | reflexivity | reflexivity |].
  exists o, w2. split; [exact Hrun|]. rewrite Hsent. reflexivity.
Defined.

(** Where an entry of the query parameters comes from. *)
Lemma in_add_if k v value key ps :
  In (k, v) (add_if value key ps) ->
  In (k, v) ps \/ (k = key /\ v = fstr value /\ truthy value = true).
Proof.
  unfold add_if. destruct (truthy value); [|now left].
  intros H. apply in_app_or in H. destruct H as [H|[H|[]]]; [now left|].
  inversion H. now right.
Qed.

Lemma in_add_top k v top ps :
  In (k, v) (add_top top ps) ->
  In (k, v) ps \/ (k = "$top" /\ exists n, top = Some n /\ n <> 0 /\ v = py_str_int n).
Proof.
  unfold add_top. destruct top as [n|]; [|now left].
  destruct (Z.eqb_spec n 0); simpl; [now left|].
  intros H. apply in_app_or in H. destruct H as [H|[H|[]]]; [now left|].
  inversion H. right. split; [reflexivity|]. exists n. auto.
Qed.

Lemma add_if_keeps (x : string * string) value key ps :
  In x ps -> In x (add_if value key ps).
Proof.
  unfold add_if. destruct (truthy value); [|trivial].
  intros H. apply in_or_app. now left.
Qed.

Lemma add_top_keeps (x : string * string) top ps :
  In x ps -> In x (add_top top ps).
Proof.
  unfold add_top. destruct top as [n|]; [|trivial].
  destruct (negb (n =? 0)); [|trivial].
  intros H. apply in_or_app. now left.
Qed.

(** X5.  With a cached token [list_users] sends exactly one GET of
    [{base_url}/users].  The header [ConsistencyLevel: eventual] and the
    parameter [$search] go together: with a non-empty search term both are
    sent, the term between double quotes; with [None] or an empty term the
    only header is [Authorization] and no [$search] is sent.  A [$top]
    parameter is sent only for a [top] other than 0. *)
Theorem list_users_search_consistency :
  forall select filter search orderby top w,
    py_truthy (token (client w)) = true ->
    let req := list_users_request (client w) select filter search orderby top in
    (exists o, list_users select filter search orderby top w = (o, with_sent w req))
    /\ meth req = GET /\ url req = base_url (client w) ++ "/users"
    /\ (truthy search = true ->
        headers req = [("Authorization", HBearer (token (client w)));
                       ("ConsistencyLevel", HStr "eventual")]
        /\ In ("$search", dquote ++ fstr search ++ dquote) (params req))
    /\ (truthy search = false ->
        headers req = [("Authorization", HBearer (token (client w)))]
        /\ forall v, ~ In ("$search", v) (params req))
    /\ (forall v, In ("$top", v) (params req) ->
        exists n, top = Some n /\ n <> 0 /\ v = py_str_int n).
Proof.
  intros select filter search orderby top w Htok req.
  split; [|split; [reflexivity|split; [reflexivity|]]].
  - unfold list_users. rewrite (run_ensure_token _ _ Htok), run_get_client.
    apply send_checked_json.
  - subst req. unfold list_users_request. simpl.
    split; [|split].
    + intros Hs. rewrite Hs. split; [reflexivity|].
      apply add_top_keeps, add_if_keeps, in_or_app. right. now left.
    + intros Hs. rewrite Hs. split; [reflexivity|].
      intros v Hin.
      apply in_add_top in Hin. destruct Hin as [Hin|[Hk _]]; [|discriminate].
      apply in_add_if in Hin. destruct Hin as [Hin|[Hk _]]; [|discriminate].
      apply in_add_if in Hin. destruct Hin as [Hin|[Hk _]]; [|discriminate].
      apply in_add_if in Hin. destruct Hin as [[]|[Hk _]]. discriminate.
    + intros v Hin.
      apply in_add_top in Hin. destruct Hin as [Hin|[_ Hn]]; [|exact Hn].
      exfalso.
      apply in_add_if in Hin. destruct Hin as [Hin|[Hk _]]; [|discriminate].
      destruct (truthy search).
      * apply in_app_or in Hin. destruct Hin as [Hin|[Hin|[]]]; [|discriminate].
        apply in_add_if in Hin. destruct Hin as [Hin|[Hk _]]; [|discriminate].
        apply in_add_if in Hin. destruct Hin as [[]|[Hk _]]. discriminate.
      * apply in_add_if in Hin. destruct Hin as [Hin|[Hk _]]; [|discriminate].
        apply in_add_if in Hin. destruct Hin as [[]|[Hk _]]. discriminate.
Qed.

Lemma list_users_search_consistency_witness :
  In ("$search", dquote ++ "ana" ++ dquote)
     (params (list_users_request Sample.app_with_token None None (Some "ana")
                None (Some 0)))
  /\ headers (list_users_request Sample.app_with_token (Some "mail") None
                (Some "") None (Some 5))
     = [("Authorization", HBearer (PyStr "eyJ0"))].
Proof.
  split.
  - apply (list_users_search_consistency None None (Some "ana") None (Some 0)
             (Sample.world Sample.app_with_token Sample.friendly));
      reflexivity.
  - apply (list_users_search_consistency (Some "mail") None (Some "") None (Some 5)
             (Sample.world Sample.app_with_token Sample.friendly));
      reflexivity.
Defined.

(* ---------------------------------------------------------------------- *)
(** ** [list_messages] *)

(** Past its three checks, [list_messages] sends its GET. *)
Lemma list_messages_try_run u f s fl ob top bt w :
  py_truthy (token (client w)) = true ->
  list_call_ok (client w) u top bt = true ->
  list_messages_try u f s fl ob top bt w
  = (response <- send (list_messages_request (client w) u f s fl ob top bt) ;;
     raise_for_status response ;;
     logged <- response_json response ;;
     value <- py_getitem logged "value" ;;
     py_len value ;;
     response_json response) w.
Proof.
  intros Htok Hok. unfold list_call_ok in Hok.
  apply andb_prop in Hok. destruct Hok as [Hok Hbt].
  apply andb_prop in Hok. destruct Hok as [Hu Htop].
  unfold list_messages_try.
  rewrite (run_ensure_token _ _ Htok), run_get_client.
  rewrite run_check
    by (destruct (truthy u), (is_delegated (client w)); simpl in *; congruence).
  rewrite run_check by (destruct top; [rewrite Htop|]; reflexivity).
  rewrite run_check
    by (destruct (truthy bt); simpl in *; [rewrite Hbt|]; reflexivity).
  reflexivity.
Qed.

(** X6.  [list_messages] refuses a [top] outside 1..1000 with
    [ValueError("top debe estar entre 1 y 1000")] and sends nothing; this
    includes [top = 0], which the test [if top:] of the parameters would
    have treated as absent. *)
Theorem list_messages_rejects_top :
  forall u f s fl ob n bt w,
    py_truthy (token (client w)) = true ->
    (truthy u || is_delegated (client w)) = true ->
    n < 1 \/ 1000 < n ->
    list_messages u f s fl ob (Some n) bt w
    = (inr (Exn (ValueError top_range_msg)), w).
Proof.
  intros u f s fl ob n bt w Htok Hu Hn.
  unfold list_messages, list_messages_try.
  rewrite (run_ensure_token _ _ Htok), run_get_client.
  rewrite run_check
    by (destruct (truthy u), (is_delegated (client w)); simpl in *; congruence).
  rewrite run_check_raise; [reflexivity|].
  apply negb_true_iff, andb_false_iff. lia.
Qed.

Lemma list_messages_rejects_top_witness :
  list_messages (Some "ana@contoso.com") None None None None (Some 0) None
    (Sample.world Sample.app_with_token Sample.friendly)
  = (inr (Exn (ValueError top_range_msg)),
     Sample.world Sample.app_with_token Sample.friendly).
Proof.
  apply list_messages_rejects_top; [reflexivity | reflexivity | lia].
Defined.

(** X7.  A call of [list_messages] that passes the checks sends exactly
    one GET.  When it is answered 2xx with a JSON object, the result depends
    on the field ["value"], which the method reads for its log line: with a
    list under ["value"] the whole document is returned; without the field
    the method raises [KeyError('value')] although the request succeeded. *)
Theorem list_messages_needs_value :
  forall u f s fl ob top bt w r d,
    py_truthy (token (client w)) = true ->
    list_call_ok (client w) u top bt = true ->
    let req := list_messages_request (client w) u f s fl ob top bt in
    server w (sent w) req = Reply r ->
    is_success r = true ->
    json r = Some (PyDict d) ->
    (forall items, dict_get "value" d = Some (PyList items) ->
       list_messages u f s fl ob top bt w = (inl (PyDict d), with_sent w req))
    /\ (dict_get "value" d = None ->
        list_messages u f s fl ob top bt w
        = (inr (Exn (KeyError "value")), with_sent w req)).
Proof.
  intros u f s fl ob top bt w r d Htok Hok req Hsrv Hs Hj.
  unfold list_messages. rewrite (list_messages_try_run _ _ _ _ _ _ _ _ Htok Hok).
  fold req. rewrite (run_send _ _ _ _ Hsrv), (run_status _ _ _ Hs), (run_json _ _ _ _ Hj).
  split.
  - intros items Hv. unfold bind, py_getitem. rewrite Hv. simpl.
    unfold response_json. rewrite Hj. reflexivity.
  - intros Hv. unfold bind, py_getitem. rewrite Hv. reflexivity.
Qed.

Lemma list_messages_needs_value_witness :
  list_messages (Some "ana@contoso.com") (Some "inbox") None None None (Some 10)
    (Some "text") (Sample.world Sample.app_with_token Sample.friendly)
  = (inr (Exn (KeyError "value")),
     with_sent (Sample.world Sample.app_with_token Sample.friendly)
       (list_messages_request Sample.app_with_token (Some "ana@contoso.com")
          (Some "inbox") None None None (Some 10) (Some "text"))).
Proof.
  apply (list_messages_needs_value (Some "ana@contoso.com") (Some "inbox") None
           None None (Some 10) (Some "text")
           (Sample.world Sample.app_with_token Sample.friendly)
           (mkResponse 200 "" (Some (PyDict [("id", PyStr "01ABC")])) [])
           [("id", PyStr "01ABC")]);
    reflexivity.
Defined.

(** X8.  How [list_messages] translates the status of the answer to its
    GET: 504 becomes [TimeoutError], 401 and 403 become [PermissionError],
    a 400 whose text contains [InefficientFilter] becomes [ValueError], and
    every other status outside 2xx and outside 400, 401, 403 and 504 leaves
    as the [HTTPStatusError] that carries the response. *)
Theorem list_messages_status :
  forall u f s fl ob top bt w r,
    py_truthy (token (client w)) = true ->
    list_call_ok (client w) u top bt = true ->
    let req := list_messages_request (client w) u f s fl ob top bt in
    server w (sent w) req = Reply r ->
    is_success r = false ->
    exists e,
      list_messages u f s fl ob top bt w = (inr e, with_sent w req)
      /\ (status_code r = 504 -> e = TimeoutError list_timeout_msg)
      /\ (status_code r = 401 \/ status_code r = 403 ->
          exists msg, e = Exn (PermissionError msg))
      /\ (status_code r = 400 -> str_contains "InefficientFilter" (text r) = true ->
          e = Exn (ValueError inefficient_filter_msg))
      /\ (status_code r <> 400 -> status_code r <> 401 -> status_code r <> 403 ->
          status_code r <> 504 -> e = Exn (HTTPStatusError r)).
Proof.
  intros u f s fl ob top bt w r Htok Hok req Hsrv Hs.
  unfold list_messages. rewrite (list_messages_try_run _ _ _ _ _ _ _ _ Htok Hok).
  fold req. rewrite (run_send _ _ _ _ Hsrv), (run_status_raise _ _ _ Hs).
  eexists. split; [reflexivity|]. unfold list_messages_errors.
  repeat split.
  - intros H. rewrite H. reflexivity.
  - intros [H|H]; rewrite H; simpl; eexists; reflexivity.
  - intros H Hc. rewrite H, Hc. reflexivity.
  - intros H0 H1 H3 H4.
    apply Z.eqb_neq in H0, H1, H3, H4. rewrite H0, H1, H3, H4. reflexivity.
Qed.

Lemma list_messages_status_witness :
  list_messages (Some "ana@contoso.com") None None None None None None
    (Sample.world Sample.app_with_token (Sample.always 504))
  = (inr (TimeoutError list_timeout_msg),
     with_sent (Sample.world Sample.app_with_token (Sample.always 504))
       (list_messages_request Sample.app_with_token (Some "ana@contoso.com")
          None None None None None None)).
Proof.
  destruct (list_messages_status (Some "ana@contoso.com") None None None None None
              None (Sample.world Sample.app_with_token (Sample.always 504))
              (mkResponse 504 "" (Some (PyDict [])) []))
    as (e & Hrun & H504 & _);
    [reflexivity | reflexivity | reflexivity | reflexivity |].
  rewrite Hrun, (H504 eq_refl). reflexivity.
Defined.

(* ---------------------------------------------------------------------- *)
(** ** [send_message] *)

(** X9.  A call of [send_message] with a message id sends exactly one POST
    to [.../messages/{message_id}/send], with no body and the header
    [Content-Length: 0].  Every 2xx answer, 202 or not, makes the method
    return [None]; 404 becomes [ValueError]; a status outside 2xx other
    than 400, 401, 403 and 404 leaves as the [HTTPStatusError] itself. *)
Theorem send_message_outcomes :
  forall message_id u w r,
    py_truthy (token (client w)) = true ->
    (truthy u || is_delegated (client w)) = true ->
    message_id <> "" ->
    let req :=
      mkRequest POST
        (mailbox_url (client w) u ++ "/messages/" ++ message_id ++ "/send") []
        [("Authorization", HBearer (token (client w))); ("Content-Length", HStr "0")]
        NoBody false in
    server w (sent w) req = Reply r ->
    (is_success r = true -> send_message message_id u w = (Return PyNone, with_sent w req))
    /\ (status_code r = 404 ->
        send_message message_id u w
        = (Raise (ValueError "El mensaje especificado no existe o no es un borrador"),
           with_sent w req))
    /\ (is_success r = false -> status_code r <> 400 -> status_code r <> 401 ->
        status_code r <> 403 -> status_code r <> 404 ->
        send_message message_id u w = (Raise (HTTPStatusError r), with_sent w req)).
Proof.
  intros message_id u w r Htok Hu Hid req Hsrv.
  assert (Hrun : send_message message_id u w
                 = catch (response <- send req ;;
                          if status_code response =? 202 then ret PyNone
                          else raise_for_status response ;; ret PyNone)
                     send_message_errors w).
  { unfold send_message, catch.
    rewrite (run_ensure_token _ _ Htok), run_get_client.
    rewrite run_check
      by (destruct (truthy u), (is_delegated (client w)); simpl in *; congruence).
    apply String.eqb_neq in Hid.
    rewrite run_check by (unfold str_truthy; rewrite Hid; reflexivity).
    reflexivity. }
  rewrite Hrun. unfold catch. rewrite (run_send _ _ _ _ Hsrv).
  repeat split.
  - intros Hs. destruct (status_code r =? 202); [reflexivity|].
    rewrite (run_status _ _ _ Hs). reflexivity.
  - intros H. rewrite H. simpl.
    rewrite run_status_raise by (apply not_success; lia).
    unfold send_message_errors. rewrite H. reflexivity.
  - intros Hs H0 H1 H3 H4.
    destruct (Z.eqb_spec (status_code r) 202) as [E|_].
    { unfold is_success in Hs. lia. }
    rewrite (run_status_raise _ _ _ Hs). unfold send_message_errors.
    apply Z.eqb_neq in H0, H1, H3, H4. rewrite H0, H1, H3, H4. reflexivity.
Qed.

Lemma send_message_outcomes_witness :
  send_message "AAMkAGI2" (Some "ana@contoso.com")
    (Sample.world Sample.app_with_token (Sample.always 404))
  = (Raise (ValueError "El mensaje especificado no existe o no es un borrador"),
     with_sent (Sample.world Sample.app_with_token (Sample.always 404))
       (send_message_request Sample.app_with_token "AAMkAGI2" (Some "ana@contoso.com"))).
Proof.
  apply (send_message_outcomes "AAMkAGI2" (Some "ana@contoso.com")
           (Sample.world Sample.app_with_token (Sample.always 404))
           (mkResponse 404 "" (Some (PyDict [])) []));
    [reflexivity | reflexivity | discriminate | reflexivity | reflexivity].
Defined.

(* ---------------------------------------------------------------------- *)
(** ** [create_message] *)

Lemma user_check_passes (u : option string) (c : Client) :
  (truthy u || is_delegated c) = true ->
  (negb (truthy u) && negb (is_delegated c)) = false.
Proof. destruct (truthy u), (is_delegated c); simpl; congruence. Qed.

(** With MIME content, past the checks, the method goes straight to its
    POST: the other parameters of the message are not looked at. *)
Lemma create_message_mime_run u f bt imp cc bcc rt m w :
  py_truthy (token (client w)) = true ->
  (truthy u || is_delegated (client w)) = true ->
  truthy m = true ->
  create_message "" "" [] u f bt imp cc bcc rt None m w
  = catch
      (response <- send (create_message_request (client w) u f m (inl (fstr m))) ;;
       raise_for_status response ;;
       response_json response)
      create_message_errors w.
Proof.
  intros Htok Hu Hm. unfold create_message, catch.
  rewrite (run_ensure_token _ _ Htok), run_get_client.
  rewrite (run_check _ _ _ _ (user_check_passes _ _ Hu)).
  unfold check_message, message_data, add_message_headers. rewrite Hm. simpl.
  reflexivity.
Qed.

(** X10.  [create_message] with MIME content.  Any other content of the
    message (subject, body, recipients or headers) makes the method raise
    [ValueError] with nothing sent.  Without them exactly one POST is sent,
    with the MIME text as its body and [Content-Type: text/plain]; the
    remaining parameters ([body_type], [importance], [cc_recipients],
    [bcc_recipients], [reply_to]) are neither checked nor used, so the call
    does the same for every value of them. *)
Theorem create_message_mime :
  forall subject body to u f bt imp cc bcc rt hs m w,
    py_truthy (token (client w)) = true ->
    (truthy u || is_delegated (client w)) = true ->
    m <> "" ->
    ((subject <> "" \/ body <> "" \/ to <> [] \/ truthy_list hs = true) ->
     create_message subject body to u f bt imp cc bcc rt hs (Some m) w
     = (Raise (ValueError mime_exclusive_msg), w))
    /\ (exists o,
          create_message "" "" [] u f bt imp cc bcc rt None (Some m) w
          = (o, with_sent w
                  (mkRequest POST (messages_url (client w) u f) []
                     [("Authorization", HBearer (token (client w)));
                      ("Content-Type", HStr "text/plain")]
                     (RawBody (list_byte_of_string m)) false)))
    /\ (forall bt' imp' cc' bcc' rt',
          create_message "" "" [] u f bt' imp' cc' bcc' rt' None (Some m) w
          = create_message "" "" [] u f bt imp cc bcc rt None (Some m) w).
Proof.
  intros subject body to u f bt imp cc bcc rt hs m w Htok Hu Hm.
  assert (Hmt : truthy (Some m) = true)
    by (simpl; apply String.eqb_neq in Hm; rewrite Hm; reflexivity).
  split; [|split].
  - intros Hany. unfold create_message, catch.
    rewrite (run_ensure_token _ _ Htok), run_get_client.
    rewrite (run_check _ _ _ _ (user_check_passes _ _ Hu)).
    unfold check_message. rewrite Hmt.
    rewrite run_check_raise; [reflexivity|].
    unfold str_truthy.
    assert (Hto : to <> [] -> nonempty to = true) by (destruct to; [congruence|reflexivity]).
    destruct Hany as [H|[H|[H|H]]];
      [apply String.eqb_neq in H | apply String.eqb_neq in H | apply Hto in H |];
      rewrite H; simpl; rewrite ?orb_true_r; reflexivity.
  - rewrite (create_message_mime_run _ _ _ _ _ _ _ _ _ Htok Hu Hmt).
    unfold catch, create_message_request. rewrite Hmt. simpl fstr.
    unfold bind, send. destruct (server w (sent w) _) as [r|].
    + unfold raise_for_status. destruct (is_success r).
      * unfold ret at 1. unfold response_json. destruct (json r); eexists; reflexivity.
      * unfold raise at 1. unfold create_message_errors.
        repeat match goal with |- context [if ?b then _ else _] => destruct b end;
          eexists; reflexivity.
    + eexists; reflexivity.
  - intros bt' imp' cc' bcc' rt'.
    rewrite !(create_message_mime_run _ _ _ _ _ _ _ _ _ Htok Hu Hmt). reflexivity.
Qed.

Lemma create_message_mime_witness :
  create_message "Hola" "" [] (Some "ana@contoso.com") None "HTML" "normal"
    None None None None (Some "TUlNRS1WZXJzaW9uOiAxLjA=")
    (Sample.world Sample.app_with_token Sample.friendly)
  = (Raise (ValueError mime_exclusive_msg),
     Sample.world Sample.app_with_token Sample.friendly).
Proof.
  apply (create_message_mime "Hola" "" [] (Some "ana@contoso.com") None "HTML"
           "normal" None None None None "TUlNRS1WZXJzaW9uOiAxLjA="
           (Sample.world Sample.app_with_token Sample.friendly));
    [reflexivity | reflexivity | discriminate | left; discriminate].
Defined.

(** X11.  The answers to the POST of a MIME message: a 2xx answer with a
    JSON body is returned; 413 becomes [ValueError("El contenido MIME
    excede el límite de 4MB")]; a 400 whose text contains [Invalid base64
    string] becomes [ValueError]; 401 and 403 become [PermissionError]. *)
Theorem create_message_mime_status :
  forall u f bt imp cc bcc rt m w r,
    py_truthy (token (client w)) = true ->
    (truthy u || is_delegated (client w)) = true ->
    m <> "" ->
    let req := create_message_request (client w) u f (Some m) (inl m) in
    server w (sent w) req = Reply r ->
    let run := create_message "" "" [] u f bt imp cc bcc rt None (Some m) w in
    (forall v, is_success r = true -> json r = Some v ->
               run = (Return v, with_sent w req))
    /\ (status_code r = 413 ->
        run = (Raise (ValueError "El contenido MIME excede el límite de 4MB"),
               with_sent w req))
    /\ (status_code r = 400 -> str_contains "Invalid base64 string" (text r) = true ->
        run = (Raise (ValueError "El contenido MIME proporcionado no es una cadena base64 válida"),
               with_sent w req))
    /\ (status_code r = 401 \/ status_code r = 403 ->
        exists msg, run = (Raise (PermissionError msg), with_sent w req)).
Proof.
  intros u f bt imp cc bcc rt m w r Htok Hu Hm req Hsrv run.
  assert (Hmt : truthy (Some m) = true)
    by (simpl; apply String.eqb_neq in Hm; rewrite Hm; reflexivity).
  subst run. rewrite (create_message_mime_run _ _ _ _ _ _ _ _ _ Htok Hu Hmt).
  unfold catch. simpl fstr. fold req. rewrite (run_send _ _ _ _ Hsrv).
  repeat split.
  - intros v Hs Hj. rewrite (run_status _ _ _ Hs). unfold response_json.
    rewrite Hj. reflexivity.
  - intros H. rewrite run_status_raise by (apply not_success; lia).
    unfold create_message_errors. rewrite H. reflexivity.
  - intros H Hc. rewrite run_status_raise by (apply not_success; lia).
    unfold create_message_errors. rewrite H, Hc. reflexivity.
  - intros [H|H]; (rewrite run_status_raise by (apply not_success; lia));
      unfold create_message_errors; rewrite H; simpl; eexists; reflexivity.
Qed.

Lemma create_message_mime_status_witness :
  create_message "" "" [] (Some "ana@contoso.com") None "HTML" "normal"
    None None None None (Some "TUlNRS1WZXJzaW9uOiAxLjA=")
    (Sample.world Sample.app_with_token (Sample.always 413))
  = (Raise (ValueError "El contenido MIME excede el límite de 4MB"),
     with_sent (Sample.world Sample.app_with_token (Sample.always 413))
       (create_message_request Sample.app_with_token (Some "ana@contoso.com") None
          (Some "TUlNRS1WZXJzaW9uOiAxLjA=") (inl "TUlNRS1WZXJzaW9uOiAxLjA="))).
Proof.
  apply (create_message_mime_status (Some "ana@contoso.com") None "HTML" "normal"
           None None None "TUlNRS1WZXJzaW9uOiAxLjA="
           (Sample.world Sample.app_with_token (Sample.always 413))
           (mkResponse 413 "" (Some (PyDict [])) []));
    [reflexivity | reflexivity | discriminate | reflexivity | reflexivity].
Defined.

(** What [json.dumps] accepts stays acceptable through
    [_process_recipients]. *)
Lemma dict_get_serializable k d v :
  json_serializable (PyDict d) = true -> dict_get k d = Some v ->
  json_serializable v = true.
Proof.
  simpl. induction d as [|[k' v'] rest IH]; simpl; [discriminate|].
  intros H. apply andb_prop in H. destruct H as [Hv Hrest].
  destruct (String.eqb k k'); [intros E; inversion E; subst; exact Hv | auto].
Qed.

Lemma normalized_serializable r :
  json_serializable r = true -> json_serializable (normalized r) = true.
Proof.
  destruct r as [| | | | | items | |entries]; try reflexivity; try discriminate;
    try (intros H; exact H).
  - destruct items as [|a [|b [|c rest]]]; simpl; try reflexivity.
    + rewrite !andb_true_r. trivial.
    + rewrite !andb_true_r. trivial.
    + trivial.
  - intros H. unfold normalized.
    destruct (is_some (dict_get "emailAddress" entries)); [exact H|].
    unfold email_address. simpl. rewrite !andb_true_r.
    destruct (dict_get "address" entries) as [a|] eqn:Ha;
      destruct (dict_get "name" entries) as [n|] eqn:Hn; simpl;
      rewrite ?(dict_get_serializable _ _ _ H Ha), ?(dict_get_serializable _ _ _ H Hn);
      reflexivity.
Qed.

Lemma normalized_all_serializable rs :
  forallb json_serializable rs = true ->
  forallb json_serializable (map normalized rs) = true.
Proof.
  induction rs as [|r rest IH]; simpl; [trivial|].
  intros H. apply andb_prop in H. destruct H as [Hr Hrest].
  rewrite (normalized_serializable _ Hr), (IH Hrest). reflexivity.
Qed.

Lemma recipients_entry_serializable key rs :
  forallb json_serializable (opt_list rs) = true ->
  forallb (fun kv => json_serializable (snd kv)) (recipients_entry key rs) = true.
Proof.
  intros H. unfold recipients_entry. destruct (truthy_list rs); [|reflexivity].
  simpl. rewrite (normalized_all_serializable _ H). reflexivity.
Qed.

Lemma add_recipients_supported key rs data w :
  forallb supported_recipient (opt_list rs) = true ->
  add_recipients key rs data w
  = (Return (if truthy_list rs
             then dict_set key (PyList (map normalized (opt_list rs))) data
             else data), w).
Proof.
  intros H. unfold add_recipients. destruct (truthy_list rs); [|reflexivity].
  unfold bind, lift, _process_recipients.
  rewrite (process_loop_supported _ H). reflexivity.
Qed.

(** The dictionary [data] of a message whose recipients are all of a
    supported shape. *)
Lemma message_data_supported subject body to bt imp cc bcc rt w :
  forallb supported_recipient to = true ->
  forallb supported_recipient (opt_list cc) = true ->
  forallb supported_recipient (opt_list bcc) = true ->
  forallb supported_recipient (opt_list rt) = true ->
  message_data subject body to bt imp cc bcc rt None w
  = (Return (inr (message_document subject body to bt imp cc bcc rt None)), w).
Proof.
  intros Hto Hcc Hbcc Hrt. unfold message_data. change (truthy None) with false. cbv iota.
  assert (Hrun : lift (_process_recipients to) w = (Return (map normalized to), w))
    by (unfold lift, _process_recipients; rewrite (process_loop_supported _ Hto);
        reflexivity).
  rewrite (run_bind _ _ _ _ _ Hrun).
  rewrite (run_bind _ _ _ _ _ (add_recipients_supported _ _ _ _ Hcc)).
  rewrite (run_bind _ _ _ _ _ (add_recipients_supported _ _ _ _ Hbcc)).
  rewrite (run_bind _ _ _ _ _ (add_recipients_supported _ _ _ _ Hrt)).
  unfold message_document, recipients_entry, headers_entry.
  destruct (truthy_list cc), (truthy_list bcc), (truthy_list rt); reflexivity.
Qed.

(** X12.  [create_message] without MIME content, for a message that passes
    the checks and whose recipients are strings, tuples of one or two items
    or dictionaries: exactly one POST is sent, with [Content-Type:
    application/json] and, as JSON body, the subject, the importance and the
    content type in lower case, the body, the recipients of [toRecipients]
    normalized, then [ccRecipients], [bccRecipients], [replyTo] (each only
    for a list that is not empty, normalized likewise) and
    [internetMessageHeaders] (only for headers that are given, as they
    are). *)
Theorem create_message_json_body :
  forall subject body to u f bt imp cc bcc rt hs w,
    py_truthy (token (client w)) = true ->
    (truthy u || is_delegated (client w)) = true ->
    subject <> "" -> body <> "" -> to <> [] ->
    In (upper bt) ["HTML"; "TEXT"] ->
    In (lower imp) ["low"; "normal"; "high"] ->
    let everyone := (to ++ opt_list cc ++ opt_list bcc ++ opt_list rt)%list in
    forallb supported_recipient everyone = true ->
    forallb json_serializable everyone = true ->
    forallb valid_header (opt_list hs) = true ->
    forallb json_serializable (opt_list hs) = true ->
    exists o,
      create_message subject body to u f bt imp cc bcc rt hs None w
      = (o, with_sent w
              (mkRequest POST (messages_url (client w) u f) []
                 [("Authorization", HBearer (token (client w)));
                  ("Content-Type", HStr "application/json")]
                 (JsonBody (PyDict (message_document subject body to bt imp
                                      cc bcc rt hs)))
                 false)).
Proof.
  intros subject body to u f bt imp cc bcc rt hs w Htok Hu Hs Hb Hto Hbt Himp
    everyone Hsup Hser Hval Hhs.
  subst everyone. rewrite !forallb_app in Hsup, Hser.
  repeat match goal with H : _ && _ = true |- _ => apply andb_prop in H; destruct H end.
  unfold create_message, catch.
  rewrite (run_ensure_token _ _ Htok), run_get_client.
  rewrite (run_check _ _ _ _ (user_check_passes _ _ Hu)).
  assert (Hcheck : check_message subject body to bt imp hs None w = (Return tt, w)).
  { unfold check_message. change (truthy None) with false. cbv iota.
    apply String.eqb_neq in Hs, Hb. unfold str_truthy.
    rewrite run_check by (rewrite Hs, Hb; destruct to; [congruence|reflexivity]).
    rewrite run_check.
    2:{ apply negb_false_iff, existsb_exists. exists (upper bt).
        split; [exact Hbt | apply String.eqb_refl]. }
    unfold raise_if.
    replace (existsb (String.eqb (lower imp)) ["low"; "normal"; "high"]) with true;
      [reflexivity|].
    symmetry. apply existsb_exists. exists (lower imp).
    split; [exact Himp | apply String.eqb_refl]. }
  rewrite (run_bind _ _ _ _ _ Hcheck).
  rewrite (run_bind _ _ _ _ _
             (message_data_supported subject body to bt imp cc bcc rt w
                ltac:(assumption) ltac:(assumption) ltac:(assumption) ltac:(assumption))).
  assert (Hdata : add_message_headers hs
                    (inr (message_document subject body to bt imp cc bcc rt None)) w
                  = (Return (inr (message_document subject body to bt imp cc bcc rt hs)), w)).
  { unfold add_message_headers, message_document, headers_entry, recipients_entry.
    destruct (truthy_list hs).
    - rewrite run_check by (rewrite Hval; reflexivity).
      destruct (truthy_list cc), (truthy_list bcc), (truthy_list rt); reflexivity.
    - rewrite !app_nil_r. reflexivity. }
  rewrite (run_bind _ _ _ _ _ Hdata).
  rewrite run_check.
  2:{ apply negb_false_iff. simpl.
      rewrite (normalized_all_serializable to) by assumption. simpl.
      rewrite !forallb_app, !recipients_entry_serializable by assumption.
      unfold headers_entry. destruct (truthy_list hs); [|reflexivity].
      simpl. rewrite Hhs. reflexivity. }
  unfold create_message_request. change (truthy None) with false. cbv iota.
  unfold bind, send. destruct (server w (sent w) _) as [r|].
  - unfold raise_for_status. destruct (is_success r).
    + unfold ret at 1. unfold response_json. destruct (json r); eexists; reflexivity.
    + unfold raise at 1. unfold create_message_errors.
      repeat match goal with |- context [if ?b then _ else _] => destruct b end;
        eexists; reflexivity.
  - eexists; reflexivity.
Qed.

Lemma create_message_json_body_witness :
  exists o,
    create_message "Informe" "<p>Hola</p>"
      [PyStr "ana@contoso.com"; PyTuple [PyStr "luis@contoso.com"; PyStr "Luis"]]
      (Some "ana@contoso.com") None "HTML" "High"
      (Some [PyDict [("address", PyStr "eva@contoso.com")]]) None (Some []) None None
      (Sample.world Sample.app_with_token Sample.friendly)
    = (o, with_sent (Sample.world Sample.app_with_token Sample.friendly)
            (mkRequest POST
               "https://graph.microsoft.com/v1.0/users/ana@contoso.com/messages" []
               [("Authorization", HBearer (PyStr "eyJ0"));
                ("Content-Type", HStr "application/json")]
               (JsonBody
                  (PyDict
                     [("subject", PyStr "Informe");
                      ("importance", PyStr "high");
                      ("body", PyDict [("contentType", PyStr "html");
                                       ("content", PyStr "<p>Hola</p>")]);
                      ("toRecipients",
                       PyList [email_address (PyStr "ana@contoso.com") (PyStr "");
                               email_address (PyStr "luis@contoso.com") (PyStr "Luis")]);
                      ("ccRecipients",
                       PyList [email_address (PyStr "eva@contoso.com") (PyStr "")])]))
               false)).
Proof.
  apply (create_message_json_body "Informe" "<p>Hola</p>"
           [PyStr "ana@contoso.com"; PyTuple [PyStr "luis@contoso.com"; PyStr "Luis"]]
           (Some "ana@contoso.com") None "HTML" "High"
           (Some [PyDict [("address", PyStr "eva@contoso.com")]]) None (Some []) None
           (Sample.world Sample.app_with_token Sample.friendly));
    try reflexivity; try discriminate; simpl; tauto.
Defined.

(** X13.  [create_message] sends nothing for a message it cannot build:
    a recipient in [to_recipients] that is neither a string, a tuple nor a
    dictionary raises the [ValueError] of [_process_recipients], and, with
    all recipients supported, a header that is not a dictionary with
    [name] and [value] raises [ValueError]; in both cases after the checks
    on the other parameters have passed, and with no request sent. *)
Theorem create_message_rejects :
  forall subject body u f bt imp cc bcc rt hs w,
    py_truthy (token (client w)) = true ->
    (truthy u || is_delegated (client w)) = true ->
    subject <> "" -> body <> "" ->
    In (upper bt) ["HTML"; "TEXT"] ->
    In (lower imp) ["low"; "normal"; "high"] ->
    (forall before r after,
       forallb supported_recipient before = true ->
       other_type r = true ->
       create_message subject body (before ++ r :: after) u f bt imp cc bcc rt hs None w
       = (Raise (ValueErrorFmt "Formato de destinatario no soportado: " r
                   ". Use string, tuple o dict"), w))
    /\ (forall to,
          to <> [] ->
          forallb supported_recipient
            (to ++ opt_list cc ++ opt_list bcc ++ opt_list rt) = true ->
          forallb valid_header (opt_list hs) = false ->
          create_message subject body to u f bt imp cc bcc rt hs None w
          = (Raise (ValueError headers_format_msg), w)).
Proof.
  intros subject body u f bt imp cc bcc rt hs w Htok Hu Hs Hb Hbt Himp.
  assert (Hcheck : forall to, to <> [] ->
            check_message subject body to bt imp hs None w = (Return tt, w)).
  { intros to Hto. unfold check_message. change (truthy None) with false. cbv iota.
    apply String.eqb_neq in Hs, Hb. unfold str_truthy.
    rewrite run_check by (rewrite Hs, Hb; destruct to; [congruence|reflexivity]).
    rewrite run_check.
    2:{ apply negb_false_iff, existsb_exists. exists (upper bt).
        split; [exact Hbt | apply String.eqb_refl]. }
    unfold raise_if.
    replace (existsb (String.eqb (lower imp)) ["low"; "normal"; "high"]) with true;
      [reflexivity|].
    symmetry. apply existsb_exists. exists (lower imp).
    split; [exact Himp | apply String.eqb_refl]. }
  split.
  - intros before r after Hbefore Hr.
    unfold create_message, catch.
    rewrite (run_ensure_token _ _ Htok), run_get_client.
    rewrite (run_check _ _ _ _ (user_check_passes _ _ Hu)).
    rewrite (run_bind _ _ _ _ _ (Hcheck (before ++ r :: after)%list ltac:(destruct before; simpl; discriminate))).
    unfold message_data. change (truthy None) with false. cbv iota.
    unfold bind at 2. unfold lift at 1. unfold _process_recipients.
    rewrite (process_loop_raises before r after _ Hbefore (process_recipient_other r Hr)).
    reflexivity.
  - intros to Hto Hsup Hval.
    rewrite !forallb_app in Hsup.
    repeat match goal with H : _ && _ = true |- _ => apply andb_prop in H; destruct H end.
    unfold create_message, catch.
    rewrite (run_ensure_token _ _ Htok), run_get_client.
    rewrite (run_check _ _ _ _ (user_check_passes _ _ Hu)).
    rewrite (run_bind _ _ _ _ _ (Hcheck _ Hto)).
    rewrite (run_bind _ _ _ _ _
               (message_data_supported subject body to bt imp cc bcc rt w
                  ltac:(assumption) ltac:(assumption) ltac:(assumption) ltac:(assumption))).
    unfold add_message_headers.
    destruct (truthy_list hs) eqn:Hhs.
    + rewrite Hval. reflexivity.
    + destruct hs as [[|h rest]|]; simpl in *; discriminate.
Qed.

Lemma create_message_rejects_witness :
  create_message "Informe" "Hola" [PyStr "ana@contoso.com"; PyInt 7]
    (Some "ana@contoso.com") None "text" "low" None None None None None
    (Sample.world Sample.app_with_token Sample.friendly)
  = (Raise (ValueErrorFmt "Formato de destinatario no soportado: " (PyInt 7)
              ". Use string, tuple o dict"),
     Sample.world Sample.app_with_token Sample.friendly).
Proof.
  destruct (create_message_rejects "Informe" "Hola" (Some "ana@contoso.com") None
              "text" "low" None None None None
              (Sample.world Sample.app_with_token Sample.friendly))
    as [Hrecipient _];
    [reflexivity | reflexivity | discriminate | discriminate
     | simpl; tauto | simpl; tauto |].
  apply (Hrecipient [PyStr "ana@contoso.com"] (PyInt 7) []); reflexivity.
Defined.

(* ---------------------------------------------------------------------- *)
(** ** More on [add_attachment] *)

Lemma firstn_then_firstn {A} (l : list A) a b :
  (firstn a l ++ firstn b (skipn a l))%list = firstn (a + b)%nat l.
Proof.
  revert l. induction a as [|a IH]; intros l; [reflexivity|].
  destruct l as [|x rest]; simpl.
  - rewrite firstn_nil. reflexivity.
  - rewrite IH. reflexivity.
Qed.

Lemma concat_slices_nat {A} (l : list A) c n :
  List.concat (map (fun i => firstn c (skipn (i * c)%nat l)) (seq 0 n)) = firstn (n * c)%nat l.
Proof.
  induction n as [|n IH]; [reflexivity|].
  rewrite seq_S, map_app, concat_app, IH. simpl.
  rewrite app_nil_r, firstn_then_firstn. f_equal. lia.
Qed.

(** The slices [l[s:s+c]] for [s] in [range(0, len(l), c)], one after the
    other, are [l]. *)
Lemma concat_slices {A} (l : list A) c :
  0 < c ->
  List.concat (map (fun s => py_slice l s (s + c)) (py_range 0 (len l) c)) = l.
Proof.
  intros Hc. unfold py_range. rewrite map_map.
  rewrite (map_ext _ (fun i => firstn (Z.to_nat c) (skipn (i * Z.to_nat c)%nat l))).
  2:{ intros i. unfold py_slice. f_equal; [f_equal; lia | f_equal; nia]. }
  rewrite concat_slices_nat. apply firstn_all2.
  assert (Hlen := len_nonneg l). unfold len in *.
  assert (Hq : len l <= ((len l - 0 + c - 1) / c) * c).
  { unfold len. Z.div_mod_to_equations. nia. }
  unfold len in Hq.
  assert (0 <= (Z.of_nat (List.length l) - 0 + c - 1) / c)
    by (apply Z.div_pos; lia).
  nia.
Qed.

(** The requests the loop is to send carry the payload: their bodies, one
    after the other, are the payload; none is empty, none holds more than
    4 MiB, and each states the length of its body. *)
Lemma chunk_requests_bodies upload_url (data : bytes) :
  let reqs := chunk_requests upload_url data (len data) in
  List.concat (map raw_body reqs) = data
  /\ (forall req, In req reqs ->
        meth req = PUT /\ url req = upload_url
        /\ 0 < len (raw_body req) <= chunk_size
        /\ In ("Content-Length", HStr (py_str_int (len (raw_body req))))
             (headers req)).
Proof.
  intros reqs. subst reqs. unfold chunk_requests. split.
  - rewrite map_map.
    rewrite (map_ext _ (fun s => py_slice data s (s + chunk_size)))
      by reflexivity.
    apply concat_slices. rewrite chunk_size_eq. lia.
  - intros req Hin. apply in_map_iff in Hin. destruct Hin as (start & <- & Hin).
    apply In_nth_error in Hin. destruct Hin as [i Hi].
    assert (Hlt : (i < List.length (py_range 0 (len data) chunk_size))%nat)
      by (apply nth_error_Some; congruence).
    rewrite (py_range_nth _ _ _ _ Hlt) in Hi. inversion Hi as [Hstart].
    assert (Hb := chunk_start_bound (len data) i (len_nonneg data) Hlt).
    unfold chunk_request_at, chunk_request, raw_body. simpl.
    split; [reflexivity|]. split; [reflexivity|].
    split; [|now left].
    rewrite len_py_slice by (rewrite chunk_size_eq in *; lia).
    rewrite chunk_size_eq in *. lia.
Qed.

(** X14.  The PUT requests [add_attachment] sends once the session is
    negotiated carry the payload itself.  Each goes to the upload URL, is
    not empty, carries at most 4 MiB and announces the length of its own
    body in [Content-Length]; their bodies, put one after the other in the
    order they were sent, are the head of the payload, and all of it, byte
    for byte, when the call returns the session.  When the call raises
    instead, the last request sent is the one that failed.  The requests of
    the call are requests [httpx] sends as they are built. *)
Theorem chunks_reassemble :
  forall m fp c fn u i ct w data name session w1 upload_url,
    payload_of w fp c fn = Some (data, name) ->
    inline_threshold < len data <= session_cap ->
    _create_upload_session m name (len data) u i w = (Return session, w1) ->
    json_field "uploadUrl" session = Some (PyStr upload_url) ->
    forallb sendable (handed_over w w1) = true ->
    url_ok upload_url = true ->
    exists o w2 puts,
      add_attachment m fp c fn u i ct w = (o, w2)
      /\ sent w2 = (sent w1 ++ puts)%list
      /\ (forall req, In req puts ->
            meth req = PUT /\ url req = upload_url
            /\ 0 < len (raw_body req) <= chunk_size
            /\ In ("Content-Length", HStr (py_str_int (len (raw_body req))))
                 (headers req))
      /\ (exists rest, data = (List.concat (map raw_body puts) ++ rest)%list)
      /\ ((o = Return session /\ List.concat (map raw_body puts) = data)
          \/ (exists e before req,
                o = Raise e /\ puts = (before ++ [req])%list
                /\ fails_with w1 (sent w1 ++ before) req e)).
Proof.
  intros m fp c fn u i ct w data name session w1 upload_url
    Hpay Hsize Hsess Hurl _ _.
  destruct (chunk_requests_bodies upload_url data) as [Hall Heach].
  cbv zeta in Hall, Heach.
  destruct (session_transfer_run m fp c fn u i ct w data name Hpay Hsize
              session w1 upload_url Hsess Hurl)
    as (o & w2 & Hrun & [(Ho & Hsent & _)
                        | (k & req & e & Hk & Ho & Hsent & _ & Hfail)]).
  - exists o, w2, (chunk_requests upload_url data (len data)).
    split; [exact Hrun|]. split; [exact Hsent|]. split; [exact Heach|].
    split; [exists []; rewrite app_nil_r; symmetry; exact Hall|].
    left. auto.
  - set (reqs := chunk_requests upload_url data (len data)) in *.
    assert (Hsplit : reqs = (firstn (S k) reqs ++ skipn (S k) reqs)%list)
      by (symmetry; apply firstn_skipn).
    exists o, w2, (firstn (S k) reqs).
    split; [exact Hrun|]. split; [exact Hsent|]. split; [|split].
    + intros rq Hin. apply Heach. rewrite Hsplit. apply in_or_app. now left.
    + exists (List.concat (map raw_body (skipn (S k) reqs))).
      rewrite <- concat_app, <- map_app, <- Hsplit. symmetry. exact Hall.
    + right. exists e, (firstn k reqs), req.
      split; [exact Ho|]. split; [apply firstn_S_nth_error; exact Hk|exact Hfail].
Qed.

(** The theorem at a payload of 10 MiB and a server that accepts
    everything: the bodies of the three PUT requests are the payload. *)
Lemma chunks_reassemble_witness :
  let w := Sample.world Sample.app_with_token Sample.friendly in
  let data := Sample.zeros 10485760 in
  let session := PyDict [("uploadUrl", PyStr "https://upload.example/s1");
                         ("expirationDateTime", PyStr "2026-01-01T00:00:00Z")] in
  exists w2,
    add_attachment "AAMkAGI2" None (Some data) (Some "video.bin")
      (Some "ana@contoso.com") false None w = (Return session, w2)
    /\ List.concat (map raw_body (skipn 1 (sent w2))) = data.
Proof.
  intros w data session.
  assert (Hlen : len data = 10485760) by (apply len_zeros; lia).
  assert (Hsize : inline_threshold < len data <= session_cap).
  { rewrite Hlen. unfold inline_threshold, session_cap. lia. }
  clearbody data.
  assert (Hplain : forallb sendable
                     (handed_over w
                        (with_sent w
                           (session_request Sample.app_with_token "AAMkAGI2"
                              "video.bin" (len data) (Some "ana@contoso.com") false)))
                   = true)
    by (rewrite Hlen; reflexivity).
  destruct (chunks_reassemble "AAMkAGI2" None (Some data)
              (Some "video.bin") (Some "ana@contoso.com") false None w data
              "video.bin" session
              (with_sent w (session_request Sample.app_with_token "AAMkAGI2"
                              "video.bin" (len data) (Some "ana@contoso.com") false))
              "https://upload.example/s1" eq_refl Hsize eq_refl eq_refl Hplain
              eq_refl)
    as (o & w2 & puts & Hrun & Hsent & Heach & _ & Hcases).
  destruct Hcases as [(Ho & Hall) | (e & before & req & _ & Hputs & Hfail)].
  - subst o. exists w2. split; [exact Hrun|]. rewrite Hsent. exact Hall.
  - exfalso. eapply answered_ok_not_fails; [|exact Hfail].
    destruct (Heach req) as (_ & Hu & _);
      [rewrite Hputs; apply in_or_app; right; now left|].
    exists (mkResponse 200 "" (Some (PyDict [("id", PyStr "01ABC")])) []).
    split; [|reflexivity].
    change (Sample.friendly
              (sent (with_sent w
                       (session_request Sample.app_with_token "AAMkAGI2" "video.bin"
                          (len data) (Some "ana@contoso.com") false)) ++ before)%list
              req
            = Sample.reply 200 (PyDict [("id", PyStr "01ABC")])).
    unfold Sample.friendly. rewrite Hu. reflexivity.
Defined.

(** X15.  The calls [add_attachment] refuses for their arguments alone, on
    any client, with or without a token, and with nothing sent: no
    [file_path] and not both [content] and [file_name]; a [file_path]
    together with [content] or [file_name]; a [file_path] of no existing
    file ([FileNotFoundError]).  The empty string as the only argument
    passes both checks, is not taken as a path, and fails on
    [len(content)] with [TypeError]. *)
Theorem add_attachment_arguments :
  forall m c fn u i ct w,
    ((c = None \/ fn = None) ->
     add_attachment m None c fn u i ct w = (Raise (ValueError need_content_msg), w))
    /\ (forall path, (c <> None \/ fn <> None) ->
          add_attachment m (Some path) c fn u i ct w
          = (Raise (ValueError both_content_msg), w))
    /\ (forall path, path <> "" -> files w path = None ->
          add_attachment m (Some path) None None u i ct w
          = (Raise (FileNotFoundError ("No se encontró el archivo: " ++ path)), w))
    /\ add_attachment m (Some "") None None u i ct w = (Raise TypeError, w).
Proof.
  intros m c fn u i ct w. repeat split.
  - intros [-> | ->]; [|destruct c]; reflexivity.
  - intros path [H|H]; destruct c, fn; try congruence; reflexivity.
  - intros path Hp Hf. apply String.eqb_neq in Hp.
    unfold add_attachment. rewrite !run_check by reflexivity.
    simpl. rewrite Hp. simpl. rewrite Hf. reflexivity.
Qed.

Lemma add_attachment_arguments_witness :
  add_attachment "AAMkAGI2" (Some "/tmp/informe.pdf") None None
    (Some "ana@contoso.com") false None (Sample.world Sample.app Sample.friendly)
  = (Raise (FileNotFoundError "No se encontró el archivo: /tmp/informe.pdf"),
     Sample.world Sample.app Sample.friendly).
Proof.
  apply (add_attachment_arguments "AAMkAGI2" None None (Some "ana@contoso.com")
           false None (Sample.world Sample.app Sample.friendly));
    [discriminate | reflexivity].
Defined.

(** The session strategy starts with the POST that opens the session. *)
Lemma create_upload_session_run m name size u i w r :
  py_truthy (token (client w)) = true ->
  server w (sent w) (session_request (client w) m name size u i) = Reply r ->
  _create_upload_session m name size u i w
  = (raise_for_status r ;; response_json r)
      (with_sent w (session_request (client w) m name size u i)).
Proof.
  intros Htok Hsrv. unfold _create_upload_session.
  rewrite (run_ensure_token _ _ Htok), run_get_client, (run_send _ _ _ _ Hsrv).
  reflexivity.
Qed.

(** The loop of a payload above the threshold has a first turn. *)
Lemma chunk_range_first total :
  inline_threshold < total ->
  exists rest, py_range 0 total chunk_size = 0 :: rest.
Proof.
  intros H.
  assert (Hlen := chunk_count total ltac:(rewrite inline_threshold_eq in H; lia)).
  destruct (py_range 0 total chunk_size) as [|first rest] eqn:Hr.
  - exfalso. unfold ceil_div in Hlen. rewrite chunk_size_eq, inline_threshold_eq in *.
    simpl in Hlen. symmetry in Hlen. Z.div_mod_to_equations. lia.
  - exists rest. f_equal.
    assert (Hn : nth_error (py_range 0 total chunk_size) 0 = Some (0 + Z.of_nat 0 * chunk_size))
      by (apply py_range_nth; rewrite Hr; simpl; lia).
    rewrite Hr in Hn. simpl in Hn. inversion Hn. reflexivity.
Qed.

(** X16.  A session that the server opens without an [uploadUrl]: the
    call raises [KeyError('uploadUrl')] at the first turn of the loop, and
    the POST that opened the session is the only request sent: no chunk
    goes out. *)
Theorem session_without_upload_url :
  forall m fp c fn u i ct w data name r d,
    payload_of w fp c fn = Some (data, name) ->
    inline_threshold < len data <= session_cap ->
    py_truthy (token (client w)) = true ->
    let req := session_request (client w) m name (len data) u i in
    server w (sent w) req = Reply r ->
    is_success r = true ->
    json r = Some (PyDict d) ->
    dict_get "uploadUrl" d = None ->
    add_attachment m fp c fn u i ct w = (Raise (KeyError "uploadUrl"), with_sent w req).
Proof.
  intros m fp c fn u i ct w data name r d Hpay Hsize Htok req Hsrv Hs Hj Hurl.
  rewrite (add_attachment_transfer _ _ _ _ _ _ _ _ _ _ Hpay).
  rewrite (transfer_session _ _ _ _ _ _ _ _ Hsize).
  rewrite (create_upload_session_run _ _ _ _ _ _ _ Htok Hsrv).
  rewrite (run_status _ _ _ Hs). unfold response_json. rewrite Hj.
  unfold ret at 1.
  destruct (chunk_range_first (len data) (proj1 Hsize)) as [rest ->].
  simpl upload_chunks. unfold bind at 1. unfold py_getitem. rewrite Hurl.
  reflexivity.
Qed.

Lemma session_without_upload_url_witness :
  let w := Sample.world Sample.app_with_token Scenes.session_without_url in
  add_attachment "AAMkAGI2" None (Some (Sample.zeros 4194304)) (Some "video.bin")
    (Some "ana@contoso.com") false None w
  = (Raise (KeyError "uploadUrl"),
     with_sent w (session_request Sample.app_with_token "AAMkAGI2" "video.bin"
                    (len (Sample.zeros 4194304)) (Some "ana@contoso.com") false)).
Proof.
  intros w.
  apply (session_without_upload_url "AAMkAGI2" None (Some (Sample.zeros 4194304))
           (Some "video.bin") (Some "ana@contoso.com") false None w
           (Sample.zeros 4194304) "video.bin"
           (mkResponse 201 ""
              (Some (PyDict [("expirationDateTime", PyStr "2026-01-01T00:00:00Z")])) [])
           [("expirationDateTime", PyStr "2026-01-01T00:00:00Z")]);
    try reflexivity.
  rewrite len_zeros by lia. unfold inline_threshold, session_cap. lia.
Defined.

(** X17.  The check that an application client names a [user_id] belongs
    to the inline strategy only.  On a client that is not delegated, with
    its token, a call without [user_id] raises [ValueError] and sends
    nothing for a payload up to the threshold, but for a payload above it
    the session is requested all the same, for the mailbox [/me]. *)
Theorem user_check_inline_only :
  forall m fp c fn u i ct w data name,
    payload_of w fp c fn = Some (data, name) ->
    py_truthy (token (client w)) = true ->
    truthy u = false ->
    is_delegated (client w) = false ->
    (len data <= inline_threshold ->
     add_attachment m fp c fn u i ct w = (Raise (ValueError need_user_msg), w))
    /\ (inline_threshold < len data <= session_cap ->
        exists o w1 rest,
          add_attachment m fp c fn u i ct w = (o, w1)
          /\ sent w1 = (sent w ++ session_request (client w) m name (len data) u i
                                  :: rest)%list
          /\ url (session_request (client w) m name (len data) u i)
             = (base_url (client w) ++ "/me") ++ "/messages/" ++ m
               ++ "/attachments/createUploadSession").
Proof.
  intros m fp c fn u i ct w data name Hpay Htok Hu Hd. split.
  - intros Hsize. rewrite (add_attachment_transfer _ _ _ _ _ _ _ _ _ _ Hpay).
    unfold transfer. destruct (Z.leb_spec (len data) inline_threshold); [|lia].
    unfold _add_attachment_raw, catch.
    rewrite (run_ensure_token _ _ Htok), run_get_client.
    rewrite run_check_raise by (rewrite Hu, Hd; reflexivity). reflexivity.
  - intros Hsize. rewrite (add_attachment_transfer _ _ _ _ _ _ _ _ _ _ Hpay).
    rewrite (transfer_session _ _ _ _ _ _ _ _ Hsize).
    destruct (_create_upload_session m name (len data) u i w) as [[session|e] w1] eqn:Hrun.
    + assert (Hw1 := create_upload_session_sent _ _ _ _ _ _ _ _ Htok Hrun).
      destruct (upload_chunks session data (len data) (py_range 0 (len data) chunk_size) w1)
        as [o w2] eqn:Hloop.
      assert (Hgrow : forall starts wa ob wb,
                upload_chunks session data (len data) starts wa = (ob, wb) ->
                exists more, sent wb = (sent wa ++ more)%list).
      { induction starts as [|start rest IH]; intros wa ob wb Hl.
        - inversion Hl; subst. exists []. rewrite app_nil_r. reflexivity.
        - simpl in Hl. unfold bind at 1 in Hl.
          destruct (py_getitem session "uploadUrl" wa) as [[v|e] wa'] eqn:Hget.
          + assert (wa' = wa).
            { unfold py_getitem in Hget. destruct session; try discriminate.
              destruct (dict_get "uploadUrl" _); inversion Hget; reflexivity. }
            subst wa'. unfold bind at 1 in Hl. unfold _upload_chunk in Hl.
            destruct v; try (inversion Hl; subst; exists []; rewrite app_nil_r; reflexivity).
            unfold bind at 1, send in Hl.
            destruct (server wa (sent wa) _) as [r|].
            * unfold raise_for_status in Hl. destruct (is_success r).
              -- destruct (IH _ _ _ Hl) as [more Hmore]. simpl in Hmore.
                 rewrite <- app_assoc in Hmore. eexists. exact Hmore.
              -- inversion Hl; subst. simpl. eexists. reflexivity.
            * inversion Hl; subst. simpl. eexists. reflexivity.
          + assert (wa' = wa).
            { unfold py_getitem in Hget. destruct session; try (inversion Hget; reflexivity).
              destruct (dict_get "uploadUrl" _); inversion Hget; reflexivity. }
            subst wa'. inversion Hl; subst. exists []. rewrite app_nil_r. reflexivity. }
      destruct (Hgrow _ _ _ _ Hloop) as [more Hmore].
      exists (match o with Return _ => Return session | Raise e => Raise e end), w2, more.
      split; [destruct o; reflexivity|]. split.
      * rewrite Hmore, Hw1. simpl. rewrite <- app_assoc. reflexivity.
      * unfold session_request, mailbox_url. cbn [url]. rewrite Hu. reflexivity.
    + assert (Hw1 := create_upload_session_sent _ _ _ _ _ _ _ _ Htok Hrun).
      exists (Raise e), w1, []. split; [reflexivity|]. split.
      * rewrite Hw1. reflexivity.
      * unfold session_request, mailbox_url. cbn [url]. rewrite Hu. reflexivity.
Qed.

Lemma user_check_inline_only_witness :
  let w := Sample.world Sample.app_with_token Sample.friendly in
  add_attachment "AAMkAGI2" None (Some (Sample.zeros 1024)) (Some "nota.txt")
    None false None w
  = (Raise (ValueError need_user_msg), w).
Proof.
  intros w.
  apply (user_check_inline_only "AAMkAGI2" None (Some (Sample.zeros 1024))
           (Some "nota.txt") None false None w (Sample.zeros 1024) "nota.txt");
    try reflexivity.
  rewrite len_zeros by lia. unfold inline_threshold. lia.
Defined.

(** X18.  The same answer 404 ("no such message") leaves the two
    strategies differently: the inline strategy turns it into
    [ValueError("El mensaje especificado no existe")], the session strategy
    has no handler and lets the [HTTPStatusError] of the POST that asks for
    the session through. *)
Theorem attachment_404_by_strategy :
  forall m fp c fn u i ct w data name r,
    payload_of w fp c fn = Some (data, name) ->
    py_truthy (token (client w)) = true ->
    (truthy u || is_delegated (client w)) = true ->
    m <> "" ->
    status_code r = 404 ->
    (len data <= 2359296 ->
     let req := inline_request (client w) m name (b64encode data) u i
                  (Some (content_type_of w fp fn ct)) in
     server w (sent w) req = Reply r ->
     add_attachment m fp c fn u i ct w
     = (Raise (ValueError "El mensaje especificado no existe"), with_sent w req))
    /\ (inline_threshold < len data <= session_cap ->
        let req := session_request (client w) m name (len data) u i in
        server w (sent w) req = Reply r ->
        add_attachment m fp c fn u i ct w = (Raise (HTTPStatusError r), with_sent w req)).
Proof.
  intros m fp c fn u i ct w data name r Hpay Htok Hu Hm H404.
  assert (Hbad : is_success r = false) by (apply not_success; lia).
  split.
  - intros Hsize req Hsrv.
    rewrite (add_attachment_transfer _ _ _ _ _ _ _ _ _ _ Hpay).
    unfold transfer.
    destruct (Z.leb_spec (len data) inline_threshold);
      [|rewrite inline_threshold_eq in *; lia].
    unfold _add_attachment_raw, catch.
    rewrite (run_ensure_token _ _ Htok), run_get_client.
    rewrite (run_check _ _ _ _ (user_check_passes _ _ Hu)).
    apply String.eqb_neq in Hm. rewrite (run_check _ _ _ _ Hm).
    rewrite run_check.
    2:{ apply andb_false_iff. right.
        assert (Hlen : str_len (b64encode data) <= 3 * 1024 * 1024)
          by (rewrite b64encode_len; Z.div_mod_to_equations; lia).
        destruct (Z.gtb_spec (str_len (b64encode data)) (3 * 1024 * 1024)); [lia|reflexivity]. }
    fold req. rewrite (run_send _ _ _ _ Hsrv), (run_status_raise _ _ _ Hbad).
    unfold attachment_errors. rewrite H404. reflexivity.
  - intros Hsize req Hsrv.
    rewrite (add_attachment_transfer _ _ _ _ _ _ _ _ _ _ Hpay).
    rewrite (transfer_session _ _ _ _ _ _ _ _ Hsize).
    rewrite (create_upload_session_run _ _ _ _ _ _ _ Htok Hsrv).
    rewrite (run_status_raise _ _ _ Hbad). reflexivity.
Qed.

Lemma attachment_404_by_strategy_witness :
  let w := Sample.world Sample.app_with_token (Sample.always 404) in
  add_attachment "AAMkAGI2" None (Some (Sample.zeros 4194304)) (Some "video.bin")
    (Some "ana@contoso.com") false None w
  = (Raise (HTTPStatusError (mkResponse 404 "" (Some (PyDict [])) [])),
     with_sent w (session_request Sample.app_with_token "AAMkAGI2" "video.bin"
                    (len (Sample.zeros 4194304)) (Some "ana@contoso.com") false)).
Proof.
  intros w.
  apply (attachment_404_by_strategy "AAMkAGI2" None (Some (Sample.zeros 4194304))
           (Some "video.bin") (Some "ana@contoso.com") false None w
           (Sample.zeros 4194304) "video.bin"
           (mkResponse 404 "" (Some (PyDict [])) []));
    try reflexivity; try discriminate.
  rewrite len_zeros by lia. unfold inline_threshold, session_cap. lia.
Defined.

(* ---------------------------------------------------------------------- *)
(** ** More on the drives *)

(** X19.  [get_item] cannot address an item of a SharePoint list.  With
    [site_id] and [list_id] (and no other scope identifier) the method
    binds [url] but not [base_url], and the last step of the URL reads
    [base_url]: every such call raises [UnboundLocalError], whatever the
    item and the options, before anything is sent. *)
Theorem get_item_in_list_unbound :
  forall item_id item_path site list select expand include_deleted etag w,
    py_truthy (token (client w)) = true ->
    site <> "" -> list <> "" ->
    item_id = None \/ item_path = None ->
    get_item item_id item_path None None None (Some site) (Some list) select expand
      include_deleted etag w
    = (Raise (UnboundLocalError "base_url"), w).
Proof.
  intros item_id item_path site list select expand include_deleted etag w
    Htok Hs Hl Hone.
  apply String.eqb_neq in Hs, Hl.
  unfold get_item, get_item_request.
  rewrite run_bind_raise with (e := UnboundLocalError "base_url") (w1 := w);
    [reflexivity|].
  rewrite (run_ensure_token _ _ Htok).
  rewrite run_check by reflexivity.
  rewrite run_check by (destruct Hone as [-> | ->]; [|destruct item_id]; reflexivity).
  rewrite run_get_client.
  apply run_bind_raise. unfold get_item_url. simpl. rewrite Hs, Hl. simpl.
  destruct (is_some item_id); reflexivity.
Qed.

Lemma get_item_in_list_unbound_witness :
  get_item (Some "7") None None None None (Some "contoso.sharepoint.com")
    (Some "Documents") (Some "id,name") None true None
    (Sample.world Sample.app_with_token Sample.friendly)
  = (Raise (UnboundLocalError "base_url"),
     Sample.world Sample.app_with_token Sample.friendly).
Proof.
  apply get_item_in_list_unbound;
    [reflexivity | discriminate | discriminate | right; reflexivity].
Defined.

(** X20.  [get_drive] counts the identifiers that are not [None] but
    chooses the URL by their truth value, and its chain has no [else]: a
    call whose single identifier is the empty string passes both checks and
    raises [UnboundLocalError] for [url], with nothing sent. *)
Theorem get_drive_empty_identifier :
  forall drive_id user_id group_id site_id select w,
    py_truthy (token (client w)) = true ->
    len (drive_identifiers drive_id user_id group_id site_id) = 1 ->
    truthy drive_id = false -> truthy user_id = false ->
    truthy group_id = false -> truthy site_id = false ->
    get_drive drive_id user_id group_id site_id select w
    = (Raise (UnboundLocalError "url"), w).
Proof.
  intros drive_id user_id group_id site_id select w Htok Hone Hd Hu Hg Hs.
  unfold get_drive.
  rewrite (run_ensure_token _ _ Htok).
  rewrite run_check by (rewrite Hone; reflexivity).
  rewrite run_check by (rewrite Hone; reflexivity).
  rewrite run_get_client.
  apply run_bind_raise. unfold get_drive_url. rewrite Hd, Hu, Hg, Hs. reflexivity.
Qed.

Lemma get_drive_empty_identifier_witness :
  get_drive None (Some "") None None None
    (Sample.world Sample.app_with_token Sample.friendly)
  = (Raise (UnboundLocalError "url"),
     Sample.world Sample.app_with_token Sample.friendly).
Proof. apply get_drive_empty_identifier; reflexivity. Defined.

(** The GET of [download_content], past its checks. *)
Lemma download_content_run item_id item_path d u g s etag byte_range w :
  py_truthy (token (client w)) = true ->
  len (drive_identifiers d u g s) <= 1 ->
  xorb (is_some item_id) (is_some item_path) = true ->
  download_content item_id item_path d u g s etag byte_range w
  = catch
      (response <- send (download_request (client w) item_id item_path d u g s
                           etag byte_range) ;;
       if status_code response =? 304 then ret PyNone
       else raise_for_status response ;; ret (PyBytes (content response)))
      download_content_errors w.
Proof.
  intros Htok Hids Hone.
  unfold download_content, download_content_errors, download_request, catch.
  rewrite (run_ensure_token _ _ Htok).
  rewrite run_check by (destruct (Z.gtb_spec (len (drive_identifiers d u g s)) 1); [lia|reflexivity]).
  rewrite run_check by (destruct item_id, item_path; simpl in *; congruence).
  rewrite run_check by (destruct item_id, item_path; simpl in *; congruence).
  rewrite run_get_client. reflexivity.
Qed.

(** X21.  What [download_content] makes of the answer to its GET, a
    request with [follow_redirects=True] that [httpx] sends as it is built,
    when the answer is one [httpx] hands to the caller (any status but 301,
    302, 303, 307 and 308, which it follows): 304 is [None], not an error;
    any 2xx answer is the bytes of the body, not parsed; 404 becomes
    [FileNotFoundError]; 401 and 403 become [PermissionError]; any other
    status outside 2xx, 304, 400, 401, 403 and 404 leaves as the
    [HTTPStatusError] of the answer.  One request is sent in each case. *)
Theorem download_content_outcomes :
  forall item_id item_path d u g s etag byte_range w r,
    py_truthy (token (client w)) = true ->
    len (drive_identifiers d u g s) <= 1 ->
    xorb (is_some item_id) (is_some item_path) = true ->
    let req := download_request (client w) item_id item_path d u g s etag byte_range in
    sendable req = true ->
    server w (sent w) req = Reply r ->
    redirect_status r = false ->
    let run := download_content item_id item_path d u g s etag byte_range w in
    meth req = GET /\ follow_redirects req = true
    /\ (status_code r = 304 -> run = (Return PyNone, with_sent w req))
    /\ (is_success r = true ->
        run = (Return (PyBytes (content r)), with_sent w req))
    /\ (status_code r = 404 ->
        run = (Raise (FileNotFoundError "El archivo solicitado no existe"),
               with_sent w req))
    /\ (status_code r = 401 \/ status_code r = 403 ->
        exists msg, run = (Raise (PermissionError msg), with_sent w req))
    /\ (is_success r = false -> status_code r <> 304 ->
        status_code r <> 400 -> status_code r <> 401 ->
        status_code r <> 403 -> status_code r <> 404 ->
        run = (Raise (HTTPStatusError r), with_sent w req)).
Proof.
  intros item_id item_path d u g s etag byte_range w r Htok Hids Hone req _ Hsrv _ run.
  subst run.
  rewrite (download_content_run item_id item_path d u g s etag byte_range w
             Htok Hids Hone).
  fold req. unfold catch, download_content_errors.
  rewrite (run_send _ _ _ _ Hsrv).
  split; [reflexivity|]. split; [reflexivity|].
  repeat split.
  - intros H. rewrite H. reflexivity.
  - intros Hs. destruct (Z.eqb_spec (status_code r) 304) as [E|_].
    { unfold is_success in Hs. lia. }
    rewrite (run_status _ _ _ Hs). reflexivity.
  - intros H.
    assert (E : (status_code r =? 304) = false) by (apply Z.eqb_neq; lia).
    rewrite E. rewrite run_status_raise by (apply not_success; lia).
    unfold drive_errors. rewrite H. reflexivity.
  - intros H.
    assert (E : (status_code r =? 304) = false) by (apply Z.eqb_neq; lia).
    rewrite E. rewrite run_status_raise by (apply not_success; lia).
    unfold drive_errors. destruct H as [H|H]; rewrite H; simpl; eexists; reflexivity.
  - intros Hs H304 H0 H1 H3 H4.
    apply Z.eqb_neq in H304, H0, H1, H3, H4. rewrite H304.
    rewrite (run_status_raise _ _ _ Hs).
    unfold drive_errors. rewrite H0, H1, H3, H4. reflexivity.
Qed.

Lemma download_content_outcomes_witness :
  let w := Sample.world Sample.app_with_token (Sample.always 304) in
  download_content None (Some "/informes/2024.pdf") None (Some "ana@contoso.com")
    None None (Some "abc") (Some (0, 1023)) w
  = (Return PyNone,
     with_sent w
       (mkRequest GET
          "https://graph.microsoft.com/v1.0/users/ana@contoso.com/drive/root:/informes/2024.pdf:/content"
          []
          [("Authorization", HBearer (PyStr "eyJ0")); ("if-none-match", HStr "abc");
           ("Range", HStr "bytes=0-1023")]
          NoBody true)).
Proof.
  intros w.
  destruct (download_content_outcomes None (Some "/informes/2024.pdf") None
              (Some "ana@contoso.com") None None (Some "abc") (Some (0, 1023)) w
              (mkResponse 304 "" (Some (PyDict [])) []))
    as (_ & _ & H304 & _);
    [reflexivity | vm_compute; discriminate | reflexivity | reflexivity
     | reflexivity | reflexivity |].
  rewrite (H304 eq_refl). reflexivity.
Defined.

(** A token endpoint that answers outside 2xx. *)
Lemma ensure_token_refused w r :
  py_truthy (token (client w)) = false ->
  server w (sent w) (token_request (client w)) = Reply r ->
  is_success r = false ->
  ensure_token w = (Raise (HTTPStatusError r), with_sent w (token_request (client w))).
Proof.
  intros Htok Hsrv Hbad. rewrite (ensure_token_fetch _ Htok).
  unfold get_token. rewrite run_get_client, (run_send _ _ _ _ Hsrv).
  rewrite (run_status_raise _ _ _ Hbad). reflexivity.
Qed.

(** X22.  The token exchange of [download_content] runs inside its [try],
    so the [except] clause written for the download also rewrites the
    errors of the token endpoint.  On a client without a token whose token
    endpoint answers 404 (an unknown tenant, say), the call raises
    [FileNotFoundError("El archivo solicitado no existe")], for any
    arguments, valid or not, and the token request is the only one sent;
    [get_item], which has no [try], raises the [HTTPStatusError] itself. *)
Theorem token_error_read_as_download_error :
  forall w r,
    py_truthy (token (client w)) = false ->
    server w (sent w) (token_request (client w)) = Reply r ->
    status_code r = 404 ->
    (forall item_id item_path d u g s etag byte_range,
       download_content item_id item_path d u g s etag byte_range w
       = (Raise (FileNotFoundError "El archivo solicitado no existe"),
          with_sent w (token_request (client w))))
    /\ (forall item_id item_path d u g s l select expand include_deleted etag,
          get_item item_id item_path d u g s l select expand include_deleted etag w
          = (Raise (HTTPStatusError r), with_sent w (token_request (client w)))).
Proof.
  intros w r Htok Hsrv H404.
  assert (Hbad : is_success r = false) by (apply not_success; lia).
  assert (Hens := ensure_token_refused w r Htok Hsrv Hbad).
  split.
  - intros. unfold download_content, catch.
    rewrite (run_bind_raise _ _ _ _ _ Hens).
    unfold drive_errors. rewrite H404. reflexivity.
  - intros. unfold get_item, get_item_request.
    rewrite run_bind_raise with (e := HTTPStatusError r)
                                (w1 := with_sent w (token_request (client w)));
      [reflexivity|].
    apply run_bind_raise. exact Hens.
Qed.

Lemma token_error_read_as_download_error_witness :
  download_content (Some "01ABC") None None (Some "ana@contoso.com") None None None None
    (Sample.world Sample.app (Scenes.token_endpoint_answers 404))
  = (Raise (FileNotFoundError "El archivo solicitado no existe"),
     with_sent (Sample.world Sample.app (Scenes.token_endpoint_answers 404))
       (token_request Sample.app)).
Proof.
  apply (token_error_read_as_download_error
           (Sample.world Sample.app (Scenes.token_endpoint_answers 404))
           (mkResponse 404 "" (Some (PyDict [("error", PyStr "invalid_request")])) []));
    reflexivity.
Defined.

(* ---------------------------------------------------------------------- *)
(** ** Paths and identifiers of items *)

Lemma rstrip_char_app c s :
  rstrip_char c (s ++ String c EmptyString) = rstrip_char c s.
Proof.
  induction s as [|c' rest IH]; simpl.
  - rewrite Ascii.eqb_refl. reflexivity.
  - rewrite IH. reflexivity.
Qed.

Lemma lstrip_char_cons c c' s :
  lstrip_char c (String c' s)
  = if Ascii.eqb c c' then lstrip_char c s else String c' s.
Proof. reflexivity. Qed.

(** [s.strip('/')] does not see one more slash at either end. *)
Lemma strip_slash_slashes path :
  strip_slash ("/" ++ path) = strip_slash path
  /\ strip_slash (path ++ "/") = strip_slash path.
Proof.
  split; [reflexivity|].
  unfold strip_slash. induction path as [|c rest IH]; [reflexivity|].
  change (String c rest ++ "/") with (String c (rest ++ "/")).
  rewrite !lstrip_char_cons.
  destruct (Ascii.eqb "/" c); [exact IH|].
  change (String c (rest ++ "/")) with (String c rest ++ "/").
  apply rstrip_char_app.
Qed.

(** X23.  A slash more at the head or at the tail of [item_path] changes
    nothing: [get_item], [list_items] and [download_content] behave for
    ["/" + path] and for [path + "/"] as they do for [path]. *)
Theorem item_path_slashes :
  forall path path',
    path' = "/" ++ path \/ path' = path ++ "/" ->
    (forall item_id d u g s l select expand include_deleted etag w,
       get_item item_id (Some path') d u g s l select expand include_deleted etag w
       = get_item item_id (Some path) d u g s l select expand include_deleted etag w)
    /\ (forall item_id d u g s select expand orderby top w,
          list_items item_id (Some path') d u g s select expand orderby top w
          = list_items item_id (Some path) d u g s select expand orderby top w)
    /\ (forall item_id d u g s etag byte_range w,
          download_content item_id (Some path') d u g s etag byte_range w
          = download_content item_id (Some path) d u g s etag byte_range w).
Proof.
  intros path path' Hp.
  assert (Hstrip : strip_slash path' = strip_slash path)
    by (destruct Hp as [-> | ->]; apply strip_slash_slashes).
  repeat split; intros.
  - unfold get_item, get_item_request, get_item_url. cbv zeta.
    destruct (negb (truthy d) && negb (truthy u) && negb (truthy g) && truthy s
              && truthy l); [reflexivity|].
    rewrite Hstrip. reflexivity.
  - unfold list_items. cbv zeta. rewrite Hstrip. reflexivity.
  - unfold download_content. cbv zeta. rewrite Hstrip. reflexivity.
Qed.

Lemma item_path_slashes_witness :
  download_content None (Some "/informes/2024.pdf/") None None None None None None
    (Sample.world Sample.app_with_token Sample.friendly)
  = download_content None (Some "/informes/2024.pdf") None None None None None None
      (Sample.world Sample.app_with_token Sample.friendly).
Proof.
  apply (item_path_slashes "/informes/2024.pdf" "/informes/2024.pdf/").
  right. reflexivity.
Defined.

(** The tail of the drive methods that write: one request, whatever the
    answer and whatever the [except] clause makes of it. *)
Lemma send_checked_json_caught req m400 m401 m403 other w :
  exists o,
    catch (response <- send req ;; checked_json response)
      (drive_errors m400 m401 m403 other) w
    = (o, with_sent w req).
Proof.
  unfold catch. destruct (send_checked_json req w) as [o ->].
  destruct o as [v|e]; [eexists; reflexivity|].
  destruct (drive_errors_raises (A := pyval) m400 m401 m403 other e (with_sent w req))
    as [e' ->].
  eexists; reflexivity.
Qed.

(** X24.  [upload_content] has two modes and refuses every mix of them.
    With [item_id] alone it sends one PUT of the bytes to
    [.../items/{item_id}/content]; with [filename] and [parent_id] and no
    [item_id], one PUT to [.../items/{parent_id}:/{filename}:/content];
    with [item_id] and one of the other two, or with neither [item_id] nor
    both of the others, it raises [ValueError] and sends nothing, as it
    does for more than 250 MiB of content. *)
Theorem upload_content_modes :
  forall content filename item_id parent_id d u g s content_type w,
    py_truthy (token (client w)) = true ->
    len (drive_identifiers d u g s) <= 1 ->
    let run := upload_content content filename item_id parent_id d u g s content_type w in
    let put url :=
      mkRequest PUT url []
        [("Authorization", HBearer (token (client w))); ("Content-Type", HStr content_type)]
        (RawBody content) false in
    (250 * 1024 * 1024 < len content -> exists msg, run = (Raise (ValueError msg), w))
    /\ (len content <= 250 * 1024 * 1024 ->
        (truthy item_id = true -> truthy filename = false -> truthy parent_id = false ->
         exists o,
           run = (o, with_sent w
                       (put (drive_base (client w) d u g s ++ "/items/" ++ fstr item_id
                               ++ "/content"))))
        /\ (truthy item_id = false -> truthy filename = true -> truthy parent_id = true ->
            exists o,
              run = (o, with_sent w
                          (put (drive_base (client w) d u g s ++ "/items/"
                                  ++ fstr parent_id ++ ":/" ++ fstr filename
                                  ++ ":/content"))))
        /\ (truthy item_id = (truthy filename || truthy parent_id)
            \/ truthy filename <> truthy parent_id ->
            exists msg, run = (Raise (ValueError msg), w))).
Proof.
  intros content filename item_id parent_id d u g s content_type w Htok Hids run put.
  assert (Hscope : (len (drive_identifiers d u g s) >? 1) = false)
    by (destruct (Z.gtb_spec (len (drive_identifiers d u g s)) 1); [lia|reflexivity]).
  subst run. unfold upload_content. split; [|intros Hsize; repeat split].
  - intros Hbig. unfold catch. rewrite (run_ensure_token _ _ Htok).
    rewrite run_check_raise; [eexists; reflexivity|].
    destruct (Z.gtb_spec (len content) (250 * 1024 * 1024)); [reflexivity|lia].
  - intros Hi Hf Hp.
    unfold catch at 1.
    match goal with
    | |- exists o, match ?m w with _ => _ end = _ =>
        assert (Hm : m w
                     = (response <- send (put (drive_base (client w) d u g s ++ "/items/"
                                                 ++ fstr item_id ++ "/content")) ;;
                        checked_json response) w)
    end.
    { rewrite (run_ensure_token _ _ Htok).
      rewrite run_check
        by (destruct (Z.gtb_spec (len content) (250 * 1024 * 1024)); [lia|reflexivity]).
      rewrite (run_check _ _ _ _ Hscope).
      rewrite run_check by (rewrite Hi, Hf, Hp; reflexivity).
      rewrite run_check by (rewrite Hi; reflexivity).
      rewrite run_get_client. rewrite Hi. reflexivity. }
    rewrite Hm.
    apply (send_checked_json_caught
             (put (drive_base (client w) d u g s ++ "/items/" ++ fstr item_id ++ "/content"))).
  - intros Hi Hf Hp. unfold catch at 1.
    match goal with
    | |- exists o, match ?m w with _ => _ end = _ =>
        assert (Hm : m w
                     = (response <- send (put (drive_base (client w) d u g s ++ "/items/"
                                                 ++ fstr parent_id ++ ":/" ++ fstr filename
                                                 ++ ":/content")) ;;
                        checked_json response) w)
    end.
    { rewrite (run_ensure_token _ _ Htok).
      rewrite run_check
        by (destruct (Z.gtb_spec (len content) (250 * 1024 * 1024)); [lia|reflexivity]).
      rewrite (run_check _ _ _ _ Hscope).
      rewrite run_check by (rewrite Hi; reflexivity).
      rewrite run_check by (rewrite Hi, Hf, Hp; reflexivity).
      rewrite run_get_client. rewrite Hi. reflexivity. }
    rewrite Hm.
    apply (send_checked_json_caught
             (put (drive_base (client w) d u g s ++ "/items/" ++ fstr parent_id ++ ":/"
                     ++ fstr filename ++ ":/content"))).
  - intros Hmix. unfold catch. rewrite (run_ensure_token _ _ Htok).
    rewrite run_check
      by (destruct (Z.gtb_spec (len content) (250 * 1024 * 1024)); [lia|reflexivity]).
    rewrite (run_check _ _ _ _ Hscope).
    destruct (truthy item_id) eqn:Hi.
    + rewrite run_check_raise; [eexists; reflexivity|].
      destruct Hmix as [H|H]; [symmetry; exact H|].
      destruct (truthy filename), (truthy parent_id); try reflexivity; congruence.
    + rewrite run_check by reflexivity.
      rewrite run_check_raise; [eexists; reflexivity|].
      destruct Hmix as [H|H];
        destruct (truthy filename), (truthy parent_id); simpl in *; congruence.
Qed.

Lemma upload_content_modes_witness :
  exists msg,
    upload_content (Sample.zeros 16) (Some "nota.txt") (Some "01ABC") None None
      (Some "ana@contoso.com") None None "text/plain"
      (Sample.world Sample.app_with_token Sample.friendly)
    = (Raise (ValueError msg), Sample.world Sample.app_with_token Sample.friendly).
Proof.
  apply (upload_content_modes (Sample.zeros 16) (Some "nota.txt") (Some "01ABC") None
           None (Some "ana@contoso.com") None None "text/plain"
           (Sample.world Sample.app_with_token Sample.friendly));
    [reflexivity | vm_compute; discriminate | vm_compute; discriminate
     | left; reflexivity].
Defined.

(** X25.  [create_folder] never falls back to the drive of [/me]: when no
    scope identifier is given, or the one given is the empty string, it
    raises [ValueError] and sends nothing. *)
Theorem create_folder_needs_scope :
  forall name parent_id d u g s conflict_behavior w,
    py_truthy (token (client w)) = true ->
    truthy d = false -> truthy u = false -> truthy g = false -> truthy s = false ->
    exists msg,
      create_folder name parent_id d u g s conflict_behavior w
      = (Raise (ValueError msg), w).
Proof.
  intros name parent_id d u g s conflict_behavior w Htok Hd Hu Hg Hs.
  unfold create_folder, catch. rewrite (run_ensure_token _ _ Htok).
  destruct (len (drive_identifiers d u g s) =? 0);
    [rewrite run_check_raise by reflexivity; eexists; reflexivity|].
  rewrite run_check by reflexivity.
  destruct (len (drive_identifiers d u g s) >? 1);
    [rewrite run_check_raise by reflexivity; eexists; reflexivity|].
  rewrite run_check by reflexivity.
  destruct (existsb (String.eqb conflict_behavior) ["rename"; "replace"; "fail"]);
    [|rewrite run_check_raise by reflexivity; eexists; reflexivity].
  rewrite run_check by reflexivity. rewrite run_get_client.
  rewrite run_check_raise by (rewrite Hd, Hu, Hg, Hs; reflexivity).
  eexists; reflexivity.
Qed.

Lemma create_folder_needs_scope_witness :
  exists msg,
    create_folder "Informes" None None (Some "") None None "rename"
      (Sample.world Sample.app_with_token Sample.friendly)
    = (Raise (ValueError msg), Sample.world Sample.app_with_token Sample.friendly).
Proof. apply create_folder_needs_scope; reflexivity. Defined.

(** X26.  [list_drives] without a resource.  Unless both [resource_id] and
    [resource_type] are given, the method asks for
    [{base_url}/users/{user_id}/drives] and does not look at the resource:
    a [resource_id] alone is ignored, a [resource_type] alone is not
    checked, and without a [user_id] the f-string writes [None] into the
    path, so the request goes to [/users/None/drives]. *)
Theorem list_drives_without_resource :
  forall user_id resource_id resource_type select w,
    py_truthy (token (client w)) = true ->
    truthy resource_id = false \/ truthy resource_type = false ->
    exists o,
      list_drives user_id resource_id resource_type select w
      = (o, with_sent w
              (mkRequest GET
                 (base_url (client w) ++ "/users/"
                    ++ match user_id with Some u => u | None => "None" end
                    ++ "/drives")
                 (add_if select "$select" [])
                 [("Authorization", HBearer (token (client w)))] NoBody false)).
Proof.
  intros user_id resource_id resource_type select w Htok Hres.
  unfold list_drives. rewrite (run_ensure_token _ _ Htok), run_get_client.
  assert (Hurl : list_drives_url (client w) user_id resource_id resource_type w
                 = (Return (base_url (client w) ++ "/users/" ++ fstr user_id ++ "/drives"), w)).
  { unfold list_drives_url.
    replace (truthy resource_id && truthy resource_type) with false; [reflexivity|].
    destruct Hres as [-> | ->]; [reflexivity | rewrite andb_false_r; reflexivity]. }
  rewrite (run_bind _ _ _ _ _ Hurl).
  apply send_checked_json.
Qed.

Lemma list_drives_without_resource_witness :
  exists o,
    list_drives None (Some "b!x1") None None
      (Sample.world Sample.app_with_token Sample.friendly)
    = (o, with_sent (Sample.world Sample.app_with_token Sample.friendly)
            (mkRequest GET "https://graph.microsoft.com/v1.0/users/None/drives" []
               [("Authorization", HBearer (PyStr "eyJ0"))] NoBody false)).
Proof.
  apply (list_drives_without_resource None (Some "b!x1") None None
           (Sample.world Sample.app_with_token Sample.friendly));
    [reflexivity | right; reflexivity].
Defined.

(* ---------------------------------------------------------------------- *)
(** ** From the constructor to the first call *)

(** X27.  A client as the constructor builds it has no token, so the first
    call of a method starts with the token exchange: the first request that
    [list_users] sends on a new client is the POST to the token endpoint of
    the client's tenant, with the client's identifier and secret in its
    form; at most one request follows it. *)
Theorem first_call_requests_token :
  forall cid csecret tid c srv fs mm select filter search orderby top,
    MsGraphBase_init cid csecret tid = Return c ->
    exists o w1 rest,
      list_users select filter search orderby top (mkWorld c [] srv fs mm) = (o, w1)
      /\ sent w1
         = mkRequest POST
             ("https://login.microsoftonline.com/" ++ opt_str tid ++ "/oauth2/v2.0/token")
             [] []
             (FormBody [("grant_type", "client_credentials");
                        ("client_id", opt_str cid);
                        ("client_secret", opt_str csecret);
                        ("scope", "https://graph.microsoft.com/.default")])
             false
           :: rest
      /\ (List.length rest <= 1)%nat.
Proof.
  intros cid csecret tid c srv fs mm select filter search orderby top Hinit.
  assert (Hreq : token_request c
                 = mkRequest POST
                     ("https://login.microsoftonline.com/" ++ opt_str tid
                        ++ "/oauth2/v2.0/token")
                     [] []
                     (FormBody [("grant_type", "client_credentials");
                                ("client_id", opt_str cid);
                                ("client_secret", opt_str csecret);
                                ("scope", "https://graph.microsoft.com/.default")])
                     false).
  { unfold MsGraphBase_init in Hinit.
    destruct (truthy cid); [|discriminate].
    destruct (truthy csecret); [|discriminate].
    destruct (truthy tid); [|discriminate].
    inversion Hinit. reflexivity. }
  assert (Htok : py_truthy (token c) = false).
  { unfold MsGraphBase_init in Hinit.
    destruct (truthy cid); [|discriminate].
    destruct (truthy csecret); [|discriminate].
    destruct (truthy tid); [|discriminate].
    inversion Hinit. reflexivity. }
  set (w := mkWorld c [] srv fs mm).
  unfold list_users.
  destruct (get_token w) as [[t|e] w1] eqn:Hget.
  - assert (Hens : ensure_token w = (Return tt, w1))
      by (rewrite (ensure_token_fetch w Htok), Hget; reflexivity).
    rewrite (run_bind _ _ _ _ _ Hens), run_get_client.
    destruct (send_checked_json
                (list_users_request (client w1) select filter search orderby top) w1)
      as [o Ho].
    rewrite Ho. eexists; eexists; eexists. split; [reflexivity|].
    unfold with_sent. simpl sent. rewrite (get_token_sent _ _ _ Hget).
    simpl. rewrite Hreq. split; [reflexivity|]. simpl. lia.
  - assert (Hens : ensure_token w = (Raise e, w1))
      by (rewrite (ensure_token_fetch w Htok), Hget; reflexivity).
    rewrite (run_bind_raise _ _ _ _ _ Hens).
    eexists; eexists; exists []. split; [reflexivity|].
    rewrite (get_token_sent _ _ _ Hget). simpl. rewrite Hreq.
    split; [reflexivity|]. simpl. lia.
Qed.

Lemma first_call_requests_token_witness :
  exists o w1 rest,
    list_users None None (Some "ana") None None
      (mkWorld Sample.app [] Sample.friendly (fun _ => None) (fun _ => None))
    = (o, w1)
    /\ sent w1
       = mkRequest POST
           "https://login.microsoftonline.com/contoso/oauth2/v2.0/token" [] []
           (FormBody [("grant_type", "client_credentials");
                      ("client_id", "app-id");
                      ("client_secret", "app-secret");
                      ("scope", "https://graph.microsoft.com/.default")])
           false
         :: rest
    /\ (List.length rest <= 1)%nat.
Proof.
  apply (first_call_requests_token (Some "app-id") (Some "app-secret") (Some "contoso")).
  reflexivity.
Defined.

(* ---------------------------------------------------------------------- *)
(** ** More on [_process_recipients] *)

(** What one turn of the loop returns, the loop returns unchanged. *)
Lemma process_recipient_fixed r d :
  process_recipient r = Return d -> process_recipient d = Return d.
Proof.
  destruct r as [| | | | | items | |entries]; simpl; try discriminate.
  - intros H; inversion H; reflexivity.
  - destruct items as [|a [|b [|x rest]]]; try discriminate;
      intros H; inversion H; reflexivity.
  - destruct (is_some (dict_get "emailAddress" entries)) eqn:E;
      intros H; inversion H; subst; simpl; [rewrite E|]; reflexivity.
Qed.

Lemma process_loop_returns recipients :
  forall processed out,
    process_loop recipients processed = Return out ->
    exists ds, out = (processed ++ ds)%list
               /\ Forall (fun d => process_recipient d = Return d) ds.
Proof.
  induction recipients as [|r rest IH]; intros processed out H; simpl in H.
  - inversion H. exists []. rewrite app_nil_r. split; [reflexivity|constructor].
  - destruct (process_recipient r) as [d|e] eqn:Hr; [|discriminate].
    destruct (IH _ _ H) as (ds & -> & Hds).
    exists (d :: ds). rewrite <- app_assoc. split; [reflexivity|].
    constructor; [exact (process_recipient_fixed _ _ Hr)|exact Hds].
Qed.

Lemma process_loop_fixed ds :
  Forall (fun d => process_recipient d = Return d) ds ->
  forall processed, process_loop ds processed = Return (processed ++ ds)%list.
Proof.
  induction 1 as [|d ds Hd _ IH]; intros processed; simpl.
  - rewrite app_nil_r. reflexivity.
  - rewrite Hd, IH, <- app_assoc. reflexivity.
Qed.

(** X28.  [_process_recipients] is idempotent: a list it returns is a list
    it accepts and returns unchanged, so recipients that were normalized
    once can be passed again. *)
Theorem process_recipients_idempotent :
  forall recipients out,
    _process_recipients recipients = Return out ->
    _process_recipients out = Return out.
Proof.
  intros recipients out H. unfold _process_recipients in *.
  destruct (process_loop_returns _ _ _ H) as (ds & -> & Hds).
  simpl. apply (process_loop_fixed _ Hds).
Qed.

Lemma process_recipients_idempotent_witness :
  _process_recipients
    [email_address (PyStr "ana@contoso.com") (PyStr "");
     email_address (PyStr "luis@contoso.com") (PyStr "Luis")]
  = Return [email_address (PyStr "ana@contoso.com") (PyStr "");
            email_address (PyStr "luis@contoso.com") (PyStr "Luis")].
Proof.
  apply (process_recipients_idempotent
           [PyStr "ana@contoso.com"; PyTuple [PyStr "luis@contoso.com"; PyStr "Luis"]]).
  reflexivity.
Defined.
